(** * Session and presence coordinator of the quiz socket server

    A shallow embedding of the socket.io server of quizapp-socket.  The
    repository carries four revisions of the same server:

    - [Basic]    : server.ts, one registry keyed by quiz id;
    - [Scored]   : the revision that adds [score] and [update_score];
    - [Admin]    : the revision that adds [adminToken] and [admin_end_quiz];
    - [TwoIndex] : the revision that keeps two registries, one keyed by quiz
                   id and one keyed by room code, and splits joining into
                   [request_session] and [join_game]; the copy of it that
                   writes a log differs in the logging alone, which is not
                   modelled.

    Every handler runs to completion on Node's event loop, so a handler is
    one transition of the state; the only handler that suspends is
    [admin_end_quiz], which is split at its [await].  The source catches no
    exception of a handler ([admin_end_quiz] catches those of its request
    alone): a handler that throws has no transition, and a run ends there.

    Besides the registries of the source, a state holds what the runtime
    holds for the handlers: the pending timers with the data their
    callbacks close over, the suspended [admin_end_quiz] calls, the number
    of random draws made so far and the clock in milliseconds.  A socket is
    its [socket.id]; a timer handle is a number; what a handler sends is
    returned as a list of actions, in the order of the calls. *)

From stdpp Require Import gmap strings list.
From Stdlib Require Import String Ascii NArith ZArith Lia List Bool.
Import ListNotations.
Open Scope string_scope.

(** ** Plain JavaScript objects used as dictionaries

    [for ... in], [Object.keys] and [Object.values] enumerate the own
    properties of an ordinary object with the array-index keys first, in
    ascending numeric order, and then the other string keys in the order of
    their creation.  The handlers depend on that order ([disconnect] stops at
    the first session that holds the socket), so an object is an association
    list kept in enumeration order.

    An object literal also inherits the members of [Object.prototype], and
    [o[k]] yields the inherited member when [o] has no own property [k].
    The registries are indexed by quiz ids and room codes that the client
    chooses, so the handlers that read [registry[key]] distinguish three
    cases: an own property ([get] answers it), an inherited member
    ([inherited]), and [undefined].  The rosters are indexed by the socket
    ids that socket.io generates. *)

Module JsObject.

Definition digit (c : ascii) : option N :=
  let n := N_of_ascii c in
  if ((48 <=? n) && (n <=? 57))%N then Some (n - 48)%N else None.

Fixpoint digits (acc : N) (s : string) : option N :=
  match s with
  | EmptyString => Some acc
  | String c s' =>
      match digit c with
      | Some d => digits (10 * acc + d)%N s'
      | None => None
      end
  end.

(** An array index is a canonical numeric string below 2^32 - 1. *)
Definition array_index (k : string) : option N :=
  match k with
  | EmptyString => None
  | String "0"%char EmptyString => Some 0%N
  | String "0"%char _ => None
  | _ =>
      match digits 0 k with
      | Some n => if (n <? 4294967295)%N then Some n else None
      | None => None
      end
  end.

(** [precedes k k'] : a property [k] that is being created is enumerated
    before the existing property [k']. *)
Definition precedes (k k' : string) : bool :=
  match array_index k, array_index k' with
  | Some n, Some n' => (n <? n')%N
  | Some _, None => true
  | None, _ => false
  end.

(** The members of [Object.prototype].  Each is a function, and
    ["__proto__"] reads the prototype object itself: a truthy value that has
    none of the properties of a session ([roomCode], [players],
    [cleanupTimeout] read as [undefined] on it).  None is enumerable, so
    [for ... in], [Object.keys] and [Object.values] skip them. *)
Definition prototype_names : list string :=
  [ "constructor"; "__defineGetter__"; "__defineSetter__"; "hasOwnProperty";
    "__lookupGetter__"; "__lookupSetter__"; "isPrototypeOf";
    "propertyIsEnumerable"; "toString"; "valueOf"; "__proto__";
    "toLocaleString" ].

(** [k] names a member that every object literal inherits. *)
Definition inherited (k : string) : bool :=
  existsb (String.eqb k) prototype_names.

Section Object.
Context {V : Type}.

Definition t : Type := list (string * V).

Definition empty : t := [].

(** The own property [k] of [o].  [o[k]] is this value when there is one;
    otherwise it is the inherited member when [inherited k], and
    [undefined] when not. *)
Fixpoint get (k : string) (o : t) : option V :=
  match o with
  | [] => None
  | (k', v) :: rest => if String.eqb k k' then Some v else get k rest
  end.

Fixpoint create (k : string) (v : V) (o : t) : t :=
  match o with
  | [] => [(k, v)]
  | (k', v') :: rest =>
      if precedes k k' then (k, v) :: o else (k', v') :: create k v rest
  end.

Fixpoint overwrite (k : string) (v : V) (o : t) : t :=
  match o with
  | [] => []
  | (k', v') :: rest =>
      if String.eqb k k' then (k', v) :: rest else (k', v') :: overwrite k v rest
  end.

(** [o[k] = v] : an existing property keeps its place. *)
Definition set (k : string) (v : V) (o : t) : t :=
  match get k o with
  | Some _ => overwrite k v o
  | None => create k v o
  end.

(** [delete o[k]] *)
Fixpoint delete (k : string) (o : t) : t :=
  match o with
  | [] => []
  | (k', v) :: rest =>
      if String.eqb k k' then delete k rest else (k', v) :: delete k rest
  end.

(** [Object.keys(o)] and [Object.values(o)] *)
Definition keys (o : t) : list string := map fst o.
Definition values (o : t) : list V := map snd o.

(** [Object.keys(o).length === 0] *)
Definition is_empty (o : t) : bool :=
  match keys o with
  | [] => true
  | _ :: _ => false
  end.

(** The first property, in enumeration order, whose value satisfies [p]:
    the shape of a [for ... in] loop that breaks at its first hit. *)
Fixpoint find_entry (p : V -> bool) (o : t) : option (string * V) :=
  match o with
  | [] => None
  | (k, v) :: rest => if p v then Some (k, v) else find_entry p rest
  end.

(** [Object.values(o).find(p)] *)
Definition find_value (p : V -> bool) (o : t) : option V :=
  List.find p (values o).

(** The object found by [Object.values(o).find(p)], or reached by the
    [for ... in] loop, is a reference: mutating it changes the value held by
    the first property that satisfies [p], in place. *)
Fixpoint modify_first (p : V -> bool) (f : V -> V) (o : t) : t :=
  match o with
  | [] => []
  | (k, v) :: rest =>
      if p v then (k, f v) :: rest else (k, v) :: modify_first p f rest
  end.

(** [Object.values(o).some(p)] *)
Definition some (p : V -> bool) (o : t) : bool :=
  List.existsb p (values o).

End Object.

Arguments t : clear implicits.

End JsObject.

Abbreviation jsobj := JsObject.t.

(** JavaScript truthiness of the values the handlers test. *)
Definition truthy_string (s : string) : bool :=
  match s with
  | EmptyString => false
  | String _ _ => true
  end.

Definition truthy_opt_string (s : option string) : bool :=
  match s with
  | Some s => truthy_string s
  | None => false
  end.

Definition is_some {A : Type} (o : option A) : bool :=
  match o with
  | Some _ => true
  | None => false
  end.

(** [a === b] on values that are a string or [undefined]. *)
Definition opt_string_eqb (a b : option string) : bool :=
  match a, b with
  | Some x, Some y => String.eqb x y
  | None, None => true
  | _, _ => false
  end.

(** ** Room codes

    [rnd i] is the value of the [i]-th evaluation of
    [Math.floor(Math.random() * chars.length)] since the process started;
    the state of each revision records how many evaluations were made. *)

Module RoomCode.

Definition chars : string := "ABCDEFGHIJKLMNPQRSTUVWXYZ123456789".

(** The symbols of a string, and the strings written in the alphabet. *)
Definition symbols (s : string) : list ascii := list_ascii_of_string s.

Definition in_alphabet (s : string) : Prop :=
  Forall (fun c => In c (symbols chars)) (symbols s).

(** [s.charAt(n)] : the empty string when [n] is out of range. *)
Definition charAt (n : nat) (s : string) : string :=
  match String.get n s with
  | Some c => String c EmptyString
  | None => EmptyString
  end.

(** The [for] loop: [n] more symbols appended to [code]. *)
Fixpoint draw (n : nat) (rnd : nat -> nat) (cur : nat) (code : string) : string :=
  match n with
  | O => code
  | S n' => draw n' rnd (S cur) (String.append code (charAt (rnd cur) chars))
  end.

Definition candidate (rnd : nat -> nat) (cur : nat) : string :=
  draw 6 rnd cur EmptyString.

(** The recursion of [generateRoomCode], with the collision test of the
    revision as [in_use].  Node keeps a stack frame for every nested call
    (its engine does not eliminate tail calls), so each retry takes a frame:
    [fuel] is the number of nested calls of [generateRoomCode] the stack has
    room for, and [None] is the RangeError thrown by the call that exceeds
    it.  The result carries the number of random draws made so far. *)
Fixpoint generate (fuel : nat) (in_use : string -> bool)
    (rnd : nat -> nat) (cur : nat) : option (string * nat) :=
  match fuel with
  | O => None
  | S fuel' =>
      let code := candidate rnd cur in
      if in_use code then generate fuel' in_use rnd (cur + 6)
      else Some (code, cur + 6)
  end.

End RoomCode.

(** Coordinates, scores and user ids are JavaScript numbers that the server
    stores and forwards without computing on them. *)
Definition number : Type := Z.

(** Whom an emitted event is addressed to. *)
Inductive target : Type :=
  | ToSocket (id : string)                          (* socket.emit *)
  | ToRoomExceptSender (room : string) (id : string) (* socket.to(room).emit *)
  | ToRoom (room : string).                         (* io.to(room).emit *)

(** The delay of the cleanup timer, in milliseconds. *)
Definition cleanup_delay : N := 60000%N.

(** ** server.ts *)

Module Basic.

Record PlayerData : Type := {
  x : number;
  y : number;
  character : string;
  username : string
}.

Record Session : Type := {
  roomCode : string;
  players : jsobj PlayerData;
  cleanupTimeout : option nat
}.

Definition isCodeInUse (activeSessions : jsobj Session) (code : string) : bool :=
  JsObject.some (fun session => String.eqb (roomCode session) code) activeSessions.

Definition generateRoomCode (fuel : nat) (rnd : nat -> nat)
    (activeSessions : jsobj Session) (cur : nat) : option (string * nat) :=
  RoomCode.generate fuel (isCodeInUse activeSessions) rnd cur.

(** The handlers of server.ts. *)

Record Timer : Type := {
  due : N;
  quizIdToClean : string
}.

Record State : Type := {
  activeSessions : jsobj Session;
  timers : gmap nat Timer;
  next_timer : nat;
  draws : nat;
  now : N
}.

Definition init : State :=
  {| activeSessions := []; timers := ∅; next_timer := 0; draws := 0; now := 0%N |}.

Inductive event : Type :=
  | session_ready (quizId roomCode : string) (players : jsobj PlayerData)
      (ownSocketId : string)
  | new_player (playerId : string) (playerInfo : PlayerData)
  | player_moved (playerId : string) (x y : number)
  | player_disconnected (playerId : string).

Inductive action : Type :=
  | Join (socket room : string)
  | Emit (to : target) (e : event).

Definition set_players (ps : jsobj PlayerData) (s : Session) : Session :=
  {| roomCode := roomCode s; players := ps; cleanupTimeout := cleanupTimeout s |}.

Definition set_cleanupTimeout (h : option nat) (s : Session) : Session :=
  {| roomCode := roomCode s; players := players s; cleanupTimeout := h |}.

Definition set_activeSessions (a : jsobj Session) (st : State) : State :=
  {| activeSessions := a; timers := timers st; next_timer := next_timer st;
     draws := draws st; now := now st |}.

Definition set_position (nx ny : number) (p : PlayerData) : PlayerData :=
  {| x := nx; y := ny; character := character p; username := username p |}.

Definition has_roomCode (code : string) (session : Session) : bool :=
  String.eqb (roomCode session) code.

Definition has_player (socket : string) (session : Session) : bool :=
  is_some (JsObject.get socket (players session)).

(** [socket.on('request_session', ({ quizId, playerInfo }) => ...)].
    [None] : the handler throws, and nothing in the source catches it.
    Either [generateRoomCode] exceeds the stack, or [quizId] names a member
    that [activeSessions] inherits: [activeSessions[quizId]] is then truthy,
    no session is created, [session.players] is [undefined], and after
    [socket.join(undefined)] the assignment to [session.players[socket.id]]
    throws a TypeError. *)
Definition request_session (fuel : nat) (rnd : nat -> nat)
    (socket quizId : string) (playerInfo : PlayerData) (st : State)
  : option (State * list action) :=
  let found :=
    match JsObject.get quizId (activeSessions st) with
    | Some session => Some (session, draws st)
    | None =>
        if JsObject.inherited quizId then None else
        match generateRoomCode fuel rnd (activeSessions st) (draws st) with
        | Some (code, d) =>
            Some ({| roomCode := code; players := []; cleanupTimeout := None |}, d)
        | None => None
        end
    end in
  match found with
  | None => None
  | Some (session, d) =>
      let timers' :=
        match cleanupTimeout session with
        | Some h => delete h (timers st)
        | None => timers st
        end in
      let players' := JsObject.set socket playerInfo (players session) in
      let session' :=
        {| roomCode := roomCode session; players := players';
           cleanupTimeout := None |} in
      Some ({| activeSessions := JsObject.set quizId session' (activeSessions st);
               timers := timers'; next_timer := next_timer st;
               draws := d; now := now st |},
            [ Join socket (roomCode session);
              Emit (ToSocket socket)
                (session_ready quizId (roomCode session) players' socket);
              Emit (ToRoomExceptSender (roomCode session) socket)
                (new_player socket playerInfo) ])
  end.

(** [socket.on('player_movement', ({ roomCode, x, y }) => ...)] *)
Definition player_movement (socket code : string) (nx ny : number) (st : State)
  : State * list action :=
  match JsObject.find_value (has_roomCode code) (activeSessions st) with
  | Some session =>
      match JsObject.get socket (players session) with
      | Some p =>
          let mutate s :=
            set_players (JsObject.set socket (set_position nx ny p) (players s)) s in
          (set_activeSessions
             (JsObject.modify_first (has_roomCode code) mutate (activeSessions st)) st,
           [ Emit (ToRoomExceptSender code socket) (player_moved socket nx ny) ])
      | None => (st, [])
      end
  | None => (st, [])
  end.

(** [socket.on('disconnect', () => ...)] *)
Definition disconnect (socket : string) (st : State) : State * list action :=
  match JsObject.find_entry (has_player socket) (activeSessions st) with
  | None => (st, [])
  | Some (quizId, session) =>
      let roomCodeToNotify := roomCode session in
      let players' := JsObject.delete socket (players session) in
      let emptied := JsObject.is_empty players' in
      let quizIdToClean := if emptied then Some quizId else None in
      let emitted :=
        [ Emit (ToRoomExceptSender roomCodeToNotify socket)
            (player_disconnected socket) ] in
      if truthy_opt_string quizIdToClean then
        let h := next_timer st in
        let mutate s := set_cleanupTimeout (Some h) (set_players players' s) in
        ({| activeSessions :=
              JsObject.modify_first (has_player socket) mutate (activeSessions st);
            timers :=
              <[ h := {| due := (now st + cleanup_delay)%N; quizIdToClean := quizId |} ]>
                (timers st);
            next_timer := S h; draws := draws st; now := now st |},
         emitted)
      else
        (set_activeSessions
           (JsObject.modify_first (has_player socket) (set_players players')
              (activeSessions st)) st,
         emitted)
  end.

(** The callback of the cleanup timer.  [None] : the timer is not pending
    or not due yet. *)
Definition timer_fires (h : nat) (st : State) : option State :=
  match timers st !! h with
  | Some tm =>
      if (due tm <=? now st)%N then
        Some {| activeSessions := JsObject.delete (quizIdToClean tm) (activeSessions st);
                timers := delete h (timers st); next_timer := next_timer st;
                draws := draws st; now := now st |}
      else None
  | None => None
  end.

Definition elapse (ms : N) (st : State) : State :=
  {| activeSessions := activeSessions st; timers := timers st;
     next_timer := next_timer st; draws := draws st; now := (now st + ms)%N |}.

Inductive input : Type :=
  | RequestSession (socket quizId : string) (playerInfo : PlayerData)
  | PlayerMovement (socket roomCode : string) (x y : number)
  | Disconnect (socket : string)
  | TimerFires (handle : nat)
  | Elapse (ms : N).

Definition step (fuel : nat) (rnd : nat -> nat) (st : State) (i : input)
  : option (State * list action) :=
  match i with
  | RequestSession socket quizId playerInfo =>
      request_session fuel rnd socket quizId playerInfo st
  | PlayerMovement socket code nx ny => Some (player_movement socket code nx ny st)
  | Disconnect socket => Some (disconnect socket st)
  | TimerFires h =>
      match timer_fires h st with
      | Some st' => Some (st', [])
      | None => None
      end
  | Elapse ms => Some (elapse ms st, [])
  end.

Fixpoint run (fuel : nat) (rnd : nat -> nat) (st : State) (inputs : list input)
  : option (State * list action) :=
  match inputs with
  | [] => Some (st, [])
  | i :: rest =>
      match step fuel rnd st i with
      | Some (st', out) =>
          match run fuel rnd st' rest with
          | Some (st'', out') => Some (st'', (out ++ out')%list)
          | None => None
          end
      | None => None
      end
  end.

Definition byQuizId (quizId : string) (st : State) : option Session :=
  JsObject.get quizId (activeSessions st).

Definition byRoomCode (code : string) (st : State) : option Session :=
  JsObject.find_value (has_roomCode code) (activeSessions st).

End Basic.

(** ** The revision with scores *)

Module Scored.

Record PlayerData : Type := {
  x : number;
  y : number;
  character : string;
  username : string;
  score : number
}.

Record Session : Type := {
  roomCode : string;
  players : jsobj PlayerData;
  cleanupTimeout : option nat
}.

(** A pending [setTimeout]: when it is due and the [quizIdToClean] its
    callback closes over. *)
Record Timer : Type := {
  due : N;
  quizIdToClean : string
}.

Record State : Type := {
  activeSessions : jsobj Session;
  timers : gmap nat Timer;
  next_timer : nat;
  draws : nat;
  now : N
}.

Definition init : State :=
  {| activeSessions := []; timers := ∅; next_timer := 0; draws := 0; now := 0%N |}.

Inductive event : Type :=
  | session_ready (quizId roomCode : string) (players : jsobj PlayerData)
      (ownSocketId : string)
  | new_player (playerId : string) (playerInfo : PlayerData)
  | leaderboard_update (roster : list PlayerData)
  | player_moved (playerId : string) (x y : number)
  | player_disconnected (playerId : string).

Inductive action : Type :=
  | Join (socket room : string)
  | Emit (to : target) (e : event).

Definition set_players (ps : jsobj PlayerData) (s : Session) : Session :=
  {| roomCode := roomCode s; players := ps; cleanupTimeout := cleanupTimeout s |}.

Definition set_cleanupTimeout (h : option nat) (s : Session) : Session :=
  {| roomCode := roomCode s; players := players s; cleanupTimeout := h |}.

Definition set_activeSessions (a : jsobj Session) (st : State) : State :=
  {| activeSessions := a; timers := timers st; next_timer := next_timer st;
     draws := draws st; now := now st |}.

(** [{ ...playerInfo, score: 0 }] *)
Definition joined (playerInfo : PlayerData) : PlayerData :=
  {| x := x playerInfo; y := y playerInfo; character := character playerInfo;
     username := username playerInfo; score := 0%Z |}.

Definition set_position (nx ny : number) (p : PlayerData) : PlayerData :=
  {| x := nx; y := ny; character := character p; username := username p;
     score := score p |}.

Definition set_score (n : number) (p : PlayerData) : PlayerData :=
  {| x := x p; y := y p; character := character p; username := username p;
     score := n |}.

Definition has_roomCode (code : string) (session : Session) : bool :=
  String.eqb (roomCode session) code.

Definition has_player (socket : string) (session : Session) : bool :=
  is_some (JsObject.get socket (players session)).

Definition isCodeInUse (st : State) (code : string) : bool :=
  JsObject.some (has_roomCode code) (activeSessions st).

Definition generateRoomCode (fuel : nat) (rnd : nat -> nat) (st : State)
  : option (string * nat) :=
  RoomCode.generate fuel (isCodeInUse st) rnd (draws st).

(** [socket.on('request_session', ({ quizId, playerInfo }) => ...)].
    [None] : the handler throws, and nothing in the source catches it.
    Either [generateRoomCode] exceeds the stack, or [quizId] names a member
    that [activeSessions] inherits: [activeSessions[quizId]] is then truthy,
    no session is created, [session.players] is [undefined], and after
    [socket.join(undefined)] the assignment to [session.players[socket.id]]
    throws a TypeError. *)
Definition request_session (fuel : nat) (rnd : nat -> nat)
    (socket quizId : string) (playerInfo : PlayerData) (st : State)
  : option (State * list action) :=
  let found :=
    match JsObject.get quizId (activeSessions st) with
    | Some session => Some (session, draws st)
    | None =>
        if JsObject.inherited quizId then None else
        match generateRoomCode fuel rnd st with
        | Some (code, d) =>
            Some ({| roomCode := code; players := []; cleanupTimeout := None |}, d)
        | None => None
        end
    end in
  match found with
  | None => None
  | Some (session, d) =>
      let timers' :=
        match cleanupTimeout session with
        | Some h => delete h (timers st)
        | None => timers st
        end in
      let players' := JsObject.set socket (joined playerInfo) (players session) in
      let session' :=
        {| roomCode := roomCode session; players := players';
           cleanupTimeout := None |} in
      Some ({| activeSessions := JsObject.set quizId session' (activeSessions st);
               timers := timers'; next_timer := next_timer st;
               draws := d; now := now st |},
            [ Join socket (roomCode session);
              Emit (ToSocket socket)
                (session_ready quizId (roomCode session) players' socket);
              Emit (ToRoomExceptSender (roomCode session) socket)
                (new_player socket (joined playerInfo));
              Emit (ToRoom (roomCode session))
                (leaderboard_update (JsObject.values players')) ])
  end.

(** [socket.on('player_movement', ({ roomCode, x, y }) => ...)] *)
Definition player_movement (socket code : string) (nx ny : number) (st : State)
  : State * list action :=
  match JsObject.find_value (has_roomCode code) (activeSessions st) with
  | Some session =>
      match JsObject.get socket (players session) with
      | Some p =>
          let mutate s :=
            set_players (JsObject.set socket (set_position nx ny p) (players s)) s in
          (set_activeSessions
             (JsObject.modify_first (has_roomCode code) mutate (activeSessions st)) st,
           [ Emit (ToRoomExceptSender code socket) (player_moved socket nx ny) ])
      | None => (st, [])
      end
  | None => (st, [])
  end.

(** [socket.on('update_score', ({ roomCode, score }) => ...)] *)
Definition update_score (socket code : string) (n : number) (st : State)
  : State * list action :=
  match JsObject.find_value (has_roomCode code) (activeSessions st) with
  | Some session =>
      match JsObject.get socket (players session) with
      | Some p =>
          let players' := JsObject.set socket (set_score n p) (players session) in
          (set_activeSessions
             (JsObject.modify_first (has_roomCode code) (set_players players')
                (activeSessions st)) st,
           [ Emit (ToRoom code) (leaderboard_update (JsObject.values players')) ])
      | None => (st, [])
      end
  | None => (st, [])
  end.

(** [socket.on('disconnect', () => ...)] *)
Definition disconnect (socket : string) (st : State) : State * list action :=
  match JsObject.find_entry (has_player socket) (activeSessions st) with
  | None => (st, [])
  | Some (quizId, session) =>
      let roomCodeToNotify := roomCode session in
      let players' := JsObject.delete socket (players session) in
      let emptied := JsObject.is_empty players' in
      let quizIdToClean := if emptied then Some quizId else None in
      let emitted :=
        Emit (ToRoom roomCodeToNotify) (player_disconnected socket) ::
        (if emptied then []
         else [ Emit (ToRoom roomCodeToNotify)
                  (leaderboard_update (JsObject.values players')) ]) in
      if truthy_opt_string quizIdToClean then
        let h := next_timer st in
        let mutate s := set_cleanupTimeout (Some h) (set_players players' s) in
        ({| activeSessions :=
              JsObject.modify_first (has_player socket) mutate (activeSessions st);
            timers :=
              <[ h := {| due := (now st + cleanup_delay)%N; quizIdToClean := quizId |} ]>
                (timers st);
            next_timer := S h; draws := draws st; now := now st |},
         emitted)
      else
        (set_activeSessions
           (JsObject.modify_first (has_player socket) (set_players players')
              (activeSessions st)) st,
         emitted)
  end.

(** The callback of the cleanup timer.  [None] : the timer is not pending
    (it fired already or was cleared) or it is not due yet. *)
Definition timer_fires (h : nat) (st : State) : option State :=
  match timers st !! h with
  | Some tm =>
      if (due tm <=? now st)%N then
        Some {| activeSessions := JsObject.delete (quizIdToClean tm) (activeSessions st);
                timers := delete h (timers st); next_timer := next_timer st;
                draws := draws st; now := now st |}
      else None
  | None => None
  end.

Definition elapse (ms : N) (st : State) : State :=
  {| activeSessions := activeSessions st; timers := timers st;
     next_timer := next_timer st; draws := draws st; now := (now st + ms)%N |}.

(** What the event loop can deliver. *)
Inductive input : Type :=
  | RequestSession (socket quizId : string) (playerInfo : PlayerData)
  | PlayerMovement (socket roomCode : string) (x y : number)
  | UpdateScore (socket roomCode : string) (score : number)
  | Disconnect (socket : string)
  | TimerFires (handle : nat)
  | Elapse (ms : N).

Definition step (fuel : nat) (rnd : nat -> nat) (st : State) (i : input)
  : option (State * list action) :=
  match i with
  | RequestSession socket quizId playerInfo =>
      request_session fuel rnd socket quizId playerInfo st
  | PlayerMovement socket code nx ny => Some (player_movement socket code nx ny st)
  | UpdateScore socket code n => Some (update_score socket code n st)
  | Disconnect socket => Some (disconnect socket st)
  | TimerFires h =>
      match timer_fires h st with
      | Some st' => Some (st', [])
      | None => None
      end
  | Elapse ms => Some (elapse ms st, [])
  end.

(** A run of the server; the actions are collected in order.  [None] : an
    input cannot be delivered (a timer that is not pending or not due), or
    a handler throws; the source catches no exception of a handler, so the
    run ends there. *)
Fixpoint run (fuel : nat) (rnd : nat -> nat) (st : State) (inputs : list input)
  : option (State * list action) :=
  match inputs with
  | [] => Some (st, [])
  | i :: rest =>
      match step fuel rnd st i with
      | Some (st', out) =>
          match run fuel rnd st' rest with
          | Some (st'', out') => Some (st'', (out ++ out')%list)
          | None => None
          end
      | None => None
      end
  end.

(** Lookups of the registry: by quiz id and by room code. *)
Definition byQuizId (quizId : string) (st : State) : option Session :=
  JsObject.get quizId (activeSessions st).

Definition byRoomCode (code : string) (st : State) : option Session :=
  JsObject.find_value (has_roomCode code) (activeSessions st).

End Scored.

(** ** The revision with an admin token and [admin_end_quiz] *)

Module Admin.

(** [role] is not declared by the interface but is read by the handlers;
    [None] is a [playerInfo] without the field. *)
Record PlayerData : Type := {
  x : number;
  y : number;
  character : string;
  username : string;
  score : number;
  user_id : number;
  role : option string
}.

Record Session : Type := {
  roomCode : string;
  quizId : string;
  players : jsobj PlayerData;
  adminToken : option string;
  cleanupTimeout : option nat
}.

Record Timer : Type := {
  due : N;
  quizIdToClean : string
}.

(** What the suspended [admin_end_quiz] still uses once [fetch] settles:
    its socket, the [roomCode] of its payload and [session.quizId]. *)
Record Suspended : Type := {
  caller : string;
  room : string;
  sessionQuizId : string
}.

Record State : Type := {
  activeSessions : jsobj Session;
  timers : gmap nat Timer;
  next_timer : nat;
  fetches : gmap nat Suspended;
  next_fetch : nat;
  draws : nat;
  now : N
}.

Definition init : State :=
  {| activeSessions := []; timers := ∅; next_timer := 0; fetches := ∅;
     next_fetch := 0; draws := 0; now := 0%N |}.

Inductive event : Type :=
  | session_ready (quizId roomCode : string) (players : jsobj PlayerData)
      (ownSocketId : string)
  | new_player (playerId : string) (playerInfo : PlayerData)
  | leaderboard_update (roster : list PlayerData)
  | player_moved (playerId : string) (x y : number)
  | player_disconnected (playerId : string)
  | quiz_ended (message : string)
  | error_ending_quiz (message : string) (details : option string).

(** [Fetch] is the POST to the results sink, with the bearer token, the
    quiz id and the leaderboard of its body. *)
Inductive action : Type :=
  | Join (socket room : string)
  | Emit (to : target) (e : event)
  | Fetch (id : nat) (bearer : option string) (quizId : string)
      (leaderboard : list PlayerData).

(** How the awaited [fetch] settles: [response.ok], a response that is not
    ok with its parsed body ([None] when [response.json()] rejects), or a
    rejected [fetch]. *)
Inductive outcome : Type :=
  | ResponseOk
  | ResponseNotOk (errorData : option string)
  | FetchThrows.

Definition set_players (ps : jsobj PlayerData) (s : Session) : Session :=
  {| roomCode := roomCode s; quizId := quizId s; players := ps;
     adminToken := adminToken s; cleanupTimeout := cleanupTimeout s |}.

Definition set_adminToken (tk : option string) (s : Session) : Session :=
  {| roomCode := roomCode s; quizId := quizId s; players := players s;
     adminToken := tk; cleanupTimeout := cleanupTimeout s |}.

Definition set_cleanupTimeout (h : option nat) (s : Session) : Session :=
  {| roomCode := roomCode s; quizId := quizId s; players := players s;
     adminToken := adminToken s; cleanupTimeout := h |}.

Definition set_activeSessions (a : jsobj Session) (st : State) : State :=
  {| activeSessions := a; timers := timers st; next_timer := next_timer st;
     fetches := fetches st; next_fetch := next_fetch st;
     draws := draws st; now := now st |}.

(** [{ ...playerInfo, score: 0 }] *)
Definition joined (playerInfo : PlayerData) : PlayerData :=
  {| x := x playerInfo; y := y playerInfo; character := character playerInfo;
     username := username playerInfo; score := 0%Z;
     user_id := user_id playerInfo; role := role playerInfo |}.

Definition set_position (nx ny : number) (p : PlayerData) : PlayerData :=
  {| x := nx; y := ny; character := character p; username := username p;
     score := score p; user_id := user_id p; role := role p |}.

Definition set_score (n : number) (p : PlayerData) : PlayerData :=
  {| x := x p; y := y p; character := character p; username := username p;
     score := n; user_id := user_id p; role := role p |}.

(** [playerInfo.role === 'admin'] *)
Definition is_admin (p : PlayerData) : bool :=
  opt_string_eqb (role p) (Some "admin").

Definition has_roomCode (code : string) (session : Session) : bool :=
  String.eqb (roomCode session) code.

Definition has_player (socket : string) (session : Session) : bool :=
  is_some (JsObject.get socket (players session)).

Definition isCodeInUse (st : State) (code : string) : bool :=
  JsObject.some (has_roomCode code) (activeSessions st).

Definition generateRoomCode (fuel : nat) (rnd : nat -> nat) (st : State)
  : option (string * nat) :=
  RoomCode.generate fuel (isCodeInUse st) rnd (draws st).

(** [socket.on('request_session', ({ quizId, playerInfo, token }) => ...)].
    [None] : the handler throws, and nothing in the source catches it.
    Either [generateRoomCode] exceeds the stack, or [quizId] names a member
    that [activeSessions] inherits: [activeSessions[quizId]] is then truthy,
    no session is created, [session.players] is [undefined], and after
    [socket.join(undefined)] the assignment to [session.players[socket.id]]
    throws a TypeError. *)
Definition request_session (fuel : nat) (rnd : nat -> nat)
    (socket quiz : string) (playerInfo : PlayerData) (token : option string)
    (st : State) : option (State * list action) :=
  let found :=
    match JsObject.get quiz (activeSessions st) with
    | Some session => Some (session, draws st)
    | None =>
        if JsObject.inherited quiz then None else
        match generateRoomCode fuel rnd st with
        | Some (code, d) =>
            Some ({| roomCode := code; quizId := quiz; players := [];
                     adminToken := if is_admin playerInfo then token else None;
                     cleanupTimeout := None |}, d)
        | None => None
        end
    end in
  match found with
  | None => None
  | Some (session, d) =>
      let timers' :=
        match cleanupTimeout session with
        | Some h => delete h (timers st)
        | None => timers st
        end in
      let players' := JsObject.set socket (joined playerInfo) (players session) in
      let session' :=
        {| roomCode := roomCode session; quizId := quizId session;
           players := players'; adminToken := adminToken session;
           cleanupTimeout := None |} in
      Some ({| activeSessions := JsObject.set quiz session' (activeSessions st);
               timers := timers'; next_timer := next_timer st;
               fetches := fetches st; next_fetch := next_fetch st;
               draws := d; now := now st |},
            [ Join socket (roomCode session);
              Emit (ToSocket socket)
                (session_ready quiz (roomCode session) players' socket);
              Emit (ToRoomExceptSender (roomCode session) socket)
                (new_player socket (joined playerInfo));
              Emit (ToRoom (roomCode session))
                (leaderboard_update (JsObject.values players')) ])
  end.

(** [socket.on('player_movement', ({ roomCode, x, y }) => ...)] *)
Definition player_movement (socket code : string) (nx ny : number) (st : State)
  : State * list action :=
  match JsObject.find_value (has_roomCode code) (activeSessions st) with
  | Some session =>
      match JsObject.get socket (players session) with
      | Some p =>
          let mutate s :=
            set_players (JsObject.set socket (set_position nx ny p) (players s)) s in
          (set_activeSessions
             (JsObject.modify_first (has_roomCode code) mutate (activeSessions st)) st,
           [ Emit (ToRoomExceptSender code socket) (player_moved socket nx ny) ])
      | None => (st, [])
      end
  | None => (st, [])
  end.

(** [socket.on('update_score', ({ roomCode, score }) => ...)] *)
Definition update_score (socket code : string) (n : number) (st : State)
  : State * list action :=
  match JsObject.find_value (has_roomCode code) (activeSessions st) with
  | Some session =>
      match JsObject.get socket (players session) with
      | Some p =>
          let players' := JsObject.set socket (set_score n p) (players session) in
          (set_activeSessions
             (JsObject.modify_first (has_roomCode code) (set_players players')
                (activeSessions st)) st,
           [ Emit (ToRoom code) (leaderboard_update (JsObject.values players')) ])
      | None => (st, [])
      end
  | None => (st, [])
  end.

Definition unauthorized (socket : string) : action :=
  Emit (ToSocket socket) (error_ending_quiz "Unauthorized or invalid session." None).

(** [socket.on('admin_end_quiz', async ({ roomCode, token }) => ...)], up to
    its [await fetch(...)]. *)
Definition admin_end_quiz (socket code : string) (token : option string)
    (st : State) : State * list action :=
  match JsObject.find_value (has_roomCode code) (activeSessions st) with
  | Some session =>
      if opt_string_eqb (adminToken session) token then
        let leaderboard := JsObject.values (players session) in
        let id := next_fetch st in
        ({| activeSessions := activeSessions st; timers := timers st;
            next_timer := next_timer st;
            fetches :=
              <[ id := {| caller := socket; room := code;
                          sessionQuizId := quizId session |} ]> (fetches st);
            next_fetch := S id; draws := draws st; now := now st |},
         [ Fetch id token (quizId session) leaderboard ])
      else (st, [ unauthorized socket ])
  | None => (st, [ unauthorized socket ])
  end.

(** The rest of [admin_end_quiz], run when the [fetch] numbered [id]
    settles.  [None] : no handler is suspended on [id]. *)
Definition fetch_settles (id : nat) (o : outcome) (st : State)
  : option (State * list action) :=
  match fetches st !! id with
  | None => None
  | Some k =>
      let resumed (a : jsobj Session) :=
        {| activeSessions := a; timers := timers st; next_timer := next_timer st;
           fetches := delete id (fetches st); next_fetch := next_fetch st;
           draws := draws st; now := now st |} in
      match o with
      | ResponseOk =>
          Some (resumed (JsObject.delete (sessionQuizId k) (activeSessions st)),
                [ Emit (ToRoom (room k))
                    (quiz_ended "Quiz has been ended by the admin.") ])
      | ResponseNotOk (Some errorData) =>
          Some (resumed (activeSessions st),
                [ Emit (ToSocket (caller k))
                    (error_ending_quiz "Failed to save results." (Some errorData)) ])
      | ResponseNotOk None | FetchThrows =>
          Some (resumed (activeSessions st),
                [ Emit (ToSocket (caller k))
                    (error_ending_quiz "Server error while trying to end quiz." None) ])
      end
  end.

(** [socket.on('disconnect', () => ...)] *)
Definition disconnect (socket : string) (st : State) : State * list action :=
  match JsObject.find_entry (has_player socket) (activeSessions st) with
  | None => (st, [])
  | Some (quiz, session) =>
      let roomCodeToNotify := roomCode session in
      let leaving_admin :=
        truthy_opt_string (adminToken session) &&
        match JsObject.get socket (players session) with
        | Some p => is_admin p
        | None => false
        end in
      let token' := if leaving_admin then None else adminToken session in
      let players' := JsObject.delete socket (players session) in
      let emptied := JsObject.is_empty players' in
      let quizIdToClean := if emptied then Some quiz else None in
      let emitted :=
        Emit (ToRoom roomCodeToNotify) (player_disconnected socket) ::
        (if emptied then []
         else [ Emit (ToRoom roomCodeToNotify)
                  (leaderboard_update (JsObject.values players')) ]) in
      let left s := set_players players' (set_adminToken token' s) in
      if truthy_opt_string quizIdToClean then
        let h := next_timer st in
        let mutate s := set_cleanupTimeout (Some h) (left s) in
        ({| activeSessions :=
              JsObject.modify_first (has_player socket) mutate (activeSessions st);
            timers :=
              <[ h := {| due := (now st + cleanup_delay)%N; quizIdToClean := quiz |} ]>
                (timers st);
            next_timer := S h; fetches := fetches st; next_fetch := next_fetch st;
            draws := draws st; now := now st |},
         emitted)
      else
        (set_activeSessions
           (JsObject.modify_first (has_player socket) left (activeSessions st)) st,
         emitted)
  end.

(** The callback of the cleanup timer.  [None] : the timer is not pending
    or not due yet. *)
Definition timer_fires (h : nat) (st : State) : option State :=
  match timers st !! h with
  | Some tm =>
      if (due tm <=? now st)%N then
        Some {| activeSessions := JsObject.delete (quizIdToClean tm) (activeSessions st);
                timers := delete h (timers st); next_timer := next_timer st;
                fetches := fetches st; next_fetch := next_fetch st;
                draws := draws st; now := now st |}
      else None
  | None => None
  end.

Definition elapse (ms : N) (st : State) : State :=
  {| activeSessions := activeSessions st; timers := timers st;
     next_timer := next_timer st; fetches := fetches st;
     next_fetch := next_fetch st; draws := draws st; now := (now st + ms)%N |}.

Inductive input : Type :=
  | RequestSession (socket quizId : string) (playerInfo : PlayerData)
      (token : option string)
  | PlayerMovement (socket roomCode : string) (x y : number)
  | UpdateScore (socket roomCode : string) (score : number)
  | AdminEndQuiz (socket roomCode : string) (token : option string)
  | FetchSettles (id : nat) (o : outcome)
  | Disconnect (socket : string)
  | TimerFires (handle : nat)
  | Elapse (ms : N).

Definition step (fuel : nat) (rnd : nat -> nat) (st : State) (i : input)
  : option (State * list action) :=
  match i with
  | RequestSession socket quiz playerInfo token =>
      request_session fuel rnd socket quiz playerInfo token st
  | PlayerMovement socket code nx ny => Some (player_movement socket code nx ny st)
  | UpdateScore socket code n => Some (update_score socket code n st)
  | AdminEndQuiz socket code token => Some (admin_end_quiz socket code token st)
  | FetchSettles id o => fetch_settles id o st
  | Disconnect socket => Some (disconnect socket st)
  | TimerFires h =>
      match timer_fires h st with
      | Some st' => Some (st', [])
      | None => None
      end
  | Elapse ms => Some (elapse ms st, [])
  end.

Fixpoint run (fuel : nat) (rnd : nat -> nat) (st : State) (inputs : list input)
  : option (State * list action) :=
  match inputs with
  | [] => Some (st, [])
  | i :: rest =>
      match step fuel rnd st i with
      | Some (st', out) =>
          match run fuel rnd st' rest with
          | Some (st'', out') => Some (st'', (out ++ out')%list)
          | None => None
          end
      | None => None
      end
  end.

Definition byQuizId (quiz : string) (st : State) : option Session :=
  JsObject.get quiz (activeSessions st).

Definition byRoomCode (code : string) (st : State) : option Session :=
  JsObject.find_value (has_roomCode code) (activeSessions st).

End Admin.

(** ** The revision with two registries

    Both registries hold references to the same [Session] objects, and the
    callback of a cleanup timer closes over its session.  Sessions therefore
    live in a store, and the registries and the timers hold addresses. *)

Module TwoIndex.

Record PlayerData : Type := {
  x : number;
  y : number;
  character : string;
  username : string
}.

Record Session : Type := {
  roomCode : string;
  players : jsobj PlayerData;
  quizId : string;
  cleanupTimeout : option nat
}.

(** A pending [setTimeout]: when it is due and the [session] its callback
    closes over. *)
Record Timer : Type := {
  due : N;
  session : nat
}.

Record State : Type := {
  store : gmap nat Session;
  next_session : nat;
  activeSessionsByQuizId : jsobj nat;
  activeSessionsByRoomCode : jsobj nat;
  timers : gmap nat Timer;
  next_timer : nat;
  draws : nat;
  now : N
}.

Definition init : State :=
  {| store := ∅; next_session := 0; activeSessionsByQuizId := [];
     activeSessionsByRoomCode := []; timers := ∅; next_timer := 0;
     draws := 0; now := 0%N |}.

(** [session_created] carries [session.roomCode], which is [undefined]
    when [session] is an inherited member. *)
Inductive event : Type :=
  | session_created (roomCode : option string)
  | error (message : string)
  | session_joined (players : jsobj PlayerData) (ownSocketId : string)
  | new_player (playerId : string) (playerInfo : PlayerData)
  | player_moved (playerId : string) (x y : number)
  | player_disconnected (playerId : string).

Inductive action : Type :=
  | Join (socket room : string)
  | Emit (to : target) (e : event).

Definition set_players (ps : jsobj PlayerData) (s : Session) : Session :=
  {| roomCode := roomCode s; players := ps; quizId := quizId s;
     cleanupTimeout := cleanupTimeout s |}.

Definition set_cleanupTimeout (h : option nat) (s : Session) : Session :=
  {| roomCode := roomCode s; players := players s; quizId := quizId s;
     cleanupTimeout := h |}.

Definition set_store (m : gmap nat Session) (st : State) : State :=
  {| store := m; next_session := next_session st;
     activeSessionsByQuizId := activeSessionsByQuizId st;
     activeSessionsByRoomCode := activeSessionsByRoomCode st;
     timers := timers st; next_timer := next_timer st;
     draws := draws st; now := now st |}.

Definition set_position (nx ny : number) (p : PlayerData) : PlayerData :=
  {| x := nx; y := ny; character := character p; username := username p |}.

(** [activeSessionsByRoomCode[code] ? ... : ...] : an own property holds a
    session and an inherited member is a function or an object, all
    truthy. *)
Definition isCodeInUse (st : State) (code : string) : bool :=
  is_some (JsObject.get code (activeSessionsByRoomCode st)) ||
  JsObject.inherited code.

Definition generateRoomCode (fuel : nat) (rnd : nat -> nat) (st : State)
  : option (string * nat) :=
  RoomCode.generate fuel (isCodeInUse st) rnd (draws st).

(** The session at address [a] holds the socket. *)
Definition has_player (socket : string) (st : State) (a : nat) : bool :=
  match store st !! a with
  | Some s => is_some (JsObject.get socket (players s))
  | None => false
  end.

(** [socket.on('request_session', (quizId: string) => ...)].
    When [quizId] names a member that [activeSessionsByQuizId] inherits,
    the member is truthy: no session is created, [session.cleanupTimeout]
    and [session.roomCode] are [undefined], and the handler answers
    [session_created] without a room code.
    [None] : the handler throws because [generateRoomCode] exceeds the
    stack (or the registry holds an address that was never allocated, which
    no run of the server produces). *)
Definition request_session (fuel : nat) (rnd : nat -> nat)
    (socket quiz : string) (st : State) : option (State * list action) :=
  let found :=
    match JsObject.get quiz (activeSessionsByQuizId st) with
    | Some a => Some (Some a, st)
    | None =>
        if JsObject.inherited quiz then Some (None, st) else
        match generateRoomCode fuel rnd st with
        | Some (code, d) =>
            let a := next_session st in
            Some (Some a,
                  {| store :=
                       <[ a := {| roomCode := code; players := []; quizId := quiz;
                                  cleanupTimeout := None |} ]> (store st);
                     next_session := S a;
                     activeSessionsByQuizId :=
                       JsObject.set quiz a (activeSessionsByQuizId st);
                     activeSessionsByRoomCode :=
                       JsObject.set code a (activeSessionsByRoomCode st);
                     timers := timers st; next_timer := next_timer st;
                     draws := d; now := now st |})
        | None => None
        end
    end in
  match found with
  | None => None
  | Some (None, st1) => Some (st1, [ Emit (ToSocket socket) (session_created None) ])
  | Some (Some a, st1) =>
      match store st1 !! a with
      | None => None
      | Some s =>
          let st2 :=
            match cleanupTimeout s with
            | Some h =>
                {| store := <[ a := set_cleanupTimeout None s ]> (store st1);
                   next_session := next_session st1;
                   activeSessionsByQuizId := activeSessionsByQuizId st1;
                   activeSessionsByRoomCode := activeSessionsByRoomCode st1;
                   timers := delete h (timers st1); next_timer := next_timer st1;
                   draws := draws st1; now := now st1 |}
            | None => st1
            end in
          Some (st2, [ Emit (ToSocket socket) (session_created (Some (roomCode s))) ])
      end
  end.

(** [socket.on('join_game', ({ roomCode, playerInfo }) => ...)].
    [None] : the handler throws, and nothing in the source catches it:
    [roomCode] names a member that [activeSessionsByRoomCode] inherits, the
    member is truthy, [session.players] is [undefined], and after
    [socket.join(roomCode)] the assignment to [session.players[socket.id]]
    throws a TypeError. *)
Definition join_game (socket code : string) (playerInfo : PlayerData)
    (st : State) : option (State * list action) :=
  match JsObject.get code (activeSessionsByRoomCode st) with
  | None =>
      if JsObject.inherited code then None
      else Some (st, [ Emit (ToSocket socket) (error "Room not found") ])
  | Some a =>
      match store st !! a with
      | None => Some (st, [])
      | Some s =>
          let players' := JsObject.set socket playerInfo (players s) in
          Some (set_store (<[ a := set_players players' s ]> (store st)) st,
                [ Join socket code;
                  Emit (ToSocket socket) (session_joined players' socket);
                  Emit (ToRoomExceptSender code socket) (new_player socket playerInfo) ])
      end
  end.

(** [socket.on('player_movement', ({ roomCode, x, y }) => ...)].
    [None] : the handler throws, and nothing in the source catches it:
    [roomCode] names a member that [activeSessionsByRoomCode] inherits, and
    [session?.players[socket.id]], which guards [session] alone, reads a
    property of [undefined]: a TypeError. *)
Definition player_movement (socket code : string) (nx ny : number) (st : State)
  : option (State * list action) :=
  match JsObject.get code (activeSessionsByRoomCode st) with
  | None => if JsObject.inherited code then None else Some (st, [])
  | Some a =>
      match store st !! a with
      | None => Some (st, [])
      | Some s =>
          match JsObject.get socket (players s) with
          | None => Some (st, [])
          | Some p =>
              let players' := JsObject.set socket (set_position nx ny p) (players s) in
              Some (set_store (<[ a := set_players players' s ]> (store st)) st,
                    [ Emit (ToRoomExceptSender code socket) (player_moved socket nx ny) ])
          end
      end
  end.

(** [socket.on('disconnect', () => ...)] *)
Definition disconnect (socket : string) (st : State) : State * list action :=
  match JsObject.find_entry (has_player socket st) (activeSessionsByRoomCode st) with
  | None => (st, [])
  | Some (code, a) =>
      match store st !! a with
      | None => (st, [])
      | Some s =>
          let players' := JsObject.delete socket (players s) in
          let emitted := [ Emit (ToRoom code) (player_disconnected socket) ] in
          if JsObject.is_empty players' then
            let h := next_timer st in
            ({| store :=
                  <[ a := set_cleanupTimeout (Some h) (set_players players' s) ]>
                    (store st);
                next_session := next_session st;
                activeSessionsByQuizId := activeSessionsByQuizId st;
                activeSessionsByRoomCode := activeSessionsByRoomCode st;
                timers :=
                  <[ h := {| due := (now st + cleanup_delay)%N; session := a |} ]>
                    (timers st);
                next_timer := S h; draws := draws st; now := now st |},
             emitted)
          else
            (set_store (<[ a := set_players players' s ]> (store st)) st, emitted)
      end
  end.

(** The callback of the cleanup timer.  [None] : the timer is not pending
    or not due yet. *)
Definition timer_fires (h : nat) (st : State) : option State :=
  match timers st !! h with
  | Some tm =>
      if (due tm <=? now st)%N then
        match store st !! session tm with
        | Some s =>
            Some {| store := store st; next_session := next_session st;
                    activeSessionsByQuizId :=
                      JsObject.delete (quizId s) (activeSessionsByQuizId st);
                    activeSessionsByRoomCode :=
                      JsObject.delete (roomCode s) (activeSessionsByRoomCode st);
                    timers := delete h (timers st); next_timer := next_timer st;
                    draws := draws st; now := now st |}
        | None => None
        end
      else None
  | None => None
  end.

Definition elapse (ms : N) (st : State) : State :=
  {| store := store st; next_session := next_session st;
     activeSessionsByQuizId := activeSessionsByQuizId st;
     activeSessionsByRoomCode := activeSessionsByRoomCode st;
     timers := timers st; next_timer := next_timer st;
     draws := draws st; now := (now st + ms)%N |}.

Inductive input : Type :=
  | RequestSession (socket quizId : string)
  | JoinGame (socket roomCode : string) (playerInfo : PlayerData)
  | PlayerMovement (socket roomCode : string) (x y : number)
  | Disconnect (socket : string)
  | TimerFires (handle : nat)
  | Elapse (ms : N).

Definition step (fuel : nat) (rnd : nat -> nat) (st : State) (i : input)
  : option (State * list action) :=
  match i with
  | RequestSession socket quiz => request_session fuel rnd socket quiz st
  | JoinGame socket code playerInfo => join_game socket code playerInfo st
  | PlayerMovement socket code nx ny => player_movement socket code nx ny st
  | Disconnect socket => Some (disconnect socket st)
  | TimerFires h =>
      match timer_fires h st with
      | Some st' => Some (st', [])
      | None => None
      end
  | Elapse ms => Some (elapse ms st, [])
  end.

Fixpoint run (fuel : nat) (rnd : nat -> nat) (st : State) (inputs : list input)
  : option (State * list action) :=
  match inputs with
  | [] => Some (st, [])
  | i :: rest =>
      match step fuel rnd st i with
      | Some (st', out) =>
          match run fuel rnd st' rest with
          | Some (st'', out') => Some (st'', (out ++ out')%list)
          | None => None
          end
      | None => None
      end
  end.

(** The session that a registry holds under a key. *)
Definition byQuizId (quiz : string) (st : State) : option Session :=
  match JsObject.get quiz (activeSessionsByQuizId st) with
  | Some a => store st !! a
  | None => None
  end.

Definition byRoomCode (code : string) (st : State) : option Session :=
  match JsObject.get code (activeSessionsByRoomCode st) with
  | Some a => store st !! a
  | None => None
  end.

End TwoIndex.

(** ** Invariants

    In the revisions with one registry a session never holds a timer handle
    and a participant at once. *)

Definition Scored_exclusive (st : Scored.State) : Prop :=
  forall quiz session,
    In (quiz, session) (Scored.activeSessions st) ->
    Scored.cleanupTimeout session <> None -> Scored.players session = [].

Definition Basic_exclusive (st : Basic.State) : Prop :=
  forall quiz session,
    In (quiz, session) (Basic.activeSessions st) ->
    Basic.cleanupTimeout session <> None -> Basic.players session = [].

Definition Admin_exclusive (st : Admin.State) : Prop :=
  forall quiz session,
    In (quiz, session) (Admin.activeSessions st) ->
    Admin.cleanupTimeout session <> None -> Admin.players session = [].

(** In the revision with two registries every address held by a registry
    or by the callback of a timer is the address of a session of the store,
    and the addresses in use are below the next one to be given out. *)
Definition TwoIndex_closed (st : TwoIndex.State) : Prop :=
  (forall quiz a, In (quiz, a) (TwoIndex.activeSessionsByQuizId st) ->
                  is_Some (TwoIndex.store st !! a)) /\
  (forall code a, In (code, a) (TwoIndex.activeSessionsByRoomCode st) ->
                  is_Some (TwoIndex.store st !! a)) /\
  (forall h tm, TwoIndex.timers st !! h = Some tm ->
                is_Some (TwoIndex.store st !! TwoIndex.session tm)) /\
  (forall a, is_Some (TwoIndex.store st !! a) -> a < TwoIndex.next_session st).

(** In the revisions with one registry the registry is a dictionary whose
    sessions have room codes of their own; in the revision with an admin a
    session is, besides, registered under the quiz id it records. *)
Definition Basic_wf (st : Basic.State) : Prop :=
  NoDup (JsObject.keys (Basic.activeSessions st)) /\
  NoDup (map Basic.roomCode (JsObject.values (Basic.activeSessions st))).

Definition Scored_wf (st : Scored.State) : Prop :=
  NoDup (JsObject.keys (Scored.activeSessions st)) /\
  NoDup (map Scored.roomCode (JsObject.values (Scored.activeSessions st))).

Definition Admin_wf (st : Admin.State) : Prop :=
  NoDup (JsObject.keys (Admin.activeSessions st)) /\
  NoDup (map Admin.roomCode (JsObject.values (Admin.activeSessions st))) /\
  (forall quiz session,
      In (quiz, session) (Admin.activeSessions st) -> Admin.quizId session = quiz).

(** In the revision with two registries a registry holds a session under
    the key the session records, whatever else went wrong. *)
Definition TwoIndex_keyed (st : TwoIndex.State) : Prop :=
  (forall quiz a, In (quiz, a) (TwoIndex.activeSessionsByQuizId st) ->
     exists s, TwoIndex.store st !! a = Some s /\ TwoIndex.quizId s = quiz) /\
  (forall code a, In (code, a) (TwoIndex.activeSessionsByRoomCode st) ->
     exists s, TwoIndex.store st !! a = Some s /\ TwoIndex.roomCode s = code) /\
  (forall h tm, TwoIndex.timers st !! h = Some tm ->
     is_Some (TwoIndex.store st !! TwoIndex.session tm)) /\
  (forall a, is_Some (TwoIndex.store st !! a) -> a < TwoIndex.next_session st) /\
  NoDup (JsObject.keys (TwoIndex.activeSessionsByQuizId st)) /\
  NoDup (JsObject.keys (TwoIndex.activeSessionsByRoomCode st)).

(** No key of a registry names a member of [Object.prototype]: the
    handlers create a property only under a key that read as [undefined]. *)
Definition shadows_nothing {V : Type} (o : jsobj V) : Prop :=
  forall k, JsObject.inherited k = true -> JsObject.get k o = None.

(** ** Sample inputs

    A sequence of draws in which the [n]-th attempt of [generateRoomCode]
    draws the [n]-th symbol six times: "AAAAAA", then "BBBBBB", ... *)

Definition by_attempt (i : nat) : nat := Nat.min (i / 6) 33.

Definition scored_ann : Scored.PlayerData :=
  {| Scored.x := 10%Z; Scored.y := 20%Z; Scored.character := "fox";
     Scored.username := "ann"; Scored.score := 0%Z |}.

Definition scored_bob : Scored.PlayerData :=
  {| Scored.x := 30%Z; Scored.y := 40%Z; Scored.character := "owl";
     Scored.username := "bob"; Scored.score := 0%Z |}.

(** Two players in the room of "quiz42", with scores 50 and 70. *)
Definition scored_room : Scored.State :=
  {| Scored.activeSessions :=
       [("quiz42",
         {| Scored.roomCode := "AAAAAA";
            Scored.players :=
              [("s1", Scored.set_score 50%Z scored_ann);
               ("s2", Scored.set_score 70%Z scored_bob)];
            Scored.cleanupTimeout := None |})];
     Scored.timers := ∅; Scored.next_timer := 0; Scored.draws := 6;
     Scored.now := 0%N |}.

Definition admin_ann : Admin.PlayerData :=
  {| Admin.x := 10%Z; Admin.y := 20%Z; Admin.character := "fox";
     Admin.username := "ann"; Admin.score := 0%Z; Admin.user_id := 1%Z;
     Admin.role := Some "admin" |}.

Definition admin_bob : Admin.PlayerData :=
  {| Admin.x := 30%Z; Admin.y := 40%Z; Admin.character := "owl";
     Admin.username := "bob"; Admin.score := 0%Z; Admin.user_id := 2%Z;
     Admin.role := None |}.

(** The same room in the revision with an admin: ann created it with the
    token "secret". *)
Definition admin_room : Admin.State :=
  {| Admin.activeSessions :=
       [("quiz42",
         {| Admin.roomCode := "AAAAAA"; Admin.quizId := "quiz42";
            Admin.players :=
              [("s1", Admin.set_score 50%Z admin_ann);
               ("s2", Admin.set_score 70%Z admin_bob)];
            Admin.adminToken := Some "secret";
            Admin.cleanupTimeout := None |})];
     Admin.timers := ∅; Admin.next_timer := 0; Admin.fetches := ∅;
     Admin.next_fetch := 0; Admin.draws := 6; Admin.now := 0%N |}.

Definition basic_ann : Basic.PlayerData :=
  {| Basic.x := 10%Z; Basic.y := 20%Z; Basic.character := "fox";
     Basic.username := "ann" |}.

Definition basic_bob : Basic.PlayerData :=
  {| Basic.x := 30%Z; Basic.y := 40%Z; Basic.character := "owl";
     Basic.username := "bob" |}.

(** server.ts with ann and bob in the room of "quiz42" and bob, alone, in
    the room of "quiz7". *)
Definition basic_rooms : Basic.State :=
  {| Basic.activeSessions :=
       [("quiz42",
         {| Basic.roomCode := "AAAAAA";
            Basic.players := [("s1", basic_ann); ("s2", basic_bob)];
            Basic.cleanupTimeout := None |});
        ("quiz7",
         {| Basic.roomCode := "BBBBBB";
            Basic.players := [("s2", basic_bob)];
            Basic.cleanupTimeout := None |})];
     Basic.timers := ∅; Basic.next_timer := 0; Basic.draws := 12;
     Basic.now := 0%N |}.

Definition basic_rooms_inputs : list Basic.input :=
  [ Basic.RequestSession "s1" "quiz42" basic_ann;
    Basic.RequestSession "s2" "quiz42" basic_bob;
    Basic.RequestSession "s2" "quiz7" basic_bob ].

Definition scored_room_inputs : list Scored.input :=
  [ Scored.RequestSession "s1" "quiz42" scored_ann;
    Scored.RequestSession "s2" "quiz42" scored_bob;
    Scored.UpdateScore "s1" "AAAAAA" 50%Z;
    Scored.UpdateScore "s2" "AAAAAA" 70%Z ].

Definition admin_room_inputs : list Admin.input :=
  [ Admin.RequestSession "s1" "quiz42" admin_ann (Some "secret");
    Admin.RequestSession "s2" "quiz42" admin_bob None;
    Admin.UpdateScore "s1" "AAAAAA" 50%Z;
    Admin.UpdateScore "s2" "AAAAAA" 70%Z ].

Definition two_ann : TwoIndex.PlayerData :=
  {| TwoIndex.x := 10%Z; TwoIndex.y := 20%Z; TwoIndex.character := "fox";
     TwoIndex.username := "ann" |}.

(** The revision with two registries after ann asked for the session of
    "quiz42" and joined its room. *)
Definition two_room : TwoIndex.State :=
  {| TwoIndex.store :=
       <[ 0 := {| TwoIndex.roomCode := "AAAAAA";
                  TwoIndex.players := [("s1", two_ann)];
                  TwoIndex.quizId := "quiz42";
                  TwoIndex.cleanupTimeout := None |} ]> ∅;
     TwoIndex.next_session := 1;
     TwoIndex.activeSessionsByQuizId := [("quiz42", 0)];
     TwoIndex.activeSessionsByRoomCode := [("AAAAAA", 0)];
     TwoIndex.timers := ∅; TwoIndex.next_timer := 0; TwoIndex.draws := 6;
     TwoIndex.now := 0%N |}.

Definition two_room_inputs : list TwoIndex.input :=
  [ TwoIndex.RequestSession "s1" "quiz42";
    TwoIndex.JoinGame "s1" "AAAAAA" two_ann ].

Definition two_bob : TwoIndex.PlayerData :=
  {| TwoIndex.x := 30%Z; TwoIndex.y := 40%Z; TwoIndex.character := "owl";
     TwoIndex.username := "bob" |}.

(** The calls of the results sink among the actions of a run. *)
Definition sink_calls (out : list Admin.action) : list Admin.action :=
  filter (fun a => match a with Admin.Fetch _ _ _ _ => true | _ => false end) out.

(** bob, who declares no role and sends no token, creates the session of
    "quiz42": its admin token is never set. *)
Definition never_bound : list Admin.input :=
  [ Admin.RequestSession "s2" "quiz42" admin_bob None ].

(** ann creates the session as its admin, bob joins, ann disconnects: the
    admin token is cleared. *)
Definition cleared_on_disconnect : list Admin.input :=
  [ Admin.RequestSession "s1" "quiz42" admin_ann (Some "secret");
    Admin.RequestSession "s2" "quiz42" admin_bob None;
    Admin.Disconnect "s1" ].

(** ann creates the session as its admin and ends the quiz; her socket
    disconnects while the results are being posted; the sink answers ok. *)
Definition finalize_while_leaving : list Admin.input :=
  [ Admin.RequestSession "s1" "quiz42" admin_ann (Some "secret");
    Admin.AdminEndQuiz "s1" "AAAAAA" (Some "secret");
    Admin.Disconnect "s1";
    Admin.FetchSettles 0 Admin.ResponseOk ].

(** Half a minute later bob asks for the same quiz and stays. *)
Definition bob_arrives : list Admin.input :=
  [ Admin.Elapse 30000; Admin.RequestSession "s2" "quiz42" admin_bob None;
    Admin.Elapse 30000 ].

(** A quiz whose id is the empty string: ann joins and leaves. *)
Definition empty_quiz_id : list Scored.input :=
  [ Scored.RequestSession "s1" "" scored_ann; Scored.Disconnect "s1" ].

(** The same with the quiz id "quiz42". *)
Definition plain_quiz_id : list Scored.input :=
  [ Scored.RequestSession "s1" "quiz42" scored_ann; Scored.Disconnect "s1" ].

(** Every client follows the protocol of the revision with two registries,
    [request_session] and then [join_game] with the code it was sent: ann
    opens the room of "quiz42" and joins; bob asks for the session; ann
    leaves, which empties the room; a second later bob joins. *)
Definition join_after_leave : list TwoIndex.input :=
  [ TwoIndex.RequestSession "s1" "quiz42";
    TwoIndex.JoinGame "s1" "AAAAAA" two_ann;
    TwoIndex.RequestSession "s2" "quiz42";
    TwoIndex.Disconnect "s1";
    TwoIndex.Elapse 1000;
    TwoIndex.JoinGame "s2" "AAAAAA" two_bob ].

(** bob leaves at once; the first timer fires when it is due; ann comes
    back, is given a new room and joins it; the second timer fires when it
    is due. *)
Definition second_timer : list TwoIndex.input :=
  [ TwoIndex.Disconnect "s2";
    TwoIndex.Elapse 59000;
    TwoIndex.TimerFires 0;
    TwoIndex.RequestSession "s3" "quiz42";
    TwoIndex.JoinGame "s3" "BBBBBB" two_ann;
    TwoIndex.Elapse 1000;
    TwoIndex.TimerFires 1 ].

(** Draws that are 0 every time: every attempt builds the code "AAAAAA". *)
Definition always_zero (i : nat) : nat := 0.

(** The clients of [join_after_leave] with such draws, and then: bob leaves
    at once; the first timer fires when it is due and evicts the session;
    a third client asks for another quiz, whose session is given the code
    "AAAAAA" anew, and joins it; the second timer of the evicted session
    fires when it is due. *)
Definition code_drawn_again : list TwoIndex.input :=
  [ TwoIndex.Disconnect "s2";
    TwoIndex.Elapse 59000;
    TwoIndex.TimerFires 0;
    TwoIndex.RequestSession "s3" "quiz7";
    TwoIndex.JoinGame "s3" "AAAAAA" two_ann;
    TwoIndex.Elapse 1000;
    TwoIndex.TimerFires 1 ].

(** * Properties *)

Lemma by_attempt_in_range : forall i, by_attempt i < 34.
Proof. intros i. unfold by_attempt. apply Nat.min_lt_iff. right. lia. Qed.

Example array_index_42 : JsObject.array_index "42" = Some 42%N.
Proof. reflexivity. Qed.

Example array_index_leading_zero : JsObject.array_index "042" = None.
Proof. reflexivity. Qed.

Example array_index_zero : JsObject.array_index "0" = Some 0%N.
Proof. reflexivity. Qed.

Example array_index_not_a_number :
  JsObject.array_index "quiz42" = None /\ JsObject.array_index "" = None.
Proof. split; reflexivity. Qed.

Example array_index_too_large : JsObject.array_index "4294967295" = None.
Proof. reflexivity. Qed.

(** Array indices come first, in numeric order, whenever they are created. *)
Example enumeration_order :
  JsObject.keys
    (JsObject.set "7" 1 (JsObject.set "b" 2 (JsObject.set "10" 3 (JsObject.set "a" 4 [])))) =
  ["7"; "10"; "a"; "b"].
Proof. reflexivity. Qed.

Example overwrite_keeps_place :
  JsObject.set "a" 9 (JsObject.set "b" 2 (JsObject.set "a" 1 [])) = [("a", 9); ("b", 2)].
Proof. reflexivity. Qed.

Example candidate_first_symbol : RoomCode.candidate (fun _ => 0) 0 = "AAAAAA".
Proof. reflexivity. Qed.

Example candidate_last_symbols : RoomCode.candidate (fun i => 28 + i) 0 = "456789".
Proof. reflexivity. Qed.

Example charAt_out_of_range : RoomCode.charAt 34 RoomCode.chars = "".
Proof. reflexivity. Qed.


(** ** Objects *)

Section JsObjectFacts.
Context {V : Type}.
Implicit Types (o : jsobj V) (k : string) (v : V) (p : V -> bool).

Lemma get_overwrite_eq o k v v0 :
  JsObject.get k o = Some v0 -> JsObject.get k (JsObject.overwrite k v o) = Some v.
Proof.
  induction o as [|[k' v'] o IH]; simpl; [discriminate|].
  destruct (String.eqb k k') eqn:E; simpl; rewrite E; auto.
Qed.

Lemma get_overwrite_ne o k k' v :
  k <> k' -> JsObject.get k' (JsObject.overwrite k v o) = JsObject.get k' o.
Proof.
  intros Hne. induction o as [|[k0 v0] o IH]; simpl; [reflexivity|].
  destruct (String.eqb k k0) eqn:E; simpl; [|rewrite IH; reflexivity].
  apply String.eqb_eq in E. subst k0.
  apply String.eqb_neq in Hne. rewrite String.eqb_sym in Hne. rewrite Hne.
  reflexivity.
Qed.

Lemma get_create_eq o k v :
  JsObject.get k o = None -> JsObject.get k (JsObject.create k v o) = Some v.
Proof.
  induction o as [|[k' v'] o IH]; simpl.
  - rewrite String.eqb_refl. reflexivity.
  - destruct (String.eqb k k') eqn:E; [discriminate|]. intros Hn.
    destruct (JsObject.precedes k k'); simpl.
    + rewrite String.eqb_refl. reflexivity.
    + rewrite E. auto.
Qed.

Lemma get_create_ne o k k' v :
  k <> k' -> JsObject.get k' (JsObject.create k v o) = JsObject.get k' o.
Proof.
  intros Hne. apply String.eqb_neq in Hne. rewrite String.eqb_sym in Hne.
  induction o as [|[k0 v0] o IH]; simpl.
  - rewrite Hne. reflexivity.
  - destruct (JsObject.precedes k k0); simpl.
    + rewrite Hne. reflexivity.
    + rewrite IH. reflexivity.
Qed.

Lemma get_set_eq o k v : JsObject.get k (JsObject.set k v o) = Some v.
Proof.
  unfold JsObject.set. destruct (JsObject.get k o) eqn:E.
  - eapply get_overwrite_eq; eauto.
  - apply get_create_eq; assumption.
Qed.

Lemma get_set_ne o k k' v :
  k <> k' -> JsObject.get k' (JsObject.set k v o) = JsObject.get k' o.
Proof.
  intros Hne. unfold JsObject.set. destruct (JsObject.get k o).
  - apply get_overwrite_ne; assumption.
  - apply get_create_ne; assumption.
Qed.

Lemma get_delete_eq o k : JsObject.get k (JsObject.delete k o) = None.
Proof.
  induction o as [|[k' v'] o IH]; simpl; [reflexivity|].
  destruct (String.eqb k k') eqn:E; simpl; [assumption|]. rewrite E. assumption.
Qed.

Lemma get_delete_ne o k k' :
  k <> k' -> JsObject.get k' (JsObject.delete k o) = JsObject.get k' o.
Proof.
  intros Hne. induction o as [|[k0 v0] o IH]; simpl; [reflexivity|].
  destruct (String.eqb k k0) eqn:E; simpl.
  - apply String.eqb_eq in E. subst k0.
    apply String.eqb_neq in Hne. rewrite String.eqb_sym in Hne. rewrite Hne.
    assumption.
  - rewrite IH. reflexivity.
Qed.

Lemma keys_overwrite o k v : JsObject.keys (JsObject.overwrite k v o) = JsObject.keys o.
Proof.
  unfold JsObject.keys.
  induction o as [|[k' v'] o IH]; simpl; [reflexivity|].
  destruct (String.eqb k k'); simpl; [reflexivity|].
  rewrite IH. reflexivity.
Qed.

Lemma keys_set_present o k v v0 :
  JsObject.get k o = Some v0 -> JsObject.keys (JsObject.set k v o) = JsObject.keys o.
Proof. intros H. unfold JsObject.set. rewrite H. apply keys_overwrite. Qed.

Lemma get_In_values o k v : JsObject.get k o = Some v -> In v (JsObject.values o).
Proof.
  induction o as [|[k' v'] o IH]; simpl; [discriminate|].
  destruct (String.eqb k k'); intros H.
  - left. congruence.
  - right. apply IH. assumption.
Qed.

Lemma some_false_In o p v :
  JsObject.some p o = false -> In v (JsObject.values o) -> p v = false.
Proof.
  unfold JsObject.some. intros H Hin.
  destruct (p v) eqn:E; [|reflexivity].
  assert (existsb p (JsObject.values o) = true) as Ht.
  { apply existsb_exists. exists v. split; assumption. }
  congruence.
Qed.

Lemma find_value_None_some o p :
  JsObject.find_value p o = None <-> JsObject.some p o = false.
Proof.
  unfold JsObject.find_value, JsObject.some.
  induction (JsObject.values o) as [|v l IH]; simpl; [tauto|].
  destruct (p v); simpl; [split; discriminate|assumption].
Qed.

Lemma find_value_Some_holds o p v :
  JsObject.find_value p o = Some v -> p v = true /\ In v (JsObject.values o).
Proof.
  unfold JsObject.find_value. intros H. apply find_some in H. tauto.
Qed.

(** Mutating the found object leaves it the first hit when the mutation
    keeps the property searched for. *)
Lemma find_value_modify_first o p (f : V -> V) v :
  JsObject.find_value p o = Some v -> p (f v) = true ->
  JsObject.find_value p (JsObject.modify_first p f o) = Some (f v).
Proof.
  unfold JsObject.find_value.
  induction o as [|[k' v'] o IH]; simpl; [discriminate|].
  destruct (p v') eqn:E; simpl.
  - intros H Hf. injection H as ->. rewrite Hf. reflexivity.
  - intros H Hf. rewrite E. auto.
Qed.

Lemma keys_modify_first o p (f : V -> V) :
  JsObject.keys (JsObject.modify_first p f o) = JsObject.keys o.
Proof.
  unfold JsObject.keys.
  induction o as [|[k' v'] o IH]; simpl; [reflexivity|].
  destruct (p v'); simpl; [reflexivity|].
  rewrite IH. reflexivity.
Qed.

Lemma modify_first_no_hit o p (f : V -> V) :
  JsObject.find_value p o = None -> JsObject.modify_first p f o = o.
Proof.
  unfold JsObject.find_value.
  induction o as [|[k' v'] o IH]; simpl; [reflexivity|].
  destruct (p v'); [discriminate|]. intros H. rewrite IH; auto.
Qed.

(** A created property whose value is the only one to satisfy [p] is what
    a search for [p] finds. *)
Lemma find_value_create_only o p k v :
  JsObject.some p o = false -> p v = true ->
  JsObject.find_value p (JsObject.create k v o) = Some v.
Proof.
  unfold JsObject.some, JsObject.find_value.
  induction o as [|[k' v'] o IH]; simpl; intros H Hv.
  - rewrite Hv. reflexivity.
  - apply orb_false_iff in H as [H1 H2].
    destruct (JsObject.precedes k k'); simpl.
    + rewrite Hv. reflexivity.
    + rewrite H1. auto.
Qed.

Lemma find_entry_Some o p k v :
  JsObject.find_entry p o = Some (k, v) -> p v = true /\ In (k, v) o.
Proof.
  induction o as [|[k' v'] o IH]; simpl; [discriminate|].
  destruct (p v') eqn:E.
  - intros H. injection H as -> ->. auto.
  - intros H. apply IH in H. tauto.
Qed.

Lemma find_entry_find_value o p :
  JsObject.find_value p o = option_map snd (JsObject.find_entry p o).
Proof.
  unfold JsObject.find_value.
  induction o as [|[k' v'] o IH]; simpl; [reflexivity|].
  destruct (p v'); [reflexivity|assumption].
Qed.

(** The first hit of a search and the property of its key. *)
Lemma get_modify_first_hit o p (f : V -> V) k v :
  JsObject.find_entry p o = Some (k, v) -> JsObject.get k o = Some v ->
  JsObject.get k (JsObject.modify_first p f o) = Some (f v).
Proof.
  induction o as [|[k' v'] o IH]; simpl; [discriminate|].
  destruct (p v') eqn:E; simpl.
  - intros H _. injection H as -> ->. rewrite String.eqb_refl. reflexivity.
  - intros H. destruct (String.eqb k k') eqn:Ek; [|auto].
    intros Hv. injection Hv as ->. apply find_entry_Some in H as [H _]. congruence.
Qed.

Lemma get_modify_first_other o p (f : V -> V) k v k' :
  JsObject.find_entry p o = Some (k, v) -> k' <> k ->
  JsObject.get k' (JsObject.modify_first p f o) = JsObject.get k' o.
Proof.
  intros H Hne. revert H.
  induction o as [|[k0 v0] o IH]; simpl; [discriminate|].
  destruct (p v0) eqn:E; simpl.
  - intros H. injection H as -> ->.
    apply String.eqb_neq in Hne. rewrite Hne. reflexivity.
  - intros H. rewrite (IH H). reflexivity.
Qed.

Lemma In_set o k v k' v' :
  In (k', v') (JsObject.set k v o) -> (k', v') = (k, v) \/ In (k', v') o.
Proof.
  unfold JsObject.set. destruct (JsObject.get k o) as [v0|] eqn:Hget.
  - clear Hget. induction o as [|[k0 v1] o IH]; simpl; [tauto|].
    destruct (String.eqb k k0) eqn:E; simpl.
    + apply String.eqb_eq in E. subst k0. intros [H|H]; [left; congruence|tauto].
    + intros [H|H]; [tauto|]. apply IH in H. tauto.
  - clear Hget. induction o as [|[k0 v1] o IH]; simpl; [intros [H|[]]; left; congruence|].
    destruct (JsObject.precedes k k0); simpl.
    + intros [H|H]; [left; congruence|tauto].
    + intros [H|H]; [tauto|]. apply IH in H. tauto.
Qed.

Lemma In_delete o k k' v' : In (k', v') (JsObject.delete k o) -> In (k', v') o.
Proof.
  induction o as [|[k0 v0] o IH]; simpl; [tauto|].
  destruct (String.eqb k k0); simpl; [tauto|].
  intros [H|H]; tauto.
Qed.

Lemma In_modify_first o p (f : V -> V) k' v' :
  In (k', v') (JsObject.modify_first p f o) ->
  In (k', v') o \/ exists v, JsObject.find_entry p o = Some (k', v) /\ v' = f v.
Proof.
  induction o as [|[k0 v0] o IH]; simpl; [tauto|].
  destruct (p v0) eqn:E; simpl.
  - intros [H|H]; [|tauto]. injection H as <- <-. right. exists v0. tauto.
  - intros [H|H]; [tauto|]. apply IH in H as [H|(v & H1 & H2)]; [tauto|].
    right. exists v. tauto.
Qed.

Lemma get_In o k v : JsObject.get k o = Some v -> In (k, v) o.
Proof.
  induction o as [|[k0 v0] o IH]; simpl; [discriminate|].
  destruct (String.eqb k k0) eqn:E.
  - apply String.eqb_eq in E. subst k0. intros H. left. congruence.
  - intros H. right. auto.
Qed.

Lemma is_empty_nil o : JsObject.is_empty o = true <-> o = [].
Proof. destruct o as [|[k v] o]; unfold JsObject.is_empty; simpl; split; intros H; (discriminate H || reflexivity). Qed.

Lemma get_delete_subset o k k' v :
  JsObject.get k' (JsObject.delete k o) = Some v -> JsObject.get k' o = Some v.
Proof.
  destruct (String.eqb_spec k k') as [->|Hne].
  - rewrite get_delete_eq. discriminate.
  - rewrite get_delete_ne by assumption. auto.
Qed.

(** The association list stays a dictionary: creating, overwriting and
    deleting properties keeps the keys distinct. *)
Lemma get_None_keys o k : JsObject.get k o = None <-> ~ In k (JsObject.keys o).
Proof.
  unfold JsObject.keys. induction o as [|[k' v'] o IH]; simpl; [tauto|].
  destruct (String.eqb_spec k k') as [->|Hne].
  - split; [discriminate|]. intros H. exfalso. apply H. left. reflexivity.
  - rewrite IH. split; [intros H [Heq|Hin]; [congruence|tauto]|tauto].
Qed.

Lemma keys_create o k v :
  forall k', In k' (JsObject.keys (JsObject.create k v o)) <->
             k' = k \/ In k' (JsObject.keys o).
Proof.
  unfold JsObject.keys. induction o as [|[k0 v0] o IH]; intros k'; simpl.
  - split; [intros [H|[]]; auto|intros [H|[]]; auto].
  - destruct (JsObject.precedes k k0); simpl.
    + split; [intros [H|H]; auto|intros [H|H]; auto].
    + rewrite IH. tauto.
Qed.

Lemma NoDup_keys_create o k v :
  ~ In k (JsObject.keys o) -> NoDup (JsObject.keys o) ->
  NoDup (JsObject.keys (JsObject.create k v o)).
Proof.
  induction o as [|[k0 v0] o IH]; simpl; intros Hk Hnd.
  - constructor; [simpl; tauto|constructor].
  - destruct (JsObject.precedes k k0); simpl.
    + constructor; assumption.
    + inversion Hnd as [|? ? Hk0 Hnd']; subst.
      constructor.
      * fold (JsObject.keys (JsObject.create k v o)). rewrite keys_create.
        intros [Heq|Hin]; [apply Hk; left; congruence|exact (Hk0 Hin)].
      * apply IH; [|assumption]. intros Hin. apply Hk. right. exact Hin.
Qed.

Lemma NoDup_keys_set o k v :
  NoDup (JsObject.keys o) -> NoDup (JsObject.keys (JsObject.set k v o)).
Proof.
  intros Hnd. unfold JsObject.set. destruct (JsObject.get k o) eqn:Hget.
  - rewrite keys_overwrite. exact Hnd.
  - apply NoDup_keys_create; [|exact Hnd]. apply get_None_keys. exact Hget.
Qed.

Lemma keys_delete o k :
  JsObject.keys (JsObject.delete k o) =
  List.filter (fun k' => negb (String.eqb k k')) (JsObject.keys o).
Proof.
  unfold JsObject.keys. induction o as [|[k0 v0] o IH]; simpl; [reflexivity|].
  destruct (String.eqb k k0); simpl; [exact IH|]. rewrite IH. reflexivity.
Qed.

Lemma NoDup_keys_delete o k :
  NoDup (JsObject.keys o) -> NoDup (JsObject.keys (JsObject.delete k o)).
Proof. intros Hnd. rewrite keys_delete. apply List.NoDup_filter. exact Hnd. Qed.

Lemma In_delete_ne o k k' v' : In (k', v') (JsObject.delete k o) -> k' <> k.
Proof.
  induction o as [|[k0 v0] o IH]; simpl; [tauto|].
  destruct (String.eqb_spec k k0) as [->|Hne]; [exact IH|].
  intros [H|H]; [|auto]. injection H as <- <-. congruence.
Qed.

Lemma get_In_NoDup o k v :
  NoDup (JsObject.keys o) -> In (k, v) o -> JsObject.get k o = Some v.
Proof.
  unfold JsObject.keys. induction o as [|[k0 v0] o IH]; simpl; [tauto|].
  intros Hnd [H|H].
  - injection H as -> ->. rewrite String.eqb_refl. reflexivity.
  - inversion Hnd as [|? ? Hk0 Hnd']; subst.
    destruct (String.eqb_spec k k0) as [->|Hne]; [|auto].
    exfalso. apply Hk0. apply (in_map fst) in H. exact H.
Qed.

Lemma delete_absent o k : JsObject.get k o = None -> JsObject.delete k o = o.
Proof.
  induction o as [|[k0 v0] o IH]; simpl; [reflexivity|].
  destruct (String.eqb k k0); [discriminate|]. intros H. rewrite IH; auto.
Qed.

(** Deleting a property that was just created gives the object back. *)
Lemma delete_create o k v :
  JsObject.get k o = None -> JsObject.delete k (JsObject.create k v o) = o.
Proof.
  induction o as [|[k0 v0] o IH]; simpl.
  - rewrite String.eqb_refl. reflexivity.
  - destruct (String.eqb k k0) eqn:E; [discriminate|]. intros H.
    destruct (JsObject.precedes k k0); simpl.
    + rewrite String.eqb_refl, E. rewrite delete_absent by exact H. reflexivity.
    + rewrite E, IH by exact H. reflexivity.
Qed.

Lemma delete_set_absent o k v :
  JsObject.get k o = None -> JsObject.delete k (JsObject.set k v o) = o.
Proof. intros H. unfold JsObject.set. rewrite H. apply delete_create. exact H. Qed.

Lemma find_entry_None o p k v :
  JsObject.find_entry p o = None -> In (k, v) o -> p v = false.
Proof.
  induction o as [|[k0 v0] o IH]; simpl; [tauto|].
  destruct (p v0) eqn:E; [discriminate|].
  intros H [Hin|Hin]; [congruence|auto].
Qed.

End JsObjectFacts.

(** What a function of the values sees of an object, for functions that the
    handlers keep: the room code and the quiz id of a session. *)
Section JsObjectImages.
Context {V B : Type} (f : V -> B).
Implicit Types (o : jsobj V) (k : string) (v : V).

Lemma image_overwrite o k v v0 :
  JsObject.get k o = Some v0 -> f v = f v0 ->
  map f (JsObject.values (JsObject.overwrite k v o)) = map f (JsObject.values o).
Proof.
  unfold JsObject.values. induction o as [|[k0 v1] o IH]; simpl; [reflexivity|].
  destruct (String.eqb k k0); simpl.
  - intros [= ->] ->. reflexivity.
  - intros H1 H2. rewrite IH; auto.
Qed.

Lemma image_create_In o k v x :
  In x (map f (JsObject.values (JsObject.create k v o))) <->
  x = f v \/ In x (map f (JsObject.values o)).
Proof.
  unfold JsObject.values. induction o as [|[k0 v0] o IH]; simpl.
  - split; [intros [H|[]]; auto|intros [H|[]]; auto].
  - destruct (JsObject.precedes k k0); simpl.
    + split; [intros [H|H]; auto|intros [H|H]; auto].
    + rewrite IH. tauto.
Qed.

Lemma image_create_NoDup o k v :
  ~ In (f v) (map f (JsObject.values o)) -> NoDup (map f (JsObject.values o)) ->
  NoDup (map f (JsObject.values (JsObject.create k v o))).
Proof.
  induction o as [|[k0 v0] o IH]; simpl; intros Hv Hnd.
  - constructor; [simpl; tauto|constructor].
  - destruct (JsObject.precedes k k0); simpl.
    + constructor; assumption.
    + inversion Hnd as [|? ? Hv0 Hnd']; subst.
      constructor.
      * fold (JsObject.values (JsObject.create k v o)). rewrite image_create_In.
        intros [Heq|Hin]; [apply Hv; left; congruence|exact (Hv0 Hin)].
      * apply IH; [|assumption]. intros Hin. apply Hv. right. exact Hin.
Qed.

Lemma image_modify_first o (p : V -> bool) (g : V -> V) :
  (forall v, f (g v) = f v) ->
  map f (JsObject.values (JsObject.modify_first p g o)) = map f (JsObject.values o).
Proof.
  intros Hg. unfold JsObject.values.
  induction o as [|[k0 v0] o IH]; simpl; [reflexivity|].
  destruct (p v0); simpl; [rewrite Hg; reflexivity|]. rewrite IH. reflexivity.
Qed.

Lemma image_delete_In o k x :
  In x (map f (JsObject.values (JsObject.delete k o))) ->
  In x (map f (JsObject.values o)).
Proof.
  unfold JsObject.values. induction o as [|[k0 v0] o IH]; simpl; [tauto|].
  destruct (String.eqb k k0); simpl; tauto.
Qed.

Lemma image_delete_NoDup o k :
  NoDup (map f (JsObject.values o)) ->
  NoDup (map f (JsObject.values (JsObject.delete k o))).
Proof.
  induction o as [|[k0 v0] o IH]; simpl; intros Hnd; [constructor|].
  inversion Hnd as [|? ? Hv0 Hnd']; subst.
  destruct (String.eqb k k0); simpl; [auto|].
  constructor; [|auto]. intros Hin. apply Hv0.
  apply image_delete_In in Hin. exact Hin.
Qed.

(** Two properties whose values have the same image are one property. *)
Lemma image_NoDup_inj o k1 v1 k2 v2 :
  NoDup (map f (JsObject.values o)) ->
  In (k1, v1) o -> In (k2, v2) o -> f v1 = f v2 -> (k1, v1) = (k2, v2).
Proof.
  unfold JsObject.values. induction o as [|[k0 v0] o IH]; simpl; [tauto|].
  intros Hnd H1 H2 Heq. inversion Hnd as [|? ? Hv0 Hnd']; subst.
  destruct H1 as [H1|H1], H2 as [H2|H2].
  - congruence.
  - injection H1 as -> ->. exfalso. apply Hv0. rewrite Heq.
    apply (in_map (fun kv => f (snd kv))) in H2. rewrite map_map. exact H2.
  - injection H2 as -> ->. exfalso. apply Hv0. rewrite <- Heq.
    apply (in_map (fun kv => f (snd kv))) in H1. rewrite map_map. exact H1.
  - auto.
Qed.

End JsObjectImages.

(** ** Room codes *)

Section RoomCodeFacts.
Variable rnd : nat -> nat.
Hypothesis rnd_in_range : forall i, rnd i < 34.

Lemma chars_length : String.length RoomCode.chars = 34.
Proof. reflexivity. Qed.

Lemma chars_NoDup : NoDup (RoomCode.symbols RoomCode.chars).
Proof.
  apply (NoDup_nth_error (RoomCode.symbols RoomCode.chars)).
  intros i j Hi. simpl in Hi.
  do 34 (destruct i as [|i]; [do 34 (destruct j as [|j]; [simpl; congruence|]);
    destruct j; simpl; discriminate|]).
  simpl in Hi. lia.
Qed.

Lemma charAt_in_range i :
  i < 34 -> exists c, RoomCode.charAt i RoomCode.chars = String c EmptyString /\
                      In c (RoomCode.symbols RoomCode.chars).
Proof.
  intros Hi.
  do 34 (destruct i as [|i]; [eexists; split; [reflexivity|simpl; tauto]|]).
  lia.
Qed.

Lemma symbols_append s1 s2 : RoomCode.symbols (String.append s1 s2) = (RoomCode.symbols s1 ++ RoomCode.symbols s2)%list.
Proof. induction s1 as [|c s1 IH]; simpl; [reflexivity|]. rewrite IH. reflexivity. Qed.

Lemma symbols_length s : List.length (RoomCode.symbols s) = String.length s.
Proof. induction s as [|c s IH]; simpl; [reflexivity|]. rewrite IH. reflexivity. Qed.

Lemma draw_spec n : forall cur code,
  RoomCode.in_alphabet code ->
  RoomCode.in_alphabet (RoomCode.draw n rnd cur code) /\
  String.length (RoomCode.draw n rnd cur code) = String.length code + n.
Proof.
  induction n as [|n IH]; intros cur code Hc; simpl.
  - split; [assumption|lia].
  - destruct (charAt_in_range (rnd cur) (rnd_in_range cur)) as (c & Hc1 & Hc2).
    rewrite Hc1.
    destruct (IH (S cur) (String.append code (String c EmptyString))) as [H1 H2].
    + unfold RoomCode.in_alphabet in *. rewrite symbols_append. apply Forall_app. split; [assumption|].
      simpl. constructor; [assumption|constructor].
    + split; [assumption|]. rewrite H2.
      rewrite <- !symbols_length, symbols_append, length_app. simpl. lia.
Qed.

Lemma candidate_spec cur :
  String.length (RoomCode.candidate rnd cur) = 6 /\ RoomCode.in_alphabet (RoomCode.candidate rnd cur).
Proof.
  unfold RoomCode.candidate.
  destruct (draw_spec 6 cur EmptyString) as [H1 H2]; [constructor|].
  split; [rewrite H2; reflexivity|assumption].
Qed.

End RoomCodeFacts.

(** The recursion stops at the first attempt whose code is not in use. *)
Lemma generate_first_free (in_use : string -> bool) rnd k : forall cur,
  in_use (RoomCode.candidate rnd (cur + 6 * k)) = false ->
  exists j, j <= k /\
    in_use (RoomCode.candidate rnd (cur + 6 * j)) = false /\
    forall fuel, k < fuel ->
      RoomCode.generate fuel in_use rnd cur =
      Some (RoomCode.candidate rnd (cur + 6 * j), cur + 6 * j + 6).
Proof.
  induction k as [|k IH]; intros cur Hfree.
  - exists 0. replace (cur + 6 * 0) with cur in * by lia.
    split; [lia|]. split; [assumption|].
    intros [|fuel] Hf; [lia|]. simpl. rewrite Hfree. reflexivity.
  - destruct (in_use (RoomCode.candidate rnd cur)) eqn:E.
    + destruct (IH (cur + 6)) as (j & Hj & Hfj & Hgen).
      { replace (cur + 6 + 6 * k) with (cur + 6 * S k) by lia. assumption. }
      exists (S j). replace (cur + 6 * S j) with (cur + 6 + 6 * j) by lia.
      split; [lia|]. split; [assumption|].
      intros [|fuel] Hf; [lia|]. simpl. rewrite E. apply Hgen. lia.
    + exists 0. replace (cur + 6 * 0) with cur by lia.
      split; [lia|]. split; [assumption|].
      intros [|fuel] Hf; [lia|]. simpl. rewrite E. reflexivity.
Qed.

(** Without such an attempt the call returns for no room on the stack:
    when every attempt draws a code that is in use it ends in the
    RangeError, however deep the stack is. *)
Lemma generate_never_free (in_use : string -> bool) rnd fuel : forall cur,
  (forall j, in_use (RoomCode.candidate rnd (cur + 6 * j)) = true) ->
  RoomCode.generate fuel in_use rnd cur = None.
Proof.
  induction fuel as [|fuel IH]; intros cur Hused; simpl; [reflexivity|].
  specialize (Hused 0) as H0. replace (cur + 6 * 0) with cur in H0 by lia.
  rewrite H0. apply IH. intros j.
  replace (cur + 6 + 6 * j) with (cur + 6 * S j) by lia. apply Hused.
Qed.

(** Whatever the recursion returns is a candidate that is not in use. *)
Lemma generate_sound (in_use : string -> bool) rnd fuel : forall cur code cur',
  RoomCode.generate fuel in_use rnd cur = Some (code, cur') ->
  in_use code = false /\ exists j, code = RoomCode.candidate rnd (cur + 6 * j) /\
                                   cur' = cur + 6 * j + 6.
Proof.
  induction fuel as [|fuel IH]; intros cur code cur'; simpl; [discriminate|].
  destruct (in_use (RoomCode.candidate rnd cur)) eqn:E.
  - intros H. apply IH in H as (Hfree & j & -> & ->).
    split; [assumption|]. exists (S j). split; [f_equal|]; lia.
  - intros H. injection H as <- <-. split; [assumption|].
    exists 0. split; [f_equal|]; lia.
Qed.

Lemma isCodeInUse_false_Basic (activeSessions : jsobj Basic.Session) code :
  Basic.isCodeInUse activeSessions code = false ->
  forall quizId session,
    JsObject.get quizId activeSessions = Some session -> Basic.roomCode session <> code.
Proof.
  intros H quizId session Hget.
  apply get_In_values in Hget.
  apply (some_false_In _ _ _ H) in Hget.
  apply String.eqb_neq. assumption.
Qed.

Lemma isCodeInUse_false_TwoIndex (st : TwoIndex.State) code :
  TwoIndex.isCodeInUse st code = false ->
  JsObject.get code (TwoIndex.activeSessionsByRoomCode st) = None /\
  JsObject.inherited code = false.
Proof.
  unfold TwoIndex.isCodeInUse. intros H. apply orb_false_iff in H as [H1 H2].
  split; [|exact H2].
  destruct (JsObject.get code (TwoIndex.activeSessionsByRoomCode st));
    [discriminate|reflexivity].
Qed.

(** When none of the attempts that fit on the stack draws a code that is
    not in use, the recursion ends in the RangeError. *)
Lemma generate_out_of_stack (in_use : string -> bool) rnd fuel : forall cur,
  (forall j, j < fuel -> in_use (RoomCode.candidate rnd (cur + 6 * j)) = true) ->
  RoomCode.generate fuel in_use rnd cur = None.
Proof.
  induction fuel as [|fuel IH]; intros cur Hused; simpl; [reflexivity|].
  pose proof (Hused 0 ltac:(lia)) as H0. replace (cur + 6 * 0) with cur in H0 by lia.
  rewrite H0. apply IH. intros j Hj.
  replace (cur + 6 + 6 * j) with (cur + 6 * S j) by lia. apply Hused. lia.
Qed.

(** C7.  [generateRoomCode], in server.ts and in the revision with two
    registries, when the draws are indices into the alphabet, which has 34
    distinct symbols, and the stack has room for [fuel] nested calls.
    Whatever the call returns has exactly 6 characters, all of the
    alphabet, and is the room code of no session of the registry (in the
    revision with two registries: it is no key of the registry by room
    code, which is what that revision tests, hence the room code of no
    session registered under its own code).  The call returns when one of
    the attempts that fit on the stack draws a code that is not in use: it
    returns the code of such an attempt, no later than that one, with the
    draws made up to it.  It throws when none of them does; that some code
    is unassigned is not enough.  The registry is an argument that the
    function reads; the result holds the code and the number of draws
    only. *)
Theorem C7_generateRoomCode_returns_unused_code :
  forall (rnd : nat -> nat),
    (forall i, rnd i < 34) ->
    (String.length RoomCode.chars = 34 /\ NoDup (RoomCode.symbols RoomCode.chars)) /\
    (forall (activeSessions : jsobj Basic.Session) (cur fuel : nat),
        (forall code cur',
            Basic.generateRoomCode fuel rnd activeSessions cur = Some (code, cur') ->
            String.length code = 6 /\ RoomCode.in_alphabet code /\
            (forall quizId session,
                JsObject.get quizId activeSessions = Some session ->
                Basic.roomCode session <> code)) /\
        (forall k,
            k < fuel ->
            Basic.isCodeInUse activeSessions (RoomCode.candidate rnd (cur + 6 * k)) = false ->
            exists j,
              j <= k /\
              Basic.generateRoomCode fuel rnd activeSessions cur =
                Some (RoomCode.candidate rnd (cur + 6 * j), cur + 6 * j + 6)) /\
        ((forall j, j < fuel ->
             Basic.isCodeInUse activeSessions (RoomCode.candidate rnd (cur + 6 * j)) = true) ->
         Basic.generateRoomCode fuel rnd activeSessions cur = None)) /\
    (forall (st : TwoIndex.State) (fuel : nat),
        (forall code cur',
            TwoIndex.generateRoomCode fuel rnd st = Some (code, cur') ->
            String.length code = 6 /\ RoomCode.in_alphabet code /\
            JsObject.get code (TwoIndex.activeSessionsByRoomCode st) = None /\
            (forall a session,
                TwoIndex.store st !! a = Some session ->
                JsObject.get (TwoIndex.roomCode session)
                  (TwoIndex.activeSessionsByRoomCode st) = Some a ->
                TwoIndex.roomCode session <> code)) /\
        (forall k,
            k < fuel ->
            TwoIndex.isCodeInUse st
              (RoomCode.candidate rnd (TwoIndex.draws st + 6 * k)) = false ->
            exists j,
              j <= k /\
              TwoIndex.generateRoomCode fuel rnd st =
                Some (RoomCode.candidate rnd (TwoIndex.draws st + 6 * j),
                      TwoIndex.draws st + 6 * j + 6)) /\
        ((forall j, j < fuel ->
             TwoIndex.isCodeInUse st
               (RoomCode.candidate rnd (TwoIndex.draws st + 6 * j)) = true) ->
         TwoIndex.generateRoomCode fuel rnd st = None)).
Proof.
  intros rnd Hrange. split; [split; [reflexivity|apply chars_NoDup]|]. split.
  - intros activeSessions cur fuel. split; [|split].
    + intros code cur' Hgen.
      apply generate_sound in Hgen as (Hfree & j & -> & _).
      destruct (candidate_spec rnd Hrange (cur + 6 * j)) as [Hlen Halpha].
      split; [exact Hlen|]. split; [exact Halpha|].
      apply isCodeInUse_false_Basic. exact Hfree.
    + intros k Hk Hfree.
      destruct (generate_first_free (Basic.isCodeInUse activeSessions) rnd k cur Hfree)
        as (j & Hj & _ & Hgen).
      exists j. split; [exact Hj|]. apply Hgen. exact Hk.
    + intros Hused. apply generate_out_of_stack. exact Hused.
  - intros st fuel. split; [|split].
    + intros code cur' Hgen.
      apply generate_sound in Hgen as (Hfree & j & -> & _).
      destruct (candidate_spec rnd Hrange (TwoIndex.draws st + 6 * j)) as [Hlen Halpha].
      split; [exact Hlen|]. split; [exact Halpha|].
      apply isCodeInUse_false_TwoIndex in Hfree as [Hget _].
      split; [exact Hget|].
      intros a session _ Hreg Heq. rewrite Heq in Hreg. congruence.
    + intros k Hk Hfree.
      destruct (generate_first_free (TwoIndex.isCodeInUse st) rnd k _ Hfree)
        as (j & Hj & _ & Hgen).
      exists j. split; [exact Hj|]. apply Hgen. exact Hk.
    + intros Hused. apply generate_out_of_stack. exact Hused.
Qed.

(** The theorem at work: the code "AAAAAA" is taken, the first attempt draws
    it again and the second draws "BBBBBB". *)
Lemma C7_generateRoomCode_witness :
  exists code cur',
    Basic.generateRoomCode 2 by_attempt
      [("quiz42", {| Basic.roomCode := "AAAAAA"; Basic.players := [];
                     Basic.cleanupTimeout := None |})] 0 = Some (code, cur') /\
    String.length code = 6 /\ code <> "AAAAAA".
Proof.
  destruct (C7_generateRoomCode_returns_unused_code by_attempt by_attempt_in_range)
    as (_ & H & _).
  destruct (H [("quiz42", {| Basic.roomCode := "AAAAAA"; Basic.players := [];
                             Basic.cleanupTimeout := None |})] 0 2)
    as (Hsound & Hreturns & _).
  destruct (Hreturns 1 ltac:(lia) eq_refl) as (j & _ & Hgen).
  destruct (Hsound _ _ Hgen) as (Hlen & _ & Hfresh).
  eexists _, _. split; [exact Hgen|]. split; [exact Hlen|].
  intros Heq. exact (Hfresh "quiz42" _ eq_refl (eq_sym Heq)).
Defined.

(** That some code is unassigned does not make the call return, and what it
    returns can be the room code of a session.  One code is assigned and
    every other is not, yet with draws that are 0 every time the call
    returns for no room on the stack.  And in the revision with two registries, in a
    state that a run of the server reaches, the call returns "AAAAAA" while
    the session that "quiz7" resolves to, with a participant in it, bears
    that room code: the second timer of an evicted session removed the key
    of the registry by room code, which is the only place the function
    looks at. *)
Lemma C7_generateRoomCode_counterexample :
  (Basic.isCodeInUse
     [("quiz42", {| Basic.roomCode := "AAAAAA"; Basic.players := [];
                    Basic.cleanupTimeout := None |})] "BBBBBB" = false /\
   forall fuel,
     Basic.generateRoomCode fuel always_zero
       [("quiz42", {| Basic.roomCode := "AAAAAA"; Basic.players := [];
                      Basic.cleanupTimeout := None |})] 0 = None) /\
  (exists st out,
      TwoIndex.run 1 always_zero TwoIndex.init (join_after_leave ++ code_drawn_again)%list =
        Some (st, out) /\
      TwoIndex.byQuizId "quiz7" st =
        Some {| TwoIndex.roomCode := "AAAAAA"; TwoIndex.players := [("s3", two_ann)];
                TwoIndex.quizId := "quiz7"; TwoIndex.cleanupTimeout := None |} /\
      TwoIndex.generateRoomCode 1 always_zero st = Some ("AAAAAA", 18)).
Proof.
  split.
  - split; [reflexivity|]. intros fuel. apply generate_never_free. intros j. reflexivity.
  - destruct (TwoIndex.run 1 always_zero TwoIndex.init
                (join_after_leave ++ code_drawn_again)%list) as [[st out]|] eqn:Hrun.
    + exists st, out. split; [reflexivity|].
      revert Hrun. vm_compute. intros [= <- <-]. split; reflexivity.
    + exfalso. revert Hrun. vm_compute. discriminate.
Qed.

Lemma overwrite_split {V : Type} (o : jsobj V) k v v0 :
  JsObject.get k o = Some v0 ->
  exists before after,
    o = (before ++ (k, v0) :: after)%list /\
    JsObject.get k before = None /\
    JsObject.overwrite k v o = (before ++ (k, v) :: after)%list.
Proof.
  induction o as [|[k' v'] o IH]; simpl; [discriminate|].
  destruct (String.eqb k k') eqn:E.
  - intros H. injection H as ->. apply String.eqb_eq in E. subst k'.
    exists [], o. auto.
  - intros H. destruct (IH H) as (before & after & -> & Hb & Ho).
    exists ((k', v') :: before), after. simpl. rewrite E, Ho. auto.
Qed.

Lemma set_present_split {V : Type} (o : jsobj V) k v v0 :
  JsObject.get k o = Some v0 ->
  exists before after,
    o = (before ++ (k, v0) :: after)%list /\
    JsObject.get k before = None /\
    JsObject.set k v o = (before ++ (k, v) :: after)%list.
Proof.
  intros H. unfold JsObject.set. rewrite H. apply overwrite_split. assumption.
Qed.

Lemma values_app {V : Type} (o1 o2 : jsobj V) :
  JsObject.values (o1 ++ o2)%list = (JsObject.values o1 ++ JsObject.values o2)%list.
Proof. unfold JsObject.values. apply map_app. Qed.

Lemma Scored_find_set_players st code session ps :
  Scored.byRoomCode code st = Some session ->
  Scored.byRoomCode code
    (Scored.set_activeSessions
       (JsObject.modify_first (Scored.has_roomCode code) (Scored.set_players ps)
          (Scored.activeSessions st)) st) = Some (Scored.set_players ps session).
Proof.
  unfold Scored.byRoomCode. intros H. simpl.
  apply find_value_modify_first; [assumption|].
  apply find_value_Some_holds in H as [H _]. exact H.
Qed.

Lemma Admin_find_set_players st code session ps :
  Admin.byRoomCode code st = Some session ->
  Admin.byRoomCode code
    (Admin.set_activeSessions
       (JsObject.modify_first (Admin.has_roomCode code) (Admin.set_players ps)
          (Admin.activeSessions st)) st) = Some (Admin.set_players ps session).
Proof.
  unfold Admin.byRoomCode. intros H. simpl.
  apply find_value_modify_first; [assumption|].
  apply find_value_Some_holds in H as [H _]. exact H.
Qed.

(** C8.  In the revision with scores: a [player_movement] or [update_score]
    whose room code resolves to no session, or whose socket is no
    participant of the session it resolves to, changes nothing and emits
    nothing; and an [update_score] of a participant stores the score of the
    payload, whatever the score stored before. *)
Theorem C8_strangers_ignored_score_overwritten :
  forall (st : Scored.State) (socket code : string),
    ((Scored.byRoomCode code st = None \/
      exists session,
        Scored.byRoomCode code st = Some session /\
        JsObject.get socket (Scored.players session) = None) ->
     (forall nx ny, Scored.player_movement socket code nx ny st = (st, [])) /\
     (forall n, Scored.update_score socket code n st = (st, []))) /\
    (forall session p n,
        Scored.byRoomCode code st = Some session ->
        JsObject.get socket (Scored.players session) = Some p ->
        exists session',
          Scored.byRoomCode code (fst (Scored.update_score socket code n st)) =
            Some session' /\
          option_map Scored.score (JsObject.get socket (Scored.players session')) =
            Some n).
Proof.
  intros st socket code. split.
  - intros [Hnone | (session & Hs & Hp)];
      unfold Scored.player_movement, Scored.update_score, Scored.byRoomCode in *.
    + rewrite Hnone. auto.
    + rewrite Hs, Hp. auto.
  - intros session p n Hs Hp.
    unfold Scored.update_score. pose proof Hs as Hs'. unfold Scored.byRoomCode in Hs'.
    rewrite Hs', Hp. simpl.
    eexists. split; [apply Scored_find_set_players; exact Hs|].
    simpl. rewrite get_set_eq. reflexivity.
Qed.

(** [scored_room] and [admin_room] are states of runs of the server. *)
Lemma scored_room_reached :
  option_map fst
    (Scored.run 1 by_attempt Scored.init
       [ Scored.RequestSession "s1" "quiz42" scored_ann;
         Scored.RequestSession "s2" "quiz42" scored_bob;
         Scored.UpdateScore "s1" "AAAAAA" 50%Z;
         Scored.UpdateScore "s2" "AAAAAA" 70%Z ]) = Some scored_room.
Proof. reflexivity. Qed.

Lemma admin_room_reached :
  option_map fst
    (Admin.run 1 by_attempt Admin.init
       [ Admin.RequestSession "s1" "quiz42" admin_ann (Some "secret");
         Admin.RequestSession "s2" "quiz42" admin_bob None;
         Admin.UpdateScore "s1" "AAAAAA" 50%Z;
         Admin.UpdateScore "s2" "AAAAAA" 70%Z ]) = Some admin_room.
Proof. reflexivity. Qed.

Lemma C8_strangers_ignored_witness :
  Scored.player_movement "s9" "AAAAAA" 5%Z 5%Z scored_room = (scored_room, []) /\
  Scored.update_score "s9" "ZZZZZZ" 3%Z scored_room = (scored_room, []) /\
  exists session',
    Scored.byRoomCode "AAAAAA"
      (fst (Scored.update_score "s1" "AAAAAA" 7%Z scored_room)) = Some session' /\
    option_map Scored.score (JsObject.get "s1" (Scored.players session')) = Some 7%Z.
Proof.
  split; [|split].
  - apply (proj1 (C8_strangers_ignored_score_overwritten scored_room "s9" "AAAAAA")).
    right. eexists. split; reflexivity.
  - apply (proj1 (C8_strangers_ignored_score_overwritten scored_room "s9" "ZZZZZZ")).
    left. reflexivity.
  - eapply (proj2 (C8_strangers_ignored_score_overwritten scored_room "s1" "AAAAAA"));
      reflexivity.
Defined.

(** C9.  [update_score] of a participant, in the revision with scores and
    in the revision with an admin: the handler emits one event, a
    [leaderboard_update] to the whole room whose roster is the participants
    of the session after the update; in that roster the entry of the sender
    carries the new score and keeps its other fields, and every entry
    before and after it is the entry the session held before the event. *)
Theorem C9_update_score_changes_one_score :
  (forall (st : Scored.State) (socket code : string) (n : number) session p,
      Scored.byRoomCode code st = Some session ->
      JsObject.get socket (Scored.players session) = Some p ->
      exists st' session' before after,
        Scored.update_score socket code n st =
          (st', [ Scored.Emit (ToRoom code)
                    (Scored.leaderboard_update
                       (JsObject.values (Scored.players session'))) ]) /\
        Scored.byRoomCode code st' = Some session' /\
        Scored.players session = (before ++ (socket, p) :: after)%list /\
        JsObject.get socket before = None /\
        Scored.players session' =
          (before ++
           (socket, {| Scored.x := Scored.x p; Scored.y := Scored.y p;
                       Scored.character := Scored.character p;
                       Scored.username := Scored.username p;
                       Scored.score := n |}) :: after)%list /\
        (forall other, other <> socket ->
           JsObject.get other (Scored.players session') =
           JsObject.get other (Scored.players session))) /\
  (forall (st : Admin.State) (socket code : string) (n : number) session p,
      Admin.byRoomCode code st = Some session ->
      JsObject.get socket (Admin.players session) = Some p ->
      exists st' session' before after,
        Admin.update_score socket code n st =
          (st', [ Admin.Emit (ToRoom code)
                    (Admin.leaderboard_update
                       (JsObject.values (Admin.players session'))) ]) /\
        Admin.byRoomCode code st' = Some session' /\
        Admin.players session = (before ++ (socket, p) :: after)%list /\
        JsObject.get socket before = None /\
        Admin.players session' =
          (before ++
           (socket, {| Admin.x := Admin.x p; Admin.y := Admin.y p;
                       Admin.character := Admin.character p;
                       Admin.username := Admin.username p;
                       Admin.score := n; Admin.user_id := Admin.user_id p;
                       Admin.role := Admin.role p |}) :: after)%list /\
        (forall other, other <> socket ->
           JsObject.get other (Admin.players session') =
           JsObject.get other (Admin.players session))).
Proof.
  split.
  - intros st socket code n session p Hs Hp.
    destruct (set_present_split _ socket (Scored.set_score n p) p Hp)
      as (before & after & Hsplit & Hb & Hset).
    unfold Scored.update_score. pose proof Hs as Hs'. unfold Scored.byRoomCode in Hs'.
    rewrite Hs', Hp.
    eexists _, (Scored.set_players
                  (JsObject.set socket (Scored.set_score n p) (Scored.players session))
                  session), before, after.
    split; [reflexivity|].
    split; [apply Scored_find_set_players; exact Hs|].
    split; [exact Hsplit|]. split; [exact Hb|]. split; [exact Hset|].
    intros other Hother. simpl. apply get_set_ne. congruence.
  - intros st socket code n session p Hs Hp.
    destruct (set_present_split _ socket (Admin.set_score n p) p Hp)
      as (before & after & Hsplit & Hb & Hset).
    unfold Admin.update_score. pose proof Hs as Hs'. unfold Admin.byRoomCode in Hs'.
    rewrite Hs', Hp.
    eexists _, (Admin.set_players
                  (JsObject.set socket (Admin.set_score n p) (Admin.players session))
                  session), before, after.
    split; [reflexivity|].
    split; [apply Admin_find_set_players; exact Hs|].
    split; [exact Hsplit|]. split; [exact Hb|]. split; [exact Hset|].
    intros other Hother. simpl. apply get_set_ne. congruence.
Qed.

Lemma C9_update_score_witness :
  (exists st' session',
      Scored.update_score "s1" "AAAAAA" 90%Z scored_room =
        (st', [ Scored.Emit (ToRoom "AAAAAA")
                  (Scored.leaderboard_update
                     (JsObject.values (Scored.players session'))) ]) /\
      JsObject.get "s2" (Scored.players session') =
        Some (Scored.set_score 70%Z scored_bob)) /\
  (exists st' session',
      Admin.update_score "s2" "AAAAAA" 90%Z admin_room =
        (st', [ Admin.Emit (ToRoom "AAAAAA")
                  (Admin.leaderboard_update
                     (JsObject.values (Admin.players session'))) ]) /\
      JsObject.get "s1" (Admin.players session') =
        Some (Admin.set_score 50%Z admin_ann)).
Proof.
  split.
  - destruct (proj1 C9_update_score_changes_one_score scored_room "s1" "AAAAAA" 90%Z
                _ _ eq_refl eq_refl)
      as (st' & session' & before & after & Hrun & _ & _ & _ & _ & Hother).
    exists st', session'. split; [exact Hrun|].
    rewrite Hother by discriminate. reflexivity.
  - destruct (proj2 C9_update_score_changes_one_score admin_room "s2" "AAAAAA" 90%Z
                _ _ eq_refl eq_refl)
      as (st' & session' & before & after & Hrun & _ & _ & _ & _ & Hother).
    exists st', session'. split; [exact Hrun|].
    rewrite Hother by discriminate. reflexivity.
Defined.

(** ** Joining *)

(** C10.  [request_session] by a socket that is already a participant of
    the session of that quiz, in the revision with scores and in the
    revision with an admin: the handler answers as for any join
    ([session_ready], [new_player], [leaderboard_update]; no error); the
    entry of the socket is replaced, in place, by the [playerInfo] of the
    payload with score 0, whatever position and score it held; the room
    code is kept. *)
Theorem C10_rejoin_replaces_player_state :
  (forall fuel rnd (st : Scored.State) (socket quiz : string) playerInfo session p,
      Scored.byQuizId quiz st = Some session ->
      JsObject.get socket (Scored.players session) = Some p ->
      exists st' session' before after,
        Scored.request_session fuel rnd socket quiz playerInfo st =
          Some (st',
                [ Scored.Join socket (Scored.roomCode session);
                  Scored.Emit (ToSocket socket)
                    (Scored.session_ready quiz (Scored.roomCode session)
                       (Scored.players session') socket);
                  Scored.Emit (ToRoomExceptSender (Scored.roomCode session) socket)
                    (Scored.new_player socket (Scored.joined playerInfo));
                  Scored.Emit (ToRoom (Scored.roomCode session))
                    (Scored.leaderboard_update
                       (JsObject.values (Scored.players session'))) ]) /\
        Scored.byQuizId quiz st' = Some session' /\
        Scored.roomCode session' = Scored.roomCode session /\
        Scored.players session = (before ++ (socket, p) :: after)%list /\
        JsObject.get socket before = None /\
        Scored.players session' =
          (before ++
           (socket, {| Scored.x := Scored.x playerInfo; Scored.y := Scored.y playerInfo;
                       Scored.character := Scored.character playerInfo;
                       Scored.username := Scored.username playerInfo;
                       Scored.score := 0%Z |}) :: after)%list) /\
  (forall fuel rnd (st : Admin.State) (socket quiz : string) playerInfo token session p,
      Admin.byQuizId quiz st = Some session ->
      JsObject.get socket (Admin.players session) = Some p ->
      exists st' session' before after,
        Admin.request_session fuel rnd socket quiz playerInfo token st =
          Some (st',
                [ Admin.Join socket (Admin.roomCode session);
                  Admin.Emit (ToSocket socket)
                    (Admin.session_ready quiz (Admin.roomCode session)
                       (Admin.players session') socket);
                  Admin.Emit (ToRoomExceptSender (Admin.roomCode session) socket)
                    (Admin.new_player socket (Admin.joined playerInfo));
                  Admin.Emit (ToRoom (Admin.roomCode session))
                    (Admin.leaderboard_update
                       (JsObject.values (Admin.players session'))) ]) /\
        Admin.byQuizId quiz st' = Some session' /\
        Admin.roomCode session' = Admin.roomCode session /\
        Admin.players session = (before ++ (socket, p) :: after)%list /\
        JsObject.get socket before = None /\
        Admin.players session' =
          (before ++
           (socket, {| Admin.x := Admin.x playerInfo; Admin.y := Admin.y playerInfo;
                       Admin.character := Admin.character playerInfo;
                       Admin.username := Admin.username playerInfo;
                       Admin.score := 0%Z;
                       Admin.user_id := Admin.user_id playerInfo;
                       Admin.role := Admin.role playerInfo |}) :: after)%list).
Proof.
  split.
  - intros fuel rnd st socket quiz playerInfo session p Hs Hp.
    destruct (set_present_split _ socket (Scored.joined playerInfo) p Hp)
      as (before & after & Hsplit & Hb & Hset).
    unfold Scored.request_session, Scored.byQuizId in *. rewrite Hs.
    eexists _, {| Scored.roomCode := Scored.roomCode session;
                  Scored.players :=
                    JsObject.set socket (Scored.joined playerInfo) (Scored.players session);
                  Scored.cleanupTimeout := None |}, before, after.
    split; [reflexivity|]. simpl.
    split; [apply get_set_eq|]. split; [reflexivity|].
    split; [exact Hsplit|]. split; [exact Hb|exact Hset].
  - intros fuel rnd st socket quiz playerInfo token session p Hs Hp.
    destruct (set_present_split _ socket (Admin.joined playerInfo) p Hp)
      as (before & after & Hsplit & Hb & Hset).
    unfold Admin.request_session, Admin.byQuizId in *. rewrite Hs.
    eexists _, {| Admin.roomCode := Admin.roomCode session;
                  Admin.quizId := Admin.quizId session;
                  Admin.players :=
                    JsObject.set socket (Admin.joined playerInfo) (Admin.players session);
                  Admin.adminToken := Admin.adminToken session;
                  Admin.cleanupTimeout := None |}, before, after.
    split; [reflexivity|]. simpl.
    split; [apply get_set_eq|]. split; [reflexivity|].
    split; [exact Hsplit|]. split; [exact Hb|exact Hset].
Qed.

Lemma C10_rejoin_witness :
  (exists st' session',
      option_map fst
        (Scored.request_session 0 by_attempt "s1" "quiz42" scored_bob scored_room) =
        Some st' /\
      Scored.byQuizId "quiz42" st' = Some session' /\
      Scored.roomCode session' = "AAAAAA") /\
  (exists st' session',
      option_map fst
        (Admin.request_session 0 by_attempt "s2" "quiz42" admin_ann None admin_room) =
        Some st' /\
      Admin.byQuizId "quiz42" st' = Some session' /\
      Admin.roomCode session' = "AAAAAA").
Proof.
  split.
  - destruct (proj1 C10_rejoin_replaces_player_state 0 by_attempt scored_room
                "s1" "quiz42" scored_bob _ _ eq_refl eq_refl)
      as (st' & session' & before & after & Hrun & Hs & Hcode & _).
    exists st', session'. rewrite Hrun. auto.
  - destruct (proj2 C10_rejoin_replaces_player_state 0 by_attempt admin_room
                "s2" "quiz42" admin_ann None _ _ eq_refl eq_refl)
      as (st' & session' & before & after & Hrun & Hs & Hcode & _).
    exists st', session'. rewrite Hrun. auto.
Defined.

Lemma two_room_reached :
  option_map fst
    (TwoIndex.run 1 by_attempt TwoIndex.init
       [ TwoIndex.RequestSession "s1" "quiz42";
         TwoIndex.JoinGame "s1" "AAAAAA" two_ann ]) = Some two_room.
Proof. reflexivity. Qed.

Lemma is_admin_true p : Admin.is_admin p = true <-> Admin.role p = Some "admin".
Proof.
  unfold Admin.is_admin, opt_string_eqb. destruct (Admin.role p) as [r|].
  - rewrite String.eqb_eq. split; congruence.
  - split; discriminate.
Qed.

(** [request_session] on a quiz that has a session, revision with an admin. *)
Lemma Admin_request_session_existing fuel rnd (st : Admin.State)
    (socket quiz : string) playerInfo token session :
  Admin.byQuizId quiz st = Some session ->
  exists st' out session',
    Admin.request_session fuel rnd socket quiz playerInfo token st = Some (st', out) /\
    Admin.byQuizId quiz st' = Some session' /\
    Admin.roomCode session' = Admin.roomCode session /\
    Admin.quizId session' = Admin.quizId session /\
    Admin.adminToken session' = Admin.adminToken session /\
    Admin.cleanupTimeout session' = None /\
    (forall h, Admin.cleanupTimeout session = Some h -> Admin.timers st' !! h = None) /\
    Admin.draws st' = Admin.draws st /\
    JsObject.keys (Admin.activeSessions st') = JsObject.keys (Admin.activeSessions st) /\
    (forall q, q <> quiz -> Admin.byQuizId q st' = Admin.byQuizId q st) /\
    JsObject.get socket (Admin.players session') = Some (Admin.joined playerInfo) /\
    (forall other, other <> socket ->
       JsObject.get other (Admin.players session') =
       JsObject.get other (Admin.players session)).
Proof.
  intros Hs. unfold Admin.request_session, Admin.byQuizId in *. rewrite Hs.
  eexists _, _, _. split; [reflexivity|]. simpl.
  split; [apply get_set_eq|]. do 4 (split; [reflexivity|]).
  split. { intros h ->. apply lookup_delete_eq. }
  split; [reflexivity|].
  split; [eapply keys_set_present; exact Hs|].
  split. { intros q Hq. apply get_set_ne. congruence. }
  split; [apply get_set_eq|].
  intros other Hother. apply get_set_ne. congruence.
Qed.

(** [request_session] on a quiz that has no session, revision with an
    admin. *)
Lemma Admin_request_session_new rnd k (st : Admin.State)
    (socket quiz : string) playerInfo token :
  Admin.byQuizId quiz st = None ->
  JsObject.inherited quiz = false ->
  Admin.isCodeInUse st (RoomCode.candidate rnd (Admin.draws st + 6 * k)) = false ->
  exists code st' out session',
    (forall fuel, k < fuel ->
       Admin.request_session fuel rnd socket quiz playerInfo token st =
       Some (st', out)) /\
    Admin.isCodeInUse st code = false /\
    Admin.byQuizId quiz st' = Some session' /\
    Admin.byRoomCode code st' = Some session' /\
    Admin.roomCode session' = code /\
    Admin.quizId session' = quiz /\
    Admin.players session' = [(socket, Admin.joined playerInfo)] /\
    Admin.cleanupTimeout session' = None /\
    Admin.adminToken session' = (if Admin.is_admin playerInfo then token else None) /\
    (Admin.adminToken session' <> None <->
     Admin.role playerInfo = Some "admin" /\ token <> None) /\
    (forall q, q <> quiz -> Admin.byQuizId q st' = Admin.byQuizId q st).
Proof.
  intros Hnone Hinh Hfree.
  destruct (generate_first_free (Admin.isCodeInUse st) rnd k _ Hfree)
    as (j & _ & Hj & Hgen).
  eexists (RoomCode.candidate rnd (Admin.draws st + 6 * j)), _, _,
    {| Admin.roomCode := RoomCode.candidate rnd (Admin.draws st + 6 * j);
       Admin.quizId := quiz;
       Admin.players := [(socket, Admin.joined playerInfo)];
       Admin.adminToken := if Admin.is_admin playerInfo then token else None;
       Admin.cleanupTimeout := None |}.
  split.
  { intros fuel Hfuel. unfold Admin.request_session, Admin.byQuizId in *.
    rewrite Hnone, Hinh. unfold Admin.generateRoomCode. rewrite (Hgen fuel Hfuel).
    reflexivity. }
  split; [exact Hj|]. simpl.
  split; [apply get_set_eq|].
  split.
  { unfold Admin.byRoomCode. simpl. unfold JsObject.set.
    unfold Admin.byQuizId in Hnone. rewrite Hnone.
    apply find_value_create_only; [exact Hj|].
    unfold Admin.has_roomCode. simpl. apply String.eqb_refl. }
  do 5 (split; [reflexivity|]).
  split.
  { destruct (Admin.is_admin playerInfo) eqn:E.
    - apply is_admin_true in E. tauto.
    - split; [congruence|]. intros [Hr _]. apply is_admin_true in Hr. congruence. }
  intros q Hq. unfold Admin.byQuizId. simpl. apply get_set_ne. congruence.
Qed.

(** [request_session] on a quiz that has a session, revision with two
    registries. *)
Lemma TwoIndex_request_session_existing fuel rnd (st : TwoIndex.State)
    (socket quiz : string) a session :
  JsObject.get quiz (TwoIndex.activeSessionsByQuizId st) = Some a ->
  TwoIndex.store st !! a = Some session ->
  exists st',
    TwoIndex.request_session fuel rnd socket quiz st =
      Some (st', [ TwoIndex.Emit (ToSocket socket)
                     (TwoIndex.session_created (Some (TwoIndex.roomCode session))) ]) /\
    TwoIndex.activeSessionsByQuizId st' = TwoIndex.activeSessionsByQuizId st /\
    TwoIndex.activeSessionsByRoomCode st' = TwoIndex.activeSessionsByRoomCode st /\
    TwoIndex.store st' !! a = Some (TwoIndex.set_cleanupTimeout None session) /\
    (forall b, b <> a -> TwoIndex.store st' !! b = TwoIndex.store st !! b) /\
    (forall h, TwoIndex.cleanupTimeout session = Some h -> TwoIndex.timers st' !! h = None) /\
    TwoIndex.draws st' = TwoIndex.draws st /\
    TwoIndex.next_session st' = TwoIndex.next_session st.
Proof.
  intros Ha Hs. unfold TwoIndex.request_session. rewrite Ha, Hs.
  destruct session as [rc ps q [h|]]; simpl.
  - eexists. split; [reflexivity|]. simpl. do 2 (split; [reflexivity|]).
    split; [apply lookup_insert_eq|].
    split. { intros b Hb. apply lookup_insert_ne. congruence. }
    split. { intros h' [= <-]. apply lookup_delete_eq. }
    auto.
  - eexists. split; [reflexivity|]. do 2 (split; [reflexivity|]).
    split; [exact Hs|]. split; [reflexivity|]. split; [discriminate|]. auto.
Qed.

(** [request_session] on a quiz that has no session, revision with two
    registries. *)
Lemma TwoIndex_request_session_new rnd k (st : TwoIndex.State) (socket quiz : string) :
  JsObject.get quiz (TwoIndex.activeSessionsByQuizId st) = None ->
  JsObject.inherited quiz = false ->
  TwoIndex.isCodeInUse st
    (RoomCode.candidate rnd (TwoIndex.draws st + 6 * k)) = false ->
  exists code st',
    (forall fuel, k < fuel ->
       TwoIndex.request_session fuel rnd socket quiz st =
       Some (st', [ TwoIndex.Emit (ToSocket socket)
                      (TwoIndex.session_created (Some code)) ])) /\
    JsObject.get code (TwoIndex.activeSessionsByRoomCode st) = None /\
    JsObject.get quiz (TwoIndex.activeSessionsByQuizId st') =
      Some (TwoIndex.next_session st) /\
    JsObject.get code (TwoIndex.activeSessionsByRoomCode st') =
      Some (TwoIndex.next_session st) /\
    TwoIndex.store st' !! TwoIndex.next_session st =
      Some {| TwoIndex.roomCode := code; TwoIndex.players := [];
              TwoIndex.quizId := quiz; TwoIndex.cleanupTimeout := None |} /\
    (forall q, q <> quiz ->
       JsObject.get q (TwoIndex.activeSessionsByQuizId st') =
       JsObject.get q (TwoIndex.activeSessionsByQuizId st)) /\
    (forall c, c <> code ->
       JsObject.get c (TwoIndex.activeSessionsByRoomCode st') =
       JsObject.get c (TwoIndex.activeSessionsByRoomCode st)).
Proof.
  intros Hnone Hinh Hfree.
  destruct (generate_first_free (TwoIndex.isCodeInUse st) rnd k _ Hfree)
    as (j & _ & Hj & Hgen).
  eexists (RoomCode.candidate rnd (TwoIndex.draws st + 6 * j)), _.
  split.
  { intros fuel Hfuel. unfold TwoIndex.request_session. rewrite Hnone, Hinh.
    unfold TwoIndex.generateRoomCode. rewrite (Hgen fuel Hfuel).
    cbn [TwoIndex.store]. rewrite lookup_insert_eq. reflexivity. }
  simpl.
  split; [apply isCodeInUse_false_TwoIndex; exact Hj|].
  split; [apply get_set_eq|]. split; [apply get_set_eq|].
  split; [apply lookup_insert_eq|].
  split; intros x Hx; apply get_set_ne; congruence.
Qed.

(** When none of the attempts that fit on the stack draws a code that is
    not in use, [request_session] for a quiz that has no session throws and
    nothing is created. *)
Lemma Admin_request_session_out_of_stack fuel rnd (st : Admin.State)
    (socket quiz : string) playerInfo token :
  Admin.byQuizId quiz st = None ->
  (forall j, j < fuel ->
     Admin.isCodeInUse st (RoomCode.candidate rnd (Admin.draws st + 6 * j)) = true) ->
  Admin.request_session fuel rnd socket quiz playerInfo token st = None.
Proof.
  intros Hnone Hused. unfold Admin.request_session, Admin.byQuizId in *.
  rewrite Hnone. destruct (JsObject.inherited quiz); [reflexivity|].
  unfold Admin.generateRoomCode. rewrite (generate_out_of_stack _ _ _ _ Hused).
  reflexivity.
Qed.

Lemma TwoIndex_request_session_out_of_stack fuel rnd (st : TwoIndex.State)
    (socket quiz : string) :
  JsObject.get quiz (TwoIndex.activeSessionsByQuizId st) = None ->
  JsObject.inherited quiz = false ->
  (forall j, j < fuel ->
     TwoIndex.isCodeInUse st
       (RoomCode.candidate rnd (TwoIndex.draws st + 6 * j)) = true) ->
  TwoIndex.request_session fuel rnd socket quiz st = None.
Proof.
  intros Hnone Hinh Hused. unfold TwoIndex.request_session.
  rewrite Hnone, Hinh.
  unfold TwoIndex.generateRoomCode. rewrite (generate_out_of_stack _ _ _ _ Hused).
  reflexivity.
Qed.

(** C6.  [request_session], in the revision with an admin and in the
    revision with two registries, for a quiz id that is not the name of a
    member of [Object.prototype] or that has a session.  The handler is one
    transition: the state before it holds the new session in no registry
    and the state after it in every registry.

    When the quiz has a session, the handler returns whatever room the
    stack has, draws no code and creates no session: the session keeps its
    room code, its quiz id and its admin token, a pending cleanup timer is
    cleared, and every participant other than the caller keeps its entry
    (in the revision with an admin the caller is joined; in the revision
    with two registries the session changes in nothing but the cleared
    timer).

    When the quiz has no session, the stack has room for [fuel] nested
    calls of [generateRoomCode] and one of the attempts that fit, the one
    after [k] retries, draws a code that is not in use, the handler creates
    one session with a code that was not in use; the session is reachable
    by its quiz id and by its room code, it was created empty (in the
    revision with an admin it holds the caller alone), and its admin token
    is the token of the payload exactly when the [playerInfo] of the caller
    has the role admin: it is bound if and only if the caller declared that
    role and supplied a token.  When none of the attempts that fit draws
    such a code, the handler throws and the state is left as it was. *)
Theorem C6_request_session_finds_or_creates :
  (forall fuel rnd (st : Admin.State) (socket quiz : string) playerInfo token session,
      Admin.byQuizId quiz st = Some session ->
      exists st' out session',
        Admin.request_session fuel rnd socket quiz playerInfo token st = Some (st', out) /\
        Admin.byQuizId quiz st' = Some session' /\
        Admin.roomCode session' = Admin.roomCode session /\
        Admin.quizId session' = Admin.quizId session /\
        Admin.adminToken session' = Admin.adminToken session /\
        Admin.cleanupTimeout session' = None /\
        (forall h, Admin.cleanupTimeout session = Some h -> Admin.timers st' !! h = None) /\
        Admin.draws st' = Admin.draws st /\
        JsObject.keys (Admin.activeSessions st') = JsObject.keys (Admin.activeSessions st) /\
        (forall q, q <> quiz -> Admin.byQuizId q st' = Admin.byQuizId q st) /\
        JsObject.get socket (Admin.players session') = Some (Admin.joined playerInfo) /\
        (forall other, other <> socket ->
           JsObject.get other (Admin.players session') =
           JsObject.get other (Admin.players session))) /\
  (forall fuel rnd k (st : Admin.State) (socket quiz : string) playerInfo token,
      Admin.byQuizId quiz st = None ->
      JsObject.inherited quiz = false ->
      k < fuel ->
      Admin.isCodeInUse st (RoomCode.candidate rnd (Admin.draws st + 6 * k)) = false ->
      exists code st' out session',
        Admin.request_session fuel rnd socket quiz playerInfo token st =
          Some (st', out) /\
        Admin.isCodeInUse st code = false /\
        Admin.byQuizId quiz st' = Some session' /\
        Admin.byRoomCode code st' = Some session' /\
        Admin.roomCode session' = code /\
        Admin.quizId session' = quiz /\
        Admin.players session' = [(socket, Admin.joined playerInfo)] /\
        Admin.cleanupTimeout session' = None /\
        Admin.adminToken session' = (if Admin.is_admin playerInfo then token else None) /\
        (Admin.adminToken session' <> None <->
         Admin.role playerInfo = Some "admin" /\ token <> None) /\
        (forall q, q <> quiz -> Admin.byQuizId q st' = Admin.byQuizId q st)) /\
  (forall fuel rnd (st : Admin.State) (socket quiz : string) playerInfo token,
      Admin.byQuizId quiz st = None ->
      JsObject.inherited quiz = false ->
      (forall j, j < fuel ->
         Admin.isCodeInUse st (RoomCode.candidate rnd (Admin.draws st + 6 * j)) = true) ->
      Admin.request_session fuel rnd socket quiz playerInfo token st = None) /\
  (forall fuel rnd (st : TwoIndex.State) (socket quiz : string) a session,
      JsObject.get quiz (TwoIndex.activeSessionsByQuizId st) = Some a ->
      TwoIndex.store st !! a = Some session ->
      exists st',
        TwoIndex.request_session fuel rnd socket quiz st =
          Some (st', [ TwoIndex.Emit (ToSocket socket)
                         (TwoIndex.session_created (Some (TwoIndex.roomCode session))) ]) /\
        TwoIndex.activeSessionsByQuizId st' = TwoIndex.activeSessionsByQuizId st /\
        TwoIndex.activeSessionsByRoomCode st' = TwoIndex.activeSessionsByRoomCode st /\
        TwoIndex.store st' !! a = Some (TwoIndex.set_cleanupTimeout None session) /\
        (forall b, b <> a -> TwoIndex.store st' !! b = TwoIndex.store st !! b) /\
        (forall h, TwoIndex.cleanupTimeout session = Some h -> TwoIndex.timers st' !! h = None) /\
        TwoIndex.draws st' = TwoIndex.draws st /\
        TwoIndex.next_session st' = TwoIndex.next_session st) /\
  (forall fuel rnd k (st : TwoIndex.State) (socket quiz : string),
      JsObject.get quiz (TwoIndex.activeSessionsByQuizId st) = None ->
      JsObject.inherited quiz = false ->
      k < fuel ->
      TwoIndex.isCodeInUse st
        (RoomCode.candidate rnd (TwoIndex.draws st + 6 * k)) = false ->
      exists code st',
        TwoIndex.request_session fuel rnd socket quiz st =
          Some (st', [ TwoIndex.Emit (ToSocket socket)
                         (TwoIndex.session_created (Some code)) ]) /\
        JsObject.get code (TwoIndex.activeSessionsByRoomCode st) = None /\
        JsObject.get quiz (TwoIndex.activeSessionsByQuizId st') =
          Some (TwoIndex.next_session st) /\
        JsObject.get code (TwoIndex.activeSessionsByRoomCode st') =
          Some (TwoIndex.next_session st) /\
        TwoIndex.store st' !! TwoIndex.next_session st =
          Some {| TwoIndex.roomCode := code; TwoIndex.players := [];
                  TwoIndex.quizId := quiz; TwoIndex.cleanupTimeout := None |} /\
        (forall q, q <> quiz ->
           JsObject.get q (TwoIndex.activeSessionsByQuizId st') =
           JsObject.get q (TwoIndex.activeSessionsByQuizId st)) /\
        (forall c, c <> code ->
           JsObject.get c (TwoIndex.activeSessionsByRoomCode st') =
           JsObject.get c (TwoIndex.activeSessionsByRoomCode st))) /\
  (forall fuel rnd (st : TwoIndex.State) (socket quiz : string),
      JsObject.get quiz (TwoIndex.activeSessionsByQuizId st) = None ->
      JsObject.inherited quiz = false ->
      (forall j, j < fuel ->
         TwoIndex.isCodeInUse st
           (RoomCode.candidate rnd (TwoIndex.draws st + 6 * j)) = true) ->
      TwoIndex.request_session fuel rnd socket quiz st = None).
Proof.
  split; [|split; [|split; [|split; [|split]]]].
  - intros. apply Admin_request_session_existing; assumption.
  - intros fuel rnd k st socket quiz playerInfo token Hnone Hinh Hk Hfree.
    destruct (Admin_request_session_new rnd k st socket quiz playerInfo token
                Hnone Hinh Hfree) as (code & st' & out & session' & Hrun & Hrest).
    exists code, st', out, session'. split; [apply Hrun; exact Hk|exact Hrest].
  - intros fuel rnd st socket quiz playerInfo token Hnone _ Hused.
    apply Admin_request_session_out_of_stack; assumption.
  - intros. apply TwoIndex_request_session_existing; assumption.
  - intros fuel rnd k st socket quiz Hnone Hinh Hk Hfree.
    destruct (TwoIndex_request_session_new rnd k st socket quiz Hnone Hinh Hfree)
      as (code & st' & Hrun & Hrest).
    exists code, st'. split; [apply Hrun; exact Hk|exact Hrest].
  - intros. apply TwoIndex_request_session_out_of_stack; assumption.
Qed.

Lemma C6_request_session_witness :
  (exists st' out session',
      Admin.request_session 0 by_attempt "s3" "quiz42" admin_ann (Some "other")
        admin_room = Some (st', out) /\
      Admin.byQuizId "quiz42" st' = Some session' /\
      Admin.roomCode session' = "AAAAAA" /\
      Admin.adminToken session' = Some "secret") /\
  (exists code st' out session',
      Admin.request_session 1 by_attempt "s3" "quiz7" admin_ann (Some "other")
        admin_room = Some (st', out) /\
      Admin.isCodeInUse admin_room code = false /\
      Admin.byRoomCode code st' = Some session' /\
      Admin.adminToken session' = Some "other") /\
  Admin.request_session 1 always_zero "s3" "quiz7" admin_ann (Some "other")
    admin_room = None /\
  (exists st',
      TwoIndex.request_session 0 by_attempt "s2" "quiz42" two_room =
        Some (st', [ TwoIndex.Emit (ToSocket "s2")
                       (TwoIndex.session_created (Some "AAAAAA")) ])) /\
  (exists code st',
      TwoIndex.request_session 1 by_attempt "s2" "quiz7" two_room =
        Some (st', [ TwoIndex.Emit (ToSocket "s2")
                       (TwoIndex.session_created (Some code)) ]) /\
      JsObject.get "quiz7" (TwoIndex.activeSessionsByQuizId st') = Some 1 /\
      JsObject.get code (TwoIndex.activeSessionsByRoomCode st') = Some 1) /\
  TwoIndex.request_session 1 always_zero "s2" "quiz7" two_room = None.
Proof.
  destruct C6_request_session_finds_or_creates as (H1 & H2 & H3 & H4 & H5 & H6).
  split; [|split; [|split; [|split; [|split]]]].
  - destruct (H1 0 by_attempt admin_room "s3" "quiz42" admin_ann (Some "other") _ eq_refl)
      as (st' & out & session' & Hrun & Hs & Hcode & _ & Htoken & _).
    exists st', out, session'. rewrite Hcode, Htoken. auto.
  - destruct (H2 1 by_attempt 0 admin_room "s3" "quiz7" admin_ann (Some "other")
                eq_refl eq_refl ltac:(lia) eq_refl)
      as (code & st' & out & session' & Hrun & Hfree & _ & Hs & _ & _ & _ & _ & Htoken & _).
    exists code, st', out, session'. rewrite Htoken. auto.
  - apply H3; [reflexivity|reflexivity|].
    intros j Hj. assert (j = 0) as -> by lia. reflexivity.
  - destruct (H4 0 by_attempt two_room "s2" "quiz42" 0 _ eq_refl eq_refl)
      as (st' & Hrun & _).
    exists st'. exact Hrun.
  - destruct (H5 1 by_attempt 0 two_room "s2" "quiz7" eq_refl eq_refl ltac:(lia) eq_refl)
      as (code & st' & Hrun & _ & Hq & Hc & _).
    exists code, st'. auto.
  - apply H6; [reflexivity|reflexivity|].
    intros j Hj. assert (j = 0) as -> by lia. reflexivity.
Defined.

(** A quiz that has no session is not always given one.  The room of "quiz42" bears the code "AAAAAA";
    with draws that are 0 every time, a request for "quiz7" finds every
    attempt colliding and throws, whatever room the stack has.  And a quiz
    id that names a member of [Object.prototype] is never given a session:
    the revision with an admin throws, the revision with two registries
    answers [session_created] without a room code and changes nothing. *)
Lemma C6_request_session_counterexample :
  (Admin.byQuizId "quiz7" admin_room = None /\
   forall fuel,
     Admin.request_session fuel always_zero "s3" "quiz7" admin_ann (Some "other")
       admin_room = None) /\
  (TwoIndex.byQuizId "quiz7" two_room = None /\
   forall fuel,
     TwoIndex.request_session fuel always_zero "s2" "quiz7" two_room = None) /\
  (Admin.byQuizId "constructor" admin_room = None /\
   forall fuel rnd,
     Admin.request_session fuel rnd "s3" "constructor" admin_ann (Some "other")
       admin_room = None) /\
  (TwoIndex.byQuizId "constructor" two_room = None /\
   forall fuel rnd,
     TwoIndex.request_session fuel rnd "s2" "constructor" two_room =
       Some (two_room, [ TwoIndex.Emit (ToSocket "s2") (TwoIndex.session_created None) ])).
Proof.
  split; [|split; [|split]].
  - split; [reflexivity|]. intros fuel.
    apply Admin_request_session_out_of_stack; [reflexivity|].
    intros j _. reflexivity.
  - split; [reflexivity|]. intros fuel.
    apply TwoIndex_request_session_out_of_stack; [reflexivity|reflexivity|].
    intros j _. reflexivity.
  - split; [reflexivity|]. intros fuel rnd. reflexivity.
  - split; [reflexivity|]. intros fuel rnd. reflexivity.
Qed.

(** ** The cleanup timer *)

(** The leave that drains the session of a quiz whose id is not the empty
    string arms a timer due [cleanup_delay] later. *)
Lemma Scored_last_leave_arms_timer (st : Scored.State) (socket quiz : string) session :
  Scored.byQuizId quiz st = Some session ->
  JsObject.find_entry (Scored.has_player socket) (Scored.activeSessions st) =
    Some (quiz, session) ->
  JsObject.is_empty (JsObject.delete socket (Scored.players session)) = true ->
  quiz <> "" ->
  exists st',
    Scored.disconnect socket st =
      (st', [ Scored.Emit (ToRoom (Scored.roomCode session))
                (Scored.player_disconnected socket) ]) /\
    Scored.timers st' !! Scored.next_timer st =
      Some {| Scored.due := (Scored.now st + 60000)%N; Scored.quizIdToClean := quiz |} /\
    Scored.byQuizId quiz st' =
      Some {| Scored.roomCode := Scored.roomCode session;
              Scored.players := [];
              Scored.cleanupTimeout := Some (Scored.next_timer st) |}.
Proof.
  intros Hs Hfind Hempty Hquiz. unfold Scored.disconnect. rewrite Hfind, Hempty.
  assert (truthy_opt_string (Some quiz) = true) as ->.
  { destruct quiz; [congruence|reflexivity]. }
  eexists. split; [reflexivity|]. simpl.
  split; [apply lookup_insert_eq|].
  unfold Scored.byQuizId in *. simpl.
  rewrite (get_modify_first_hit _ _ _ _ _ Hfind Hs).
  apply is_empty_nil in Hempty. unfold Scored.set_cleanupTimeout, Scored.set_players.
  simpl. rewrite Hempty. reflexivity.
Qed.

(** A join while the timer is pending clears it and reuses the session. *)
Lemma Scored_join_cancels_timer fuel rnd (st : Scored.State) (socket quiz : string)
    playerInfo session h :
  Scored.byQuizId quiz st = Some session ->
  Scored.cleanupTimeout session = Some h ->
  exists st' out,
    Scored.request_session fuel rnd socket quiz playerInfo st = Some (st', out) /\
    Scored.timers st' !! h = None /\
    Scored.draws st' = Scored.draws st /\
    Scored.byQuizId quiz st' =
      Some {| Scored.roomCode := Scored.roomCode session;
              Scored.players :=
                JsObject.set socket (Scored.joined playerInfo) (Scored.players session);
              Scored.cleanupTimeout := None |}.
Proof.
  intros Hs Hh. unfold Scored.request_session, Scored.byQuizId in *. rewrite Hs.
  eexists _, _. split; [reflexivity|]. simpl. rewrite Hh.
  split; [apply lookup_delete_eq|]. split; [reflexivity|]. apply get_set_eq.
Qed.

(** A pending timer cannot fire before it is due; once due, its firing
    deletes the session of its quiz id. *)
Lemma Scored_timer_fires_spec (st : Scored.State) h tm :
  Scored.timers st !! h = Some tm ->
  ((Scored.now st < Scored.due tm)%N -> Scored.timer_fires h st = None) /\
  ((Scored.due tm <= Scored.now st)%N ->
   exists st',
     Scored.timer_fires h st = Some st' /\
     Scored.byQuizId (Scored.quizIdToClean tm) st' = None /\
     Scored.timers st' !! h = None /\
     (forall q, q <> Scored.quizIdToClean tm -> Scored.byQuizId q st' = Scored.byQuizId q st)).
Proof.
  intros Htm. unfold Scored.timer_fires. rewrite Htm. split; intros Hdue.
  - apply N.leb_gt in Hdue. rewrite Hdue. reflexivity.
  - apply N.leb_le in Hdue. rewrite Hdue. eexists. split; [reflexivity|].
    unfold Scored.byQuizId. simpl.
    split; [apply get_delete_eq|]. split; [apply lookup_delete_eq|].
    intros q Hq. apply get_delete_ne. congruence.
Qed.

(** A request for a quiz that has no session (for one, after its timer
    fired) creates a session that holds the caller alone. *)
Lemma Scored_request_session_new rnd k (st : Scored.State) (socket quiz : string)
    playerInfo :
  Scored.byQuizId quiz st = None ->
  JsObject.inherited quiz = false ->
  Scored.isCodeInUse st (RoomCode.candidate rnd (Scored.draws st + 6 * k)) = false ->
  exists code st' out,
    (forall fuel, k < fuel ->
       Scored.request_session fuel rnd socket quiz playerInfo st = Some (st', out)) /\
    Scored.isCodeInUse st code = false /\
    Scored.byQuizId quiz st' =
      Some {| Scored.roomCode := code;
              Scored.players := [(socket, Scored.joined playerInfo)];
              Scored.cleanupTimeout := None |} /\
    Scored.byRoomCode code st' =
      Some {| Scored.roomCode := code;
              Scored.players := [(socket, Scored.joined playerInfo)];
              Scored.cleanupTimeout := None |}.
Proof.
  intros Hnone Hinh Hfree.
  destruct (generate_first_free (Scored.isCodeInUse st) rnd k _ Hfree)
    as (j & _ & Hj & Hgen).
  eexists (RoomCode.candidate rnd (Scored.draws st + 6 * j)), _, _.
  split.
  { intros fuel Hfuel. unfold Scored.request_session, Scored.byQuizId in *.
    rewrite Hnone, Hinh. unfold Scored.generateRoomCode. rewrite (Hgen fuel Hfuel).
    reflexivity. }
  split; [exact Hj|]. unfold Scored.byQuizId, Scored.byRoomCode in *. simpl.
  split; [apply get_set_eq|].
  unfold JsObject.set. rewrite Hnone.
  apply find_value_create_only; [exact Hj|].
  unfold Scored.has_roomCode. simpl. apply String.eqb_refl.
Qed.

(** The exclusion of timer handle and participants, in the revision with
    scores. *)
Lemma Scored_has_player_nonempty socket session :
  Scored.has_player socket session = true -> Scored.players session <> [].
Proof.
  unfold Scored.has_player. destruct (Scored.players session); [discriminate|congruence].
Qed.

Lemma Scored_find_value_In (st : Scored.State) p session :
  JsObject.find_value p (Scored.activeSessions st) = Some session ->
  exists quiz,
    JsObject.find_entry p (Scored.activeSessions st) = Some (quiz, session) /\
    In (quiz, session) (Scored.activeSessions st).
Proof.
  rewrite find_entry_find_value.
  destruct (JsObject.find_entry p (Scored.activeSessions st)) as [[quiz s]|] eqn:E;
    [|discriminate].
  intros [= ->]. exists quiz. split; [reflexivity|].
  apply find_entry_Some in E. tauto.
Qed.

Lemma Scored_step_exclusive fuel rnd st i st' out :
  Scored_exclusive st -> Scored.step fuel rnd st i = Some (st', out) ->
  Scored_exclusive st'.
Proof.
  intros Hinv.
  destruct i as [socket quiz info|socket code nx ny|socket code n|socket|h|ms]; simpl.
  - unfold Scored.request_session.
    destruct (JsObject.get quiz (Scored.activeSessions st)) as [session|] eqn:Hq;
      [|destruct (JsObject.inherited quiz); [discriminate|];
        destruct (Scored.generateRoomCode fuel rnd st) as [[code d]|]; [|discriminate]];
      intros [= <- <-]; intros q s Hin Hh; simpl in Hin;
      apply In_set in Hin as [Heq|Hin]; eauto;
      injection Heq as -> ->; simpl in Hh; congruence.
  - unfold Scored.player_movement.
    destruct (JsObject.find_value _ _) as [session|] eqn:Hf; [|intros [= <- <-]; exact Hinv].
    destruct (JsObject.get socket (Scored.players session)) as [p|] eqn:Hp;
      intros [= <- <-]; [|exact Hinv].
    destruct (Scored_find_value_In _ _ _ Hf) as (quiz & Hfind & Hin0).
    intros q s Hin Hh. simpl in Hin.
    apply In_modify_first in Hin as [Hin|(s0 & Hin & ->)]; [eauto|].
    rewrite Hfind in Hin. injection Hin as <- <-. simpl in Hh.
    rewrite (Hinv _ _ Hin0 Hh) in Hp. discriminate.
  - unfold Scored.update_score.
    destruct (JsObject.find_value _ _) as [session|] eqn:Hf; [|intros [= <- <-]; exact Hinv].
    destruct (JsObject.get socket (Scored.players session)) as [p|] eqn:Hp;
      intros [= <- <-]; [|exact Hinv].
    destruct (Scored_find_value_In _ _ _ Hf) as (quiz & Hfind & Hin0).
    intros q s Hin Hh. simpl in Hin.
    apply In_modify_first in Hin as [Hin|(s0 & Hin & ->)]; [eauto|].
    rewrite Hfind in Hin. injection Hin as <- <-. simpl in Hh.
    rewrite (Hinv _ _ Hin0 Hh) in Hp. discriminate.
  - unfold Scored.disconnect.
    destruct (JsObject.find_entry _ _) as [[quiz session]|] eqn:Hfind;
      [|intros [= <- <-]; exact Hinv].
    pose proof (find_entry_Some _ _ _ _ Hfind) as [Hhas Hin0].
    destruct (JsObject.is_empty _) eqn:Hempty; simpl.
    + destruct (truthy_string quiz); intros [= <- <-]; intros q s Hin Hh; simpl in Hin;
        apply In_modify_first in Hin as [Hin|(s0 & Hin & ->)]; eauto;
        simpl; apply is_empty_nil; exact Hempty.
    + intros [= <- <-]. intros q s Hin Hh. simpl in Hin.
      apply In_modify_first in Hin as [Hin|(s0 & Hin & ->)]; [eauto|].
      rewrite Hfind in Hin. injection Hin as <- <-. simpl in Hh.
      exfalso. apply (Scored_has_player_nonempty _ _ Hhas). eauto.
  - unfold Scored.timer_fires. destruct (Scored.timers st !! h) as [tm|]; [|discriminate].
    destruct (Scored.due tm <=? Scored.now st)%N; [|discriminate].
    intros [= <- <-]. intros q s Hin Hh. simpl in Hin. apply In_delete in Hin. eauto.
  - intros [= <- <-]. exact Hinv.
Qed.

(** Every state of every run of the revision with scores keeps timer
    handle and participants apart. *)
Lemma Scored_run_exclusive fuel rnd inputs : forall st st' out,
  Scored_exclusive st -> Scored.run fuel rnd st inputs = Some (st', out) ->
  Scored_exclusive st'.
Proof.
  induction inputs as [|i inputs IH]; intros st st' out Hinv; simpl.
  - intros [= <- <-]. exact Hinv.
  - destruct (Scored.step fuel rnd st i) as [[st1 out1]|] eqn:Hstep; [|discriminate].
    destruct (Scored.run fuel rnd st1 inputs) as [[st2 out2]|] eqn:Hrun; [|discriminate].
    intros [= <- <-]. eapply IH; [|exact Hrun].
    eapply Scored_step_exclusive; eauto.
Qed.

Lemma Scored_init_exclusive : Scored_exclusive Scored.init.
Proof. intros q s []. Qed.

(** The same exclusion in the revision with an admin. *)
Lemma Admin_has_player_nonempty socket session :
  Admin.has_player socket session = true -> Admin.players session <> [].
Proof.
  unfold Admin.has_player. destruct (Admin.players session); [discriminate|congruence].
Qed.

Lemma Admin_find_value_In (st : Admin.State) p session :
  JsObject.find_value p (Admin.activeSessions st) = Some session ->
  exists quiz,
    JsObject.find_entry p (Admin.activeSessions st) = Some (quiz, session) /\
    In (quiz, session) (Admin.activeSessions st).
Proof.
  rewrite find_entry_find_value.
  destruct (JsObject.find_entry p (Admin.activeSessions st)) as [[quiz s]|] eqn:E;
    [|discriminate].
  intros [= ->]. exists quiz. split; [reflexivity|].
  apply find_entry_Some in E. tauto.
Qed.

Lemma Admin_step_exclusive fuel rnd st i st' out :
  Admin_exclusive st -> Admin.step fuel rnd st i = Some (st', out) ->
  Admin_exclusive st'.
Proof.
  intros Hinv.
  destruct i as [socket quiz info token|socket code nx ny|socket code n
                |socket code token|id o|socket|h|ms]; simpl.
  - unfold Admin.request_session.
    destruct (JsObject.get quiz (Admin.activeSessions st)) as [session|] eqn:Hq;
      [|destruct (JsObject.inherited quiz); [discriminate|];
        destruct (Admin.generateRoomCode fuel rnd st) as [[code d]|]; [|discriminate]];
      intros [= <- <-]; intros q s Hin Hh; simpl in Hin;
      apply In_set in Hin as [Heq|Hin]; eauto;
      injection Heq as -> ->; simpl in Hh; congruence.
  - unfold Admin.player_movement.
    destruct (JsObject.find_value _ _) as [session|] eqn:Hf; [|intros [= <- <-]; exact Hinv].
    destruct (JsObject.get socket (Admin.players session)) as [p|] eqn:Hp;
      intros [= <- <-]; [|exact Hinv].
    destruct (Admin_find_value_In _ _ _ Hf) as (quiz & Hfind & Hin0).
    intros q s Hin Hh. simpl in Hin.
    apply In_modify_first in Hin as [Hin|(s0 & Hin & ->)]; [eauto|].
    rewrite Hfind in Hin. injection Hin as <- <-. simpl in Hh.
    rewrite (Hinv _ _ Hin0 Hh) in Hp. discriminate.
  - unfold Admin.update_score.
    destruct (JsObject.find_value _ _) as [session|] eqn:Hf; [|intros [= <- <-]; exact Hinv].
    destruct (JsObject.get socket (Admin.players session)) as [p|] eqn:Hp;
      intros [= <- <-]; [|exact Hinv].
    destruct (Admin_find_value_In _ _ _ Hf) as (quiz & Hfind & Hin0).
    intros q s Hin Hh. simpl in Hin.
    apply In_modify_first in Hin as [Hin|(s0 & Hin & ->)]; [eauto|].
    rewrite Hfind in Hin. injection Hin as <- <-. simpl in Hh.
    rewrite (Hinv _ _ Hin0 Hh) in Hp. discriminate.
  - unfold Admin.admin_end_quiz.
    destruct (JsObject.find_value _ _) as [session|]; [|intros [= <- <-]; exact Hinv].
    destruct (opt_string_eqb _ _); intros [= <- <-]; exact Hinv.
  - unfold Admin.fetch_settles.
    destruct (Admin.fetches st !! id) as [k|]; [|discriminate].
    destruct o as [|[errorData|]|]; intros [= <- <-]; intros q s Hin Hh; simpl in Hin;
      try apply In_delete in Hin; eauto.
  - unfold Admin.disconnect.
    destruct (JsObject.find_entry _ _) as [[quiz session]|] eqn:Hfind;
      [|intros [= <- <-]; exact Hinv].
    pose proof (find_entry_Some _ _ _ _ Hfind) as [Hhas Hin0].
    destruct (JsObject.is_empty _) eqn:Hempty; simpl.
    + destruct (truthy_string quiz); intros [= <- <-]; intros q s Hin Hh; simpl in Hin;
        apply In_modify_first in Hin as [Hin|(s0 & Hin & ->)]; eauto;
        simpl; apply is_empty_nil; exact Hempty.
    + intros [= <- <-]. intros q s Hin Hh. simpl in Hin.
      apply In_modify_first in Hin as [Hin|(s0 & Hin & ->)]; [eauto|].
      rewrite Hfind in Hin. injection Hin as <- <-. simpl in Hh.
      exfalso. apply (Admin_has_player_nonempty _ _ Hhas). eauto.
  - unfold Admin.timer_fires. destruct (Admin.timers st !! h) as [tm|]; [|discriminate].
    destruct (Admin.due tm <=? Admin.now st)%N; [|discriminate].
    intros [= <- <-]. intros q s Hin Hh. simpl in Hin. apply In_delete in Hin. eauto.
  - intros [= <- <-]. exact Hinv.
Qed.

Lemma Admin_run_exclusive fuel rnd inputs : forall st st' out,
  Admin_exclusive st -> Admin.run fuel rnd st inputs = Some (st', out) ->
  Admin_exclusive st'.
Proof.
  induction inputs as [|i inputs IH]; intros st st' out Hinv; simpl.
  - intros [= <- <-]. exact Hinv.
  - destruct (Admin.step fuel rnd st i) as [[st1 out1]|] eqn:Hstep; [|discriminate].
    destruct (Admin.run fuel rnd st1 inputs) as [[st2 out2]|] eqn:Hrun; [|discriminate].
    intros [= <- <-]. eapply IH; [|exact Hrun].
    eapply Admin_step_exclusive; eauto.
Qed.

Lemma Admin_init_exclusive : Admin_exclusive Admin.init.
Proof. intros q s []. Qed.

(** ** The store of the revision with two registries *)

Lemma TwoIndex_closed_step_rule (st st' : TwoIndex.State) :
  TwoIndex_closed st ->
  (forall b, is_Some (TwoIndex.store st' !! b) -> b < TwoIndex.next_session st') ->
  (forall b, is_Some (TwoIndex.store st !! b) -> is_Some (TwoIndex.store st' !! b)) ->
  (forall q a, In (q, a) (TwoIndex.activeSessionsByQuizId st') ->
     In (q, a) (TwoIndex.activeSessionsByQuizId st) \/ is_Some (TwoIndex.store st' !! a)) ->
  (forall c a, In (c, a) (TwoIndex.activeSessionsByRoomCode st') ->
     In (c, a) (TwoIndex.activeSessionsByRoomCode st) \/ is_Some (TwoIndex.store st' !! a)) ->
  (forall h tm, TwoIndex.timers st' !! h = Some tm ->
     TwoIndex.timers st !! h = Some tm \/ is_Some (TwoIndex.store st' !! TwoIndex.session tm)) ->
  TwoIndex_closed st'.
Proof.
  intros (Hq & Hc & Ht & Hn) Hnext Hgrow Hq' Hc' Ht'.
  split; [|split; [|split]].
  - intros q a Hin. destruct (Hq' q a Hin); eauto.
  - intros c a Hin. destruct (Hc' c a Hin); eauto.
  - intros h tm Hin. destruct (Ht' h tm Hin); eauto.
  - exact Hnext.
Qed.

(** Writing to a session of the store keeps the addresses in use. *)
Lemma is_Some_insert_allocated (m : gmap nat TwoIndex.Session) a s s' b :
  m !! a = Some s -> is_Some (<[a := s']> m !! b) <-> is_Some (m !! b).
Proof.
  intros Ha. rewrite lookup_insert_is_Some. split.
  - intros [<-|[_ H]]; [eauto|exact H].
  - intros H. destruct (decide (a = b)); [left|right]; auto.
Qed.

Lemma TwoIndex_step_closed fuel rnd st i st' out :
  TwoIndex_closed st -> TwoIndex.step fuel rnd st i = Some (st', out) ->
  TwoIndex_closed st'.
Proof.
  intros Hinv. pose proof Hinv as (Hq & Hc & Ht & Hn).
  destruct i as [socket quiz|socket code info|socket code nx ny|socket|h|ms]; simpl.
  - unfold TwoIndex.request_session.
    destruct (JsObject.get quiz (TwoIndex.activeSessionsByQuizId st)) as [a|] eqn:Hget.
    + destruct (TwoIndex.store st !! a) as [s|] eqn:Hs; [|discriminate].
      destruct (TwoIndex.cleanupTimeout s) as [h|]; intros [= <- <-]; [|exact Hinv].
      apply (TwoIndex_closed_step_rule st); auto; simpl.
      * intros b Hb. apply Hn. eapply is_Some_insert_allocated; eauto.
      * intros b Hb. eapply is_Some_insert_allocated; eauto.
      * intros h' tm Hh'. apply lookup_delete_Some in Hh'. tauto.
    + destruct (JsObject.inherited quiz); [intros [= <- <-]; exact Hinv|].
      destruct (TwoIndex.generateRoomCode fuel rnd st) as [[code d]|]; [|discriminate].
      cbn [TwoIndex.store]. rewrite lookup_insert_eq. cbn [TwoIndex.cleanupTimeout].
      intros [= <- <-].
      apply (TwoIndex_closed_step_rule st); auto; simpl.
      * intros b Hb. apply lookup_insert_is_Some in Hb as [<-|[_ Hb]]; [lia|].
        apply Hn in Hb. lia.
      * intros b Hb. apply lookup_insert_is_Some.
        destruct (decide (TwoIndex.next_session st = b)); auto.
      * intros q a Hin. apply In_set in Hin as [[= -> ->]|Hin]; [right|tauto].
        rewrite lookup_insert_eq. eauto.
      * intros c a Hin. apply In_set in Hin as [[= -> ->]|Hin]; [right|tauto].
        rewrite lookup_insert_eq. eauto.
  - unfold TwoIndex.join_game.
    destruct (JsObject.get code (TwoIndex.activeSessionsByRoomCode st)) as [a|];
      [|destruct (JsObject.inherited code); [discriminate|]; intros [= <- <-]; exact Hinv].
    destruct (TwoIndex.store st !! a) as [s|] eqn:Hs; intros [= <- <-]; [|exact Hinv].
    apply (TwoIndex_closed_step_rule st); auto; simpl.
    + intros b Hb. apply Hn. eapply is_Some_insert_allocated; eauto.
    + intros b Hb. eapply is_Some_insert_allocated; eauto.
  - unfold TwoIndex.player_movement.
    destruct (JsObject.get code (TwoIndex.activeSessionsByRoomCode st)) as [a|];
      [|destruct (JsObject.inherited code); [discriminate|]; intros [= <- <-]; exact Hinv].
    destruct (TwoIndex.store st !! a) as [s|] eqn:Hs; [|intros [= <- <-]; exact Hinv].
    destruct (JsObject.get socket (TwoIndex.players s)) as [p|];
      intros [= <- <-]; [|exact Hinv].
    apply (TwoIndex_closed_step_rule st); auto; simpl.
    + intros b Hb. apply Hn. eapply is_Some_insert_allocated; eauto.
    + intros b Hb. eapply is_Some_insert_allocated; eauto.
  - unfold TwoIndex.disconnect.
    destruct (JsObject.find_entry _ _) as [[code a]|]; [|intros [= <- <-]; exact Hinv].
    destruct (TwoIndex.store st !! a) as [s|] eqn:Hs; [|intros [= <- <-]; exact Hinv].
    destruct (JsObject.is_empty _); intros [= <- <-];
      apply (TwoIndex_closed_step_rule st); auto; simpl.
    + intros b Hb. apply Hn. eapply is_Some_insert_allocated; eauto.
    + intros b Hb. eapply is_Some_insert_allocated; eauto.
    + intros h tm Hh. apply lookup_insert_Some in Hh as [[_ <-]|[_ Hh]]; [right|tauto].
      simpl. rewrite lookup_insert_eq. eauto.
    + intros b Hb. apply Hn. eapply is_Some_insert_allocated; eauto.
    + intros b Hb. eapply is_Some_insert_allocated; eauto.
  - unfold TwoIndex.timer_fires.
    destruct (TwoIndex.timers st !! h) as [tm|]; [|discriminate].
    destruct (TwoIndex.due tm <=? TwoIndex.now st)%N; [|discriminate].
    destruct (TwoIndex.store st !! TwoIndex.session tm) as [s|]; [|discriminate].
    intros [= <- <-].
    apply (TwoIndex_closed_step_rule st); auto; simpl.
    + intros q a Hin. apply In_delete in Hin. tauto.
    + intros c a Hin. apply In_delete in Hin. tauto.
    + intros h' tm' Hh'. apply lookup_delete_Some in Hh'. tauto.
  - intros [= <- <-]. exact Hinv.
Qed.

Lemma TwoIndex_init_closed : TwoIndex_closed TwoIndex.init.
Proof.
  split; [|split; [|split]]; simpl.
  - intros q a [].
  - intros c a [].
  - intros h tm H. rewrite lookup_empty in H. discriminate.
  - intros a [s H]. rewrite lookup_empty in H. discriminate.
Qed.

(** In every state of every run the registries and the timers hold
    addresses of sessions of the store. *)
Lemma TwoIndex_run_closed fuel rnd inputs : forall st st' out,
  TwoIndex_closed st -> TwoIndex.run fuel rnd st inputs = Some (st', out) ->
  TwoIndex_closed st'.
Proof.
  induction inputs as [|i inputs IH]; intros st st' out Hinv; simpl.
  - intros [= <- <-]. exact Hinv.
  - destruct (TwoIndex.step fuel rnd st i) as [[st1 out1]|] eqn:Hstep; [|discriminate].
    destruct (TwoIndex.run fuel rnd st1 inputs) as [[st2 out2]|] eqn:Hrun; [|discriminate].
    intros [= <- <-]. eapply IH; [|exact Hrun].
    eapply TwoIndex_step_closed; eauto.
Qed.

(** Hence the lookups of the store in the handlers never fail: a due timer
    fires, and [request_session] fails to return only when
    [generateRoomCode] does. *)
Lemma TwoIndex_timer_fires_defined (st : TwoIndex.State) h tm :
  TwoIndex_closed st ->
  TwoIndex.timers st !! h = Some tm -> (TwoIndex.due tm <= TwoIndex.now st)%N ->
  exists st', TwoIndex.timer_fires h st = Some st'.
Proof.
  intros (_ & _ & Ht & _) Htm Hdue. unfold TwoIndex.timer_fires. rewrite Htm.
  apply N.leb_le in Hdue. rewrite Hdue.
  destruct (Ht h tm Htm) as [s ->]. eauto.
Qed.

Lemma TwoIndex_request_session_defined fuel rnd (st : TwoIndex.State) socket quiz :
  TwoIndex_closed st ->
  TwoIndex.request_session fuel rnd socket quiz st = None ->
  JsObject.get quiz (TwoIndex.activeSessionsByQuizId st) = None /\
  TwoIndex.generateRoomCode fuel rnd st = None.
Proof.
  intros (Hq & _) . unfold TwoIndex.request_session.
  destruct (JsObject.get quiz (TwoIndex.activeSessionsByQuizId st)) as [a|] eqn:Hget.
  - apply get_In in Hget. destruct (Hq quiz a Hget) as [s ->].
    destruct (TwoIndex.cleanupTimeout s); discriminate.
  - destruct (JsObject.inherited quiz); [discriminate|].
    destruct (TwoIndex.generateRoomCode fuel rnd st) as [[code d]|]; [|auto].
    cbn [TwoIndex.store]. rewrite lookup_insert_eq. discriminate.
Qed.

(** ** The registry stays a dictionary with room codes of their own *)

Lemma Basic_not_in_use (st : Basic.State) code :
  Basic.isCodeInUse (Basic.activeSessions st) code = false ->
  ~ In code (map Basic.roomCode (JsObject.values (Basic.activeSessions st))).
Proof.
  intros H Hin. apply in_map_iff in Hin as (s & Hs & Hin).
  pose proof (some_false_In _ _ _ H Hin) as Hne. simpl in Hne.
  unfold Basic.has_roomCode in Hne.
  rewrite Hs, String.eqb_refl in Hne. discriminate.
Qed.

Lemma Basic_step_wf fuel rnd st i st' out :
  Basic_wf st -> Basic.step fuel rnd st i = Some (st', out) -> Basic_wf st'.
Proof.
  intros [Hk Hc].
  destruct i as [socket quiz info|socket code nx ny|socket|h|ms]; simpl.
  - unfold Basic.request_session.
    destruct (JsObject.get quiz (Basic.activeSessions st)) as [session|] eqn:Hq.
    + intros [= <- <-]. split; simpl; [apply NoDup_keys_set; exact Hk|].
      unfold JsObject.set. rewrite Hq.
      rewrite (image_overwrite Basic.roomCode _ _ _ _ Hq); [exact Hc|reflexivity].
    + destruct (JsObject.inherited quiz); [discriminate|].
      destruct (Basic.generateRoomCode fuel rnd (Basic.activeSessions st) (Basic.draws st)) as [[code d]|] eqn:Hg; [|discriminate].
      intros [= <- <-]. split; simpl; [apply NoDup_keys_set; exact Hk|].
      unfold JsObject.set. rewrite Hq. apply image_create_NoDup; [|exact Hc].
      simpl. apply Basic_not_in_use.
      unfold Basic.generateRoomCode in Hg. apply generate_sound in Hg as [Hfree _].
      exact Hfree.
  - unfold Basic.player_movement.
    destruct (JsObject.find_value _ _) as [session|]; [|intros [= <- <-]; split; assumption].
    destruct (JsObject.get socket (Basic.players session)) as [p|];
      intros [= <- <-]; [|split; assumption].
    split; simpl; [rewrite keys_modify_first|rewrite image_modify_first]; auto.
  - unfold Basic.disconnect.
    destruct (JsObject.find_entry _ _) as [[quiz session]|];
      [|intros [= <- <-]; split; assumption].
    destruct (JsObject.is_empty _); simpl; [destruct (truthy_string quiz)|];
      intros [= <- <-]; split; simpl;
      rewrite ?keys_modify_first, ?image_modify_first; auto.
  - unfold Basic.timer_fires. destruct (Basic.timers st !! h) as [tm|]; [|discriminate].
    destruct (Basic.due tm <=? Basic.now st)%N; [|discriminate].
    intros [= <- <-]. split; simpl;
      [apply NoDup_keys_delete|apply image_delete_NoDup]; assumption.
  - intros [= <- <-]. split; assumption.
Qed.

Lemma Basic_run_wf fuel rnd inputs : forall st st' out,
  Basic_wf st -> Basic.run fuel rnd st inputs = Some (st', out) -> Basic_wf st'.
Proof.
  induction inputs as [|i inputs IH]; intros st st' out Hinv; simpl.
  - intros [= <- <-]. exact Hinv.
  - destruct (Basic.step fuel rnd st i) as [[st1 out1]|] eqn:Hstep; [|discriminate].
    destruct (Basic.run fuel rnd st1 inputs) as [[st2 out2]|] eqn:Hrun; [|discriminate].
    intros [= <- <-]. eapply IH; [|exact Hrun].
    eapply Basic_step_wf; eauto.
Qed.

Lemma Basic_init_wf : Basic_wf Basic.init.
Proof. split; constructor. Qed.

Lemma Scored_not_in_use (st : Scored.State) code :
  Scored.isCodeInUse st code = false ->
  ~ In code (map Scored.roomCode (JsObject.values (Scored.activeSessions st))).
Proof.
  intros H Hin. apply in_map_iff in Hin as (s & Hs & Hin).
  pose proof (some_false_In _ _ _ H Hin) as Hne. simpl in Hne.
  unfold Scored.has_roomCode in Hne.
  rewrite Hs, String.eqb_refl in Hne. discriminate.
Qed.

Lemma Scored_step_wf fuel rnd st i st' out :
  Scored_wf st -> Scored.step fuel rnd st i = Some (st', out) -> Scored_wf st'.
Proof.
  intros [Hk Hc].
  destruct i as [socket quiz info|socket code nx ny|socket code n|socket|h|ms]; simpl.
  - unfold Scored.request_session.
    destruct (JsObject.get quiz (Scored.activeSessions st)) as [session|] eqn:Hq.
    + intros [= <- <-]. split; simpl; [apply NoDup_keys_set; exact Hk|].
      unfold JsObject.set. rewrite Hq.
      rewrite (image_overwrite Scored.roomCode _ _ _ _ Hq); [exact Hc|reflexivity].
    + destruct (JsObject.inherited quiz); [discriminate|].
      destruct (Scored.generateRoomCode fuel rnd st) as [[code d]|] eqn:Hg; [|discriminate].
      intros [= <- <-]. split; simpl; [apply NoDup_keys_set; exact Hk|].
      unfold JsObject.set. rewrite Hq. apply image_create_NoDup; [|exact Hc].
      simpl. apply Scored_not_in_use.
      unfold Scored.generateRoomCode in Hg. apply generate_sound in Hg as [Hfree _].
      exact Hfree.
  - unfold Scored.player_movement.
    destruct (JsObject.find_value _ _) as [session|]; [|intros [= <- <-]; split; assumption].
    destruct (JsObject.get socket (Scored.players session)) as [p|];
      intros [= <- <-]; [|split; assumption].
    split; simpl; [rewrite keys_modify_first|rewrite image_modify_first]; auto.
  - unfold Scored.update_score.
    destruct (JsObject.find_value _ _) as [session|]; [|intros [= <- <-]; split; assumption].
    destruct (JsObject.get socket (Scored.players session)) as [p|];
      intros [= <- <-]; [|split; assumption].
    split; simpl; [rewrite keys_modify_first|rewrite image_modify_first]; auto.
  - unfold Scored.disconnect.
    destruct (JsObject.find_entry _ _) as [[quiz session]|];
      [|intros [= <- <-]; split; assumption].
    destruct (JsObject.is_empty _); simpl; [destruct (truthy_string quiz)|];
      intros [= <- <-]; split; simpl;
      rewrite ?keys_modify_first, ?image_modify_first; auto.
  - unfold Scored.timer_fires. destruct (Scored.timers st !! h) as [tm|]; [|discriminate].
    destruct (Scored.due tm <=? Scored.now st)%N; [|discriminate].
    intros [= <- <-]. split; simpl;
      [apply NoDup_keys_delete|apply image_delete_NoDup]; assumption.
  - intros [= <- <-]. split; assumption.
Qed.

Lemma Scored_run_wf fuel rnd inputs : forall st st' out,
  Scored_wf st -> Scored.run fuel rnd st inputs = Some (st', out) -> Scored_wf st'.
Proof.
  induction inputs as [|i inputs IH]; intros st st' out Hinv; simpl.
  - intros [= <- <-]. exact Hinv.
  - destruct (Scored.step fuel rnd st i) as [[st1 out1]|] eqn:Hstep; [|discriminate].
    destruct (Scored.run fuel rnd st1 inputs) as [[st2 out2]|] eqn:Hrun; [|discriminate].
    intros [= <- <-]. eapply IH; [|exact Hrun].
    eapply Scored_step_wf; eauto.
Qed.

Lemma Scored_init_wf : Scored_wf Scored.init.
Proof. split; constructor. Qed.

Lemma Admin_not_in_use (st : Admin.State) code :
  Admin.isCodeInUse st code = false ->
  ~ In code (map Admin.roomCode (JsObject.values (Admin.activeSessions st))).
Proof.
  intros H Hin. apply in_map_iff in Hin as (s & Hs & Hin).
  pose proof (some_false_In _ _ _ H Hin) as Hne. unfold Admin.has_roomCode in Hne.
  rewrite Hs, String.eqb_refl in Hne. discriminate.
Qed.

Lemma Admin_step_wf fuel rnd st i st' out :
  Admin_wf st -> Admin.step fuel rnd st i = Some (st', out) -> Admin_wf st'.
Proof.
  intros (Hk & Hc & Hq).
  assert (forall p (g : Admin.Session -> Admin.Session),
             (forall s, Admin.roomCode (g s) = Admin.roomCode s) ->
             (forall s, Admin.quizId (g s) = Admin.quizId s) ->
             Admin_wf (Admin.set_activeSessions
                         (JsObject.modify_first p g (Admin.activeSessions st)) st))
    as Hmodify.
  { intros p g Hg1 Hg2. split; [|split]; simpl.
    - rewrite keys_modify_first. exact Hk.
    - rewrite image_modify_first; auto.
    - intros quiz s Hin. apply In_modify_first in Hin as [Hin|(s0 & Hin & ->)]; [auto|].
      apply find_entry_Some in Hin as [_ Hin]. rewrite Hg2. auto. }
  assert (forall k, Admin_wf (Admin.set_activeSessions
                                (JsObject.delete k (Admin.activeSessions st)) st))
    as Hdelete.
  { intros k. split; [|split]; simpl.
    - apply NoDup_keys_delete. exact Hk.
    - apply image_delete_NoDup. exact Hc.
    - intros quiz s Hin. apply In_delete in Hin. auto. }
  destruct i as [socket quiz info token|socket code nx ny|socket code n
                |socket code token|id o|socket|h|ms]; simpl.
  - unfold Admin.request_session.
    destruct (JsObject.get quiz (Admin.activeSessions st)) as [session|] eqn:Hget.
    + intros [= <- <-]. split; [|split]; simpl; [apply NoDup_keys_set; exact Hk| |].
      * unfold JsObject.set. rewrite Hget.
        rewrite (image_overwrite Admin.roomCode _ _ _ _ Hget); [exact Hc|reflexivity].
      * intros q s Hin. apply In_set in Hin as [Heq|Hin]; [|auto].
        injection Heq as -> ->. simpl. apply Hq. apply get_In. exact Hget.
    + destruct (JsObject.inherited quiz); [discriminate|].
      destruct (Admin.generateRoomCode fuel rnd st) as [[code d]|] eqn:Hg; [|discriminate].
      intros [= <- <-]. split; [|split]; simpl; [apply NoDup_keys_set; exact Hk| |].
      * unfold JsObject.set. rewrite Hget. apply image_create_NoDup; [|exact Hc].
        simpl. apply Admin_not_in_use.
        unfold Admin.generateRoomCode in Hg. apply generate_sound in Hg as [Hfree _].
        exact Hfree.
      * intros q s Hin. apply In_set in Hin as [Heq|Hin]; [|auto].
        injection Heq as -> ->. reflexivity.
  - unfold Admin.player_movement.
    destruct (JsObject.find_value _ _) as [session|];
      [|intros [= <- <-]; repeat split; assumption].
    destruct (JsObject.get socket (Admin.players session)) as [p|];
      intros [= <- <-]; [|repeat split; assumption].
    apply Hmodify; reflexivity.
  - unfold Admin.update_score.
    destruct (JsObject.find_value _ _) as [session|];
      [|intros [= <- <-]; repeat split; assumption].
    destruct (JsObject.get socket (Admin.players session)) as [p|];
      intros [= <- <-]; [|repeat split; assumption].
    apply Hmodify; reflexivity.
  - unfold Admin.admin_end_quiz.
    destruct (JsObject.find_value _ _) as [session|];
      [|intros [= <- <-]; repeat split; assumption].
    destruct (opt_string_eqb _ _); intros [= <- <-]; repeat split; assumption.
  - unfold Admin.fetch_settles.
    destruct (Admin.fetches st !! id) as [k|]; [|discriminate].
    destruct o as [|[errorData|]|]; intros [= <- <-];
      [apply (Hdelete (Admin.sessionQuizId k))|..]; repeat split; assumption.
  - unfold Admin.disconnect.
    destruct (JsObject.find_entry _ _) as [[quiz session]|];
      [|intros [= <- <-]; repeat split; assumption].
    destruct (JsObject.is_empty _); simpl; [destruct (truthy_string quiz)|];
      intros [= <- <-];
      match goal with
      | |- Admin_wf ?s =>
          match s with
          | context [JsObject.modify_first ?p ?g _] =>
              apply (Hmodify p g); reflexivity
          end
      end.
  - unfold Admin.timer_fires. destruct (Admin.timers st !! h) as [tm|]; [|discriminate].
    destruct (Admin.due tm <=? Admin.now st)%N; [|discriminate].
    intros [= <- <-]. apply (Hdelete (Admin.quizIdToClean tm)).
  - intros [= <- <-]. repeat split; assumption.
Qed.

Lemma Admin_run_wf fuel rnd inputs : forall st st' out,
  Admin_wf st -> Admin.run fuel rnd st inputs = Some (st', out) -> Admin_wf st'.
Proof.
  induction inputs as [|i inputs IH]; intros st st' out Hinv; simpl.
  - intros [= <- <-]. exact Hinv.
  - destruct (Admin.step fuel rnd st i) as [[st1 out1]|] eqn:Hstep; [|discriminate].
    destruct (Admin.run fuel rnd st1 inputs) as [[st2 out2]|] eqn:Hrun; [|discriminate].
    intros [= <- <-]. eapply IH; [|exact Hrun].
    eapply Admin_step_wf; eauto.
Qed.

Lemma Admin_init_wf : Admin_wf Admin.init.
Proof. split; [constructor|split; [constructor|intros q s []]]. Qed.

(** ** A registry holds a session under the key the session records *)

Lemma TwoIndex_keyed_rule (st st' : TwoIndex.State) :
  TwoIndex_keyed st ->
  (forall b s, TwoIndex.store st !! b = Some s ->
     exists s', TwoIndex.store st' !! b = Some s' /\
                TwoIndex.quizId s' = TwoIndex.quizId s /\
                TwoIndex.roomCode s' = TwoIndex.roomCode s) ->
  (forall b, is_Some (TwoIndex.store st' !! b) -> b < TwoIndex.next_session st') ->
  (forall q a, In (q, a) (TwoIndex.activeSessionsByQuizId st') ->
     In (q, a) (TwoIndex.activeSessionsByQuizId st) \/
     exists s, TwoIndex.store st' !! a = Some s /\ TwoIndex.quizId s = q) ->
  (forall c a, In (c, a) (TwoIndex.activeSessionsByRoomCode st') ->
     In (c, a) (TwoIndex.activeSessionsByRoomCode st) \/
     exists s, TwoIndex.store st' !! a = Some s /\ TwoIndex.roomCode s = c) ->
  (forall h tm, TwoIndex.timers st' !! h = Some tm ->
     TwoIndex.timers st !! h = Some tm \/
     is_Some (TwoIndex.store st' !! TwoIndex.session tm)) ->
  NoDup (JsObject.keys (TwoIndex.activeSessionsByQuizId st')) ->
  NoDup (JsObject.keys (TwoIndex.activeSessionsByRoomCode st')) ->
  TwoIndex_keyed st'.
Proof.
  intros (Hq & Hc & Ht & Hn & Hkq & Hkc) Hkeep Hnext Hq' Hc' Ht' Hkq' Hkc'.
  split; [|split; [|split; [|split; [|split]]]]; try assumption.
  - intros q a Hin. destruct (Hq' q a Hin) as [Hold|Hnew]; [|exact Hnew].
    destruct (Hq q a Hold) as (s & Hs & <-).
    destruct (Hkeep a s Hs) as (s' & Hs' & Hquiz & _). eauto.
  - intros c a Hin. destruct (Hc' c a Hin) as [Hold|Hnew]; [|exact Hnew].
    destruct (Hc c a Hold) as (s & Hs & <-).
    destruct (Hkeep a s Hs) as (s' & Hs' & _ & Hcode). eauto.
  - intros h tm Hin. destruct (Ht' h tm Hin) as [Hold|Hnew]; [|exact Hnew].
    destruct (Ht h tm Hold) as [s Hs].
    destruct (Hkeep _ s Hs) as (s' & Hs' & _). eauto.
Qed.

(** Writing a session that keeps its keys over the one at its address. *)
Lemma TwoIndex_store_write (m : gmap nat TwoIndex.Session) a s s' :
  m !! a = Some s ->
  TwoIndex.quizId s' = TwoIndex.quizId s ->
  TwoIndex.roomCode s' = TwoIndex.roomCode s ->
  forall b s0, m !! b = Some s0 ->
    exists s1, <[a := s']> m !! b = Some s1 /\
               TwoIndex.quizId s1 = TwoIndex.quizId s0 /\
               TwoIndex.roomCode s1 = TwoIndex.roomCode s0.
Proof.
  intros Ha Hquiz Hcode b s0 Hb. destruct (decide (a = b)) as [<-|Hne].
  - rewrite lookup_insert_eq. exists s'. rewrite Ha in Hb. injection Hb as <-. auto.
  - rewrite lookup_insert_ne by exact Hne. eauto.
Qed.

Lemma TwoIndex_step_keyed fuel rnd st i st' out :
  TwoIndex_keyed st -> TwoIndex.step fuel rnd st i = Some (st', out) ->
  TwoIndex_keyed st'.
Proof.
  intros Hinv. pose proof Hinv as (Hq & Hc & Ht & Hn & Hkq & Hkc).
  assert (forall a s s',
             TwoIndex.store st !! a = Some s ->
             TwoIndex.quizId s' = TwoIndex.quizId s ->
             TwoIndex.roomCode s' = TwoIndex.roomCode s ->
             TwoIndex_keyed (TwoIndex.set_store (<[a := s']> (TwoIndex.store st)) st))
    as Hwrite.
  { intros a s s' Hs Hquiz Hcode.
    apply (TwoIndex_keyed_rule st); auto; simpl.
    - eapply TwoIndex_store_write; eauto.
    - intros b Hb. apply Hn. eapply is_Some_insert_allocated; eauto. }
  destruct i as [socket quiz|socket code info|socket code nx ny|socket|h|ms]; simpl.
  - unfold TwoIndex.request_session.
    destruct (JsObject.get quiz (TwoIndex.activeSessionsByQuizId st)) as [a|] eqn:Hget.
    + destruct (TwoIndex.store st !! a) as [s|] eqn:Hs; [|discriminate].
      destruct (TwoIndex.cleanupTimeout s) as [h|]; intros [= <- <-]; [|exact Hinv].
      apply (TwoIndex_keyed_rule st); auto; simpl.
      * eapply TwoIndex_store_write; eauto.
      * intros b Hb. apply Hn. eapply is_Some_insert_allocated; eauto.
      * intros h' tm Hh'. apply lookup_delete_Some in Hh'. tauto.
    + destruct (JsObject.inherited quiz); [intros [= <- <-]; exact Hinv|].
      destruct (TwoIndex.generateRoomCode fuel rnd st) as [[code d]|]; [|discriminate].
      cbn [TwoIndex.store]. rewrite lookup_insert_eq. cbn [TwoIndex.cleanupTimeout].
      intros [= <- <-].
      apply (TwoIndex_keyed_rule st); auto; simpl.
      * intros b s Hb. exists s. split; [|auto].
        rewrite lookup_insert_ne; [exact Hb|].
        assert (b < TwoIndex.next_session st) by (apply Hn; eauto). lia.
      * intros b Hb. apply lookup_insert_is_Some in Hb as [<-|[_ Hb]]; [lia|].
        apply Hn in Hb. lia.
      * intros q a Hin. apply In_set in Hin as [Heq|Hin]; [right|tauto].
        injection Heq as -> ->. rewrite lookup_insert_eq. eauto.
      * intros c a Hin. apply In_set in Hin as [Heq|Hin]; [right|tauto].
        injection Heq as -> ->. rewrite lookup_insert_eq. eauto.
      * apply NoDup_keys_set. exact Hkq.
      * apply NoDup_keys_set. exact Hkc.
  - unfold TwoIndex.join_game.
    destruct (JsObject.get code (TwoIndex.activeSessionsByRoomCode st)) as [a|];
      [|destruct (JsObject.inherited code); [discriminate|]; intros [= <- <-]; exact Hinv].
    destruct (TwoIndex.store st !! a) as [s|] eqn:Hs; intros [= <- <-]; [|exact Hinv].
    eapply Hwrite; eauto.
  - unfold TwoIndex.player_movement.
    destruct (JsObject.get code (TwoIndex.activeSessionsByRoomCode st)) as [a|];
      [|destruct (JsObject.inherited code); [discriminate|]; intros [= <- <-]; exact Hinv].
    destruct (TwoIndex.store st !! a) as [s|] eqn:Hs; [|intros [= <- <-]; exact Hinv].
    destruct (JsObject.get socket (TwoIndex.players s)) as [p|];
      intros [= <- <-]; [|exact Hinv].
    eapply Hwrite; eauto.
  - unfold TwoIndex.disconnect.
    destruct (JsObject.find_entry _ _) as [[code a]|]; [|intros [= <- <-]; exact Hinv].
    destruct (TwoIndex.store st !! a) as [s|] eqn:Hs; [|intros [= <- <-]; exact Hinv].
    destruct (JsObject.is_empty _); intros [= <- <-]; [|eapply Hwrite; eauto].
    apply (TwoIndex_keyed_rule st); auto; simpl.
    + eapply TwoIndex_store_write; eauto.
    + intros b Hb. apply Hn. eapply is_Some_insert_allocated; eauto.
    + intros h tm Hh. apply lookup_insert_Some in Hh as [[_ <-]|[_ Hh]]; [right|tauto].
      simpl. rewrite lookup_insert_eq. eauto.
  - unfold TwoIndex.timer_fires.
    destruct (TwoIndex.timers st !! h) as [tm|]; [|discriminate].
    destruct (TwoIndex.due tm <=? TwoIndex.now st)%N; [|discriminate].
    destruct (TwoIndex.store st !! TwoIndex.session tm) as [s|]; [|discriminate].
    intros [= <- <-].
    apply (TwoIndex_keyed_rule st); auto; simpl.
    + eauto.
    + intros q a Hin. apply In_delete in Hin. tauto.
    + intros c a Hin. apply In_delete in Hin. tauto.
    + intros h' tm' Hh'. apply lookup_delete_Some in Hh'. tauto.
    + apply NoDup_keys_delete. exact Hkq.
    + apply NoDup_keys_delete. exact Hkc.
  - intros [= <- <-]. exact Hinv.
Qed.

Lemma TwoIndex_init_keyed : TwoIndex_keyed TwoIndex.init.
Proof.
  split; [|split; [|split; [|split; [|split]]]]; simpl; try constructor.
  - intros q a [].
  - intros c a [].
  - intros h tm H. rewrite lookup_empty in H. discriminate.
  - intros a [s H]. rewrite lookup_empty in H. discriminate.
Qed.

Lemma TwoIndex_run_keyed fuel rnd inputs : forall st st' out,
  TwoIndex_keyed st -> TwoIndex.run fuel rnd st inputs = Some (st', out) ->
  TwoIndex_keyed st'.
Proof.
  induction inputs as [|i inputs IH]; intros st st' out Hinv; simpl.
  - intros [= <- <-]. exact Hinv.
  - destruct (TwoIndex.step fuel rnd st i) as [[st1 out1]|] eqn:Hstep; [|discriminate].
    destruct (TwoIndex.run fuel rnd st1 inputs) as [[st2 out2]|] eqn:Hrun; [|discriminate].
    intros [= <- <-]. eapply IH; [|exact Hrun].
    eapply TwoIndex_step_keyed; eauto.
Qed.

(** The same exclusion in server.ts. *)
Lemma Basic_has_player_nonempty socket session :
  Basic.has_player socket session = true -> Basic.players session <> [].
Proof.
  unfold Basic.has_player. destruct (Basic.players session); [discriminate|congruence].
Qed.

Lemma Basic_find_value_In (st : Basic.State) p session :
  JsObject.find_value p (Basic.activeSessions st) = Some session ->
  exists quiz,
    JsObject.find_entry p (Basic.activeSessions st) = Some (quiz, session) /\
    In (quiz, session) (Basic.activeSessions st).
Proof.
  rewrite find_entry_find_value.
  destruct (JsObject.find_entry p (Basic.activeSessions st)) as [[quiz s]|] eqn:E;
    [|discriminate].
  intros [= ->]. exists quiz. split; [reflexivity|].
  apply find_entry_Some in E. tauto.
Qed.

Lemma Basic_step_exclusive fuel rnd st i st' out :
  Basic_exclusive st -> Basic.step fuel rnd st i = Some (st', out) ->
  Basic_exclusive st'.
Proof.
  intros Hinv.
  destruct i as [socket quiz info|socket code nx ny|socket|h|ms]; simpl.
  - unfold Basic.request_session.
    destruct (JsObject.get quiz (Basic.activeSessions st)) as [session|] eqn:Hq;
      [|destruct (JsObject.inherited quiz); [discriminate|];
        destruct (Basic.generateRoomCode fuel rnd (Basic.activeSessions st) (Basic.draws st)) as [[code d]|]; [|discriminate]];
      intros [= <- <-]; intros q s Hin Hh; simpl in Hin;
      apply In_set in Hin as [Heq|Hin]; eauto;
      injection Heq as -> ->; simpl in Hh; congruence.
  - unfold Basic.player_movement.
    destruct (JsObject.find_value _ _) as [session|] eqn:Hf; [|intros [= <- <-]; exact Hinv].
    destruct (JsObject.get socket (Basic.players session)) as [p|] eqn:Hp;
      intros [= <- <-]; [|exact Hinv].
    destruct (Basic_find_value_In _ _ _ Hf) as (quiz & Hfind & Hin0).
    intros q s Hin Hh. simpl in Hin.
    apply In_modify_first in Hin as [Hin|(s0 & Hin & ->)]; [eauto|].
    rewrite Hfind in Hin. injection Hin as <- <-. simpl in Hh.
    rewrite (Hinv _ _ Hin0 Hh) in Hp. discriminate.
  - unfold Basic.disconnect.
    destruct (JsObject.find_entry _ _) as [[quiz session]|] eqn:Hfind;
      [|intros [= <- <-]; exact Hinv].
    pose proof (find_entry_Some _ _ _ _ Hfind) as [Hhas Hin0].
    destruct (JsObject.is_empty _) eqn:Hempty; simpl.
    + destruct (truthy_string quiz); intros [= <- <-]; intros q s Hin Hh; simpl in Hin;
        apply In_modify_first in Hin as [Hin|(s0 & Hin & ->)]; eauto;
        simpl; apply is_empty_nil; exact Hempty.
    + intros [= <- <-]. intros q s Hin Hh. simpl in Hin.
      apply In_modify_first in Hin as [Hin|(s0 & Hin & ->)]; [eauto|].
      rewrite Hfind in Hin. injection Hin as <- <-. simpl in Hh.
      exfalso. apply (Basic_has_player_nonempty _ _ Hhas). eauto.
  - unfold Basic.timer_fires. destruct (Basic.timers st !! h) as [tm|]; [|discriminate].
    destruct (Basic.due tm <=? Basic.now st)%N; [|discriminate].
    intros [= <- <-]. intros q s Hin Hh. simpl in Hin. apply In_delete in Hin. eauto.
  - intros [= <- <-]. exact Hinv.
Qed.

Lemma Basic_run_exclusive fuel rnd inputs : forall st st' out,
  Basic_exclusive st -> Basic.run fuel rnd st inputs = Some (st', out) ->
  Basic_exclusive st'.
Proof.
  induction inputs as [|i inputs IH]; intros st st' out Hinv; simpl.
  - intros [= <- <-]. exact Hinv.
  - destruct (Basic.step fuel rnd st i) as [[st1 out1]|] eqn:Hstep; [|discriminate].
    destruct (Basic.run fuel rnd st1 inputs) as [[st2 out2]|] eqn:Hrun; [|discriminate].
    intros [= <- <-]. eapply IH; [|exact Hrun].
    eapply Basic_step_exclusive; eauto.
Qed.

Lemma Basic_init_exclusive : Basic_exclusive Basic.init.
Proof. intros q s []. Qed.

(** ** Where the code departs from the specification *)

(** C1.  A session without an admin token, because the token was never set
    or because it was cleared when the admin disconnected, accepts an
    [admin_end_quiz] that carries no token: [undefined === undefined]
    holds, so the handler posts the leaderboard to the results sink instead
    of answering [error_ending_quiz], and when the sink answers ok the
    session is destroyed. *)
Theorem C1_absent_token_passes_authorization :
  option_map (fun r => option_map Admin.adminToken (Admin.byRoomCode "AAAAAA" (fst r)))
    (Admin.run 1 by_attempt Admin.init never_bound) = Some (Some None) /\
  option_map (fun r => sink_calls (snd r))
    (Admin.run 1 by_attempt Admin.init
       (never_bound ++ [ Admin.AdminEndQuiz "s9" "AAAAAA" None ])%list) =
    Some [ Admin.Fetch 0 None "quiz42" [ Admin.joined admin_bob ] ] /\
  option_map (fun r => option_map Admin.adminToken (Admin.byRoomCode "AAAAAA" (fst r)))
    (Admin.run 1 by_attempt Admin.init cleared_on_disconnect) = Some (Some None) /\
  option_map (fun r => sink_calls (snd r))
    (Admin.run 1 by_attempt Admin.init
       (cleared_on_disconnect ++ [ Admin.AdminEndQuiz "s9" "AAAAAA" None ])%list) =
    Some [ Admin.Fetch 0 None "quiz42" [ Admin.joined admin_bob ] ] /\
  option_map (fun r => (Admin.byQuizId "quiz42" (fst r), List.last (snd r) (Admin.unauthorized "s9")))
    (Admin.run 1 by_attempt Admin.init
       (cleared_on_disconnect ++
        [ Admin.AdminEndQuiz "s9" "AAAAAA" None;
          Admin.FetchSettles 0 Admin.ResponseOk ])%list) =
    Some (None,
          Admin.Emit (ToRoom "AAAAAA")
            (Admin.quiz_ended "Quiz has been ended by the admin.")).
Proof.
  split; [|split; [|split; [|split]]]; vm_compute; reflexivity.
Qed.

(** What holds of the authorization test: a request for a room code that
    resolves to no session, or whose token differs from the admin token of
    the session (both read as a string or [undefined]), is answered with
    [error_ending_quiz] to the caller alone and changes nothing. *)
Lemma Admin_finalize_unauthorized (st : Admin.State) (socket code : string) token :
  (Admin.byRoomCode code st = None \/
   exists session,
     Admin.byRoomCode code st = Some session /\ Admin.adminToken session <> token) ->
  Admin.admin_end_quiz socket code token st =
    (st, [ Admin.Emit (ToSocket socket)
             (Admin.error_ending_quiz "Unauthorized or invalid session." None) ]).
Proof.
  unfold Admin.admin_end_quiz, Admin.byRoomCode.
  intros [-> | (session & -> & Hne)]; [reflexivity|].
  destruct (opt_string_eqb (Admin.adminToken session) token) eqn:E; [|reflexivity].
  exfalso. apply Hne. unfold opt_string_eqb in E.
  destruct (Admin.adminToken session), token; try discriminate; [|reflexivity].
  apply String.eqb_eq in E. congruence.
Qed.

(** An authorized request suspends on the sink with the registry as it
    was: the leaderboard posted is the roster at that moment. *)
Lemma Admin_finalize_authorized (st : Admin.State) (socket code : string) token session :
  Admin.byRoomCode code st = Some session ->
  Admin.adminToken session = token ->
  exists st',
    Admin.admin_end_quiz socket code token st =
      (st', [ Admin.Fetch (Admin.next_fetch st) token (Admin.quizId session)
                (JsObject.values (Admin.players session)) ]) /\
    Admin.activeSessions st' = Admin.activeSessions st /\
    Admin.timers st' = Admin.timers st /\
    Admin.fetches st' !! Admin.next_fetch st =
      Some {| Admin.caller := socket; Admin.room := code;
              Admin.sessionQuizId := Admin.quizId session |}.
Proof.
  unfold Admin.admin_end_quiz, Admin.byRoomCode. intros -> <-.
  assert (opt_string_eqb (Admin.adminToken session) (Admin.adminToken session) = true)
    as ->.
  { unfold opt_string_eqb. destruct (Admin.adminToken session); [|reflexivity].
    apply String.eqb_refl. }
  eexists. split; [reflexivity|]. simpl. do 2 (split; [reflexivity|]).
  apply lookup_insert_eq.
Qed.

(** C4.  When the sink answers ok the handler emits [quiz_ended] and
    deletes the session, but it clears no timer: a cleanup timer armed
    while the results were being posted stays pending after the session is
    destroyed, and when it fires it deletes the session that was created
    for the same quiz in the meantime, with bob in it. *)
Theorem C4_finalize_leaves_timer_pending :
  option_map (fun r => (Admin.byQuizId "quiz42" (fst r), Admin.timers (fst r) !! 0))
    (Admin.run 1 by_attempt Admin.init finalize_while_leaving) =
    Some (None, Some {| Admin.due := 60000%N; Admin.quizIdToClean := "quiz42" |}) /\
  option_map (fun r => option_map Admin.players (Admin.byQuizId "quiz42" (fst r)))
    (Admin.run 1 by_attempt Admin.init (finalize_while_leaving ++ bob_arrives)%list) =
    Some (Some [("s2", Admin.joined admin_bob)]) /\
  option_map (fun r => (Admin.byQuizId "quiz42" (fst r), Admin.byRoomCode "BBBBBB" (fst r)))
    (Admin.run 1 by_attempt Admin.init
       (finalize_while_leaving ++ bob_arrives ++ [ Admin.TimerFires 0 ])%list) =
    Some (None, None).
Proof.
  split; [|split]; vm_compute; reflexivity.
Qed.

(** What holds of the finalization once it is authorized: on an ok answer
    one [quiz_ended] goes to the room and the quiz id resolves to no
    session; on any other answer one [error_ending_quiz] goes to the caller
    and the registry is untouched.  The timers are the same in every
    case. *)
Lemma Admin_fetch_settles_spec (st : Admin.State) id k o :
  Admin.fetches st !! id = Some k ->
  exists st' out,
    Admin.fetch_settles id o st = Some (st', out) /\
    Admin.timers st' = Admin.timers st /\
    match o with
    | Admin.ResponseOk =>
        out = [ Admin.Emit (ToRoom (Admin.room k))
                  (Admin.quiz_ended "Quiz has been ended by the admin.") ] /\
        Admin.byQuizId (Admin.sessionQuizId k) st' = None /\
        (forall q, q <> Admin.sessionQuizId k -> Admin.byQuizId q st' = Admin.byQuizId q st)
    | _ =>
        (exists message details,
            out = [ Admin.Emit (ToSocket (Admin.caller k))
                      (Admin.error_ending_quiz message details) ]) /\
        Admin.activeSessions st' = Admin.activeSessions st
    end.
Proof.
  intros Hk. unfold Admin.fetch_settles. rewrite Hk.
  destruct o as [|[errorData|]|]; eexists _, _; (split; [reflexivity|]);
    (split; [reflexivity|]); simpl.
  - split; [reflexivity|]. split; [apply get_delete_eq|].
    intros q Hq. apply get_delete_ne. congruence.
  - split; [eauto|reflexivity].
  - split; [eauto|reflexivity].
  - split; [eauto|reflexivity].
Qed.

(** C5.  In the revision with scores the handler of [disconnect] arms the
    timer under [if (quizIdToClean)], and the empty string is falsy: when
    the last participant leaves the session of the quiz whose id is the
    empty string, no timer is armed and the empty session stays in the
    registry; for the quiz id "quiz42" the same inputs arm a timer due
    60000 ms later. *)
Theorem C5_empty_quiz_id_never_evicted :
  option_map (fun r => (Scored.byQuizId "" (fst r), Scored.timers (fst r)))
    (Scored.run 1 by_attempt Scored.init empty_quiz_id) =
    Some (Some {| Scored.roomCode := "AAAAAA"; Scored.players := [];
                  Scored.cleanupTimeout := None |}, ∅) /\
  option_map (fun r => (Scored.byQuizId "quiz42" (fst r), Scored.timers (fst r) !! 0))
    (Scored.run 1 by_attempt Scored.init plain_quiz_id) =
    Some (Some {| Scored.roomCode := "AAAAAA"; Scored.players := [];
                  Scored.cleanupTimeout := Some 0 |},
          Some {| Scored.due := 60000%N; Scored.quizIdToClean := "quiz42" |}).
Proof.
  split; vm_compute; reflexivity.
Qed.

(** [join_game] writes the participant and nothing else: the timer handle
    of the session and the pending timers are as they were. *)
Lemma TwoIndex_join_game_keeps_timer (st : TwoIndex.State) (socket code : string)
    playerInfo a s :
  JsObject.get code (TwoIndex.activeSessionsByRoomCode st) = Some a ->
  TwoIndex.store st !! a = Some s ->
  exists st' out,
    TwoIndex.join_game socket code playerInfo st = Some (st', out) /\
    TwoIndex.timers st' = TwoIndex.timers st /\
    TwoIndex.store st' !! a =
      Some {| TwoIndex.roomCode := TwoIndex.roomCode s;
              TwoIndex.players := JsObject.set socket playerInfo (TwoIndex.players s);
              TwoIndex.quizId := TwoIndex.quizId s;
              TwoIndex.cleanupTimeout := TwoIndex.cleanupTimeout s |}.
Proof.
  intros Ha Hs. unfold TwoIndex.join_game. rewrite Ha, Hs.
  eexists _, _. split; [reflexivity|]. simpl. split; [reflexivity|].
  apply lookup_insert_eq.
Qed.

(** C2.  In the revision with two registries [join_game] adds the
    participant without clearing the cleanup timer, and a [request_session]
    that came before the room emptied had no timer to clear: after bob
    joins the emptied room the session holds a participant and a pending
    timer at once, and when the timer fires the session leaves both
    registries with bob still in it. *)
Theorem C2_join_game_keeps_timer_armed :
  option_map (fun r => (TwoIndex.byRoomCode "AAAAAA" (fst r), TwoIndex.timers (fst r) !! 0))
    (TwoIndex.run 1 by_attempt TwoIndex.init join_after_leave) =
    Some (Some {| TwoIndex.roomCode := "AAAAAA";
                  TwoIndex.players := [("s2", two_bob)];
                  TwoIndex.quizId := "quiz42";
                  TwoIndex.cleanupTimeout := Some 0 |},
          Some {| TwoIndex.due := 60000%N; TwoIndex.session := 0 |}) /\
  option_map
    (fun r => (TwoIndex.byQuizId "quiz42" (fst r), TwoIndex.byRoomCode "AAAAAA" (fst r),
               option_map TwoIndex.players (TwoIndex.store (fst r) !! 0)))
    (TwoIndex.run 1 by_attempt TwoIndex.init
       (join_after_leave ++ [ TwoIndex.Elapse 59000; TwoIndex.TimerFires 0 ])%list) =
    Some (None, None, Some [("s2", two_bob)]).
Proof.
  split; vm_compute; reflexivity.
Qed.

(** C3.  In the revision with two registries a session can arm two timers
    (the first is still pending when the participant who joined the emptied
    room leaves again).  The second fires after the session was destroyed and a
    new one was created for the same quiz: its callback deletes the quiz id
    of the old session, which now names the new session, and the room code
    of the old session, which names nothing.  The new session stays in the
    registry by room code and is in the registry by quiz id no more. *)
Theorem C3_second_timer_splits_registries :
  option_map
    (fun r => (TwoIndex.activeSessionsByQuizId (fst r),
               TwoIndex.activeSessionsByRoomCode (fst r),
               TwoIndex.byRoomCode "BBBBBB" (fst r)))
    (TwoIndex.run 1 by_attempt TwoIndex.init (join_after_leave ++ second_timer)%list) =
    Some ([], [("BBBBBB", 1)],
          Some {| TwoIndex.roomCode := "BBBBBB";
                  TwoIndex.players := [("s3", two_ann)];
                  TwoIndex.quizId := "quiz42";
                  TwoIndex.cleanupTimeout := None |}).
Proof.
  vm_compute. reflexivity.
Qed.

(** ** Further properties of the handlers *)

Lemma basic_rooms_run :
  option_map fst (Basic.run 1 by_attempt Basic.init basic_rooms_inputs) = Some basic_rooms.
Proof. reflexivity. Qed.

Lemma scored_room_run :
  option_map fst (Scored.run 1 by_attempt Scored.init scored_room_inputs) = Some scored_room.
Proof. reflexivity. Qed.

Lemma admin_room_run :
  option_map fst (Admin.run 1 by_attempt Admin.init admin_room_inputs) = Some admin_room.
Proof. reflexivity. Qed.

Lemma two_room_run :
  option_map fst (TwoIndex.run 1 by_attempt TwoIndex.init two_room_inputs) = Some two_room.
Proof. reflexivity. Qed.

Lemma find_value_exists {V : Type} (o : jsobj V) (p : V -> bool) v :
  In v (JsObject.values o) -> p v = true -> exists v', JsObject.find_value p o = Some v'.
Proof.
  intros Hin Hp. unfold JsObject.find_value.
  destruct (List.find p (JsObject.values o)) as [v'|] eqn:E; [eauto|].
  pose proof (List.find_none _ _ E v Hin). congruence.
Qed.

(** With images of their own, a search by image finds the very value. *)
Lemma find_value_by_image {V : Type} (f : V -> string) (o : jsobj V) k v :
  NoDup (map f (JsObject.values o)) -> In (k, v) o ->
  JsObject.find_value (fun s => String.eqb (f s) (f v)) o = Some v.
Proof.
  intros Hnd Hin.
  assert (In v (JsObject.values o)) as Hv by (apply (in_map snd) in Hin; exact Hin).
  destruct (find_value_exists o (fun s => String.eqb (f s) (f v)) v Hv
              (String.eqb_refl _)) as [v' Hfind].
  rewrite Hfind. f_equal.
  apply find_value_Some_holds in Hfind as [Heq Hin'].
  apply String.eqb_eq in Heq.
  apply in_map_iff in Hin' as ([k' v''] & Hsnd & Hin'). simpl in Hsnd. subst v''.
  pose proof (image_NoDup_inj f o k' v' k v Hnd Hin' Hin Heq) as E. congruence.
Qed.

(** X1.  In the revisions with one registry, in every state of every run of
    the server: the room code of a registered session resolves, by the
    search the handlers use, to that very session, and two quiz ids never
    share a room code. *)
Theorem room_code_resolves_to_its_session :
  (forall fuel rnd inputs st out quiz session,
      Basic.run fuel rnd Basic.init inputs = Some (st, out) ->
      Basic.byQuizId quiz st = Some session ->
      Basic.byRoomCode (Basic.roomCode session) st = Some session /\
      (forall quiz' session',
          Basic.byQuizId quiz' st = Some session' ->
          Basic.roomCode session' = Basic.roomCode session -> quiz' = quiz)) /\
  (forall fuel rnd inputs st out quiz session,
      Scored.run fuel rnd Scored.init inputs = Some (st, out) ->
      Scored.byQuizId quiz st = Some session ->
      Scored.byRoomCode (Scored.roomCode session) st = Some session /\
      (forall quiz' session',
          Scored.byQuizId quiz' st = Some session' ->
          Scored.roomCode session' = Scored.roomCode session -> quiz' = quiz)) /\
  (forall fuel rnd inputs st out quiz session,
      Admin.run fuel rnd Admin.init inputs = Some (st, out) ->
      Admin.byQuizId quiz st = Some session ->
      Admin.byRoomCode (Admin.roomCode session) st = Some session /\
      (forall quiz' session',
          Admin.byQuizId quiz' st = Some session' ->
          Admin.roomCode session' = Admin.roomCode session -> quiz' = quiz)).
Proof.
  split; [|split].
  - intros fuel rnd inputs st out quiz session Hrun Hs.
    destruct (Basic_run_wf _ _ _ _ _ _ Basic_init_wf Hrun) as [_ Hc].
    apply get_In in Hs. split.
    + apply (find_value_by_image Basic.roomCode _ _ _ Hc Hs).
    + intros quiz' session' Hs' Heq. apply get_In in Hs'.
      pose proof (image_NoDup_inj Basic.roomCode _ _ _ _ _ Hc Hs' Hs Heq). congruence.
  - intros fuel rnd inputs st out quiz session Hrun Hs.
    destruct (Scored_run_wf _ _ _ _ _ _ Scored_init_wf Hrun) as [_ Hc].
    apply get_In in Hs. split.
    + apply (find_value_by_image Scored.roomCode _ _ _ Hc Hs).
    + intros quiz' session' Hs' Heq. apply get_In in Hs'.
      pose proof (image_NoDup_inj Scored.roomCode _ _ _ _ _ Hc Hs' Hs Heq). congruence.
  - intros fuel rnd inputs st out quiz session Hrun Hs.
    destruct (Admin_run_wf _ _ _ _ _ _ Admin_init_wf Hrun) as (_ & Hc & _).
    apply get_In in Hs. split.
    + apply (find_value_by_image Admin.roomCode _ _ _ Hc Hs).
    + intros quiz' session' Hs' Heq. apply get_In in Hs'.
      pose proof (image_NoDup_inj Admin.roomCode _ _ _ _ _ Hc Hs' Hs Heq). congruence.
Qed.

Lemma room_code_resolves_witness :
  (exists session,
      Basic.byQuizId "quiz7" basic_rooms = Some session /\
      Basic.byRoomCode (Basic.roomCode session) basic_rooms = Some session) /\
  (exists session,
      Scored.byQuizId "quiz42" scored_room = Some session /\
      Scored.byRoomCode (Scored.roomCode session) scored_room = Some session) /\
  (exists session,
      Admin.byQuizId "quiz42" admin_room = Some session /\
      Admin.byRoomCode (Admin.roomCode session) admin_room = Some session).
Proof.
  destruct room_code_resolves_to_its_session as (HB & HS & HA).
  split; [|split].
  - pose proof basic_rooms_run as Hst.
    destruct (Basic.run 1 by_attempt Basic.init basic_rooms_inputs) as [[st out]|] eqn:Hrun;
      [|discriminate Hst].
    simpl in Hst. injection Hst as ->.
    eexists. split; [reflexivity|].
    apply (HB _ _ _ _ _ "quiz7" _ Hrun eq_refl).
  - pose proof scored_room_run as Hst.
    destruct (Scored.run 1 by_attempt Scored.init scored_room_inputs) as [[st out]|] eqn:Hrun;
      [|discriminate Hst].
    simpl in Hst. injection Hst as ->.
    eexists. split; [reflexivity|].
    apply (HS _ _ _ _ _ "quiz42" _ Hrun eq_refl).
  - pose proof admin_room_run as Hst.
    destruct (Admin.run 1 by_attempt Admin.init admin_room_inputs) as [[st out]|] eqn:Hrun;
      [|discriminate Hst].
    simpl in Hst. injection Hst as ->.
    eexists. split; [reflexivity|].
    apply (HA _ _ _ _ _ "quiz42" _ Hrun eq_refl).
Defined.

(** X2.  In the revision with two registries, in every state of every run:
    a key of the registry by room code resolves to a session that records
    that room code, and a key of the registry by quiz id to a session that
    records that quiz id. *)
Theorem registry_key_is_recorded_by_its_session :
  forall fuel rnd inputs st out,
    TwoIndex.run fuel rnd TwoIndex.init inputs = Some (st, out) ->
    (forall code a,
        JsObject.get code (TwoIndex.activeSessionsByRoomCode st) = Some a ->
        exists s, TwoIndex.byRoomCode code st = Some s /\ TwoIndex.roomCode s = code) /\
    (forall quiz a,
        JsObject.get quiz (TwoIndex.activeSessionsByQuizId st) = Some a ->
        exists s, TwoIndex.byQuizId quiz st = Some s /\ TwoIndex.quizId s = quiz).
Proof.
  intros fuel rnd inputs st out Hrun.
  destruct (TwoIndex_run_keyed _ _ _ _ _ _ TwoIndex_init_keyed Hrun) as (Hq & Hc & _).
  split.
  - intros code a Hget. unfold TwoIndex.byRoomCode. rewrite Hget.
    apply get_In in Hget. exact (Hc code a Hget).
  - intros quiz a Hget. unfold TwoIndex.byQuizId. rewrite Hget.
    apply get_In in Hget. exact (Hq quiz a Hget).
Qed.

Lemma registry_key_witness :
  (exists s, TwoIndex.byRoomCode "AAAAAA" two_room = Some s /\
             TwoIndex.roomCode s = "AAAAAA") /\
  (exists s, TwoIndex.byQuizId "quiz42" two_room = Some s /\
             TwoIndex.quizId s = "quiz42").
Proof.
  pose proof two_room_run as Hst.
  destruct (TwoIndex.run 1 by_attempt TwoIndex.init two_room_inputs) as [[st out]|] eqn:Hrun;
    [|discriminate Hst].
  simpl in Hst. injection Hst as ->.
  destruct (registry_key_is_recorded_by_its_session _ _ _ _ _ Hrun) as [Hc Hq].
  split; [apply (Hc "AAAAAA" 0 eq_refl)|apply (Hq "quiz42" 0 eq_refl)].
Defined.

(** X3.  In the revisions with one registry, in every state of every run: a
    session that holds a participant holds no timer handle.  The handlers
    that add a participant clear the handle, and the handler that sets it
    has just removed the last participant. *)
Theorem occupied_session_has_no_timer_handle :
  (forall fuel rnd inputs st out quiz session socket p,
      Basic.run fuel rnd Basic.init inputs = Some (st, out) ->
      Basic.byQuizId quiz st = Some session ->
      JsObject.get socket (Basic.players session) = Some p ->
      Basic.cleanupTimeout session = None) /\
  (forall fuel rnd inputs st out quiz session socket p,
      Scored.run fuel rnd Scored.init inputs = Some (st, out) ->
      Scored.byQuizId quiz st = Some session ->
      JsObject.get socket (Scored.players session) = Some p ->
      Scored.cleanupTimeout session = None) /\
  (forall fuel rnd inputs st out quiz session socket p,
      Admin.run fuel rnd Admin.init inputs = Some (st, out) ->
      Admin.byQuizId quiz st = Some session ->
      JsObject.get socket (Admin.players session) = Some p ->
      Admin.cleanupTimeout session = None).
Proof.
  split; [|split].
  - intros fuel rnd inputs st out quiz session socket p Hrun Hs Hp.
    pose proof (Basic_run_exclusive _ _ _ _ _ _ Basic_init_exclusive Hrun) as Hinv.
    apply get_In in Hs.
    destruct (Basic.cleanupTimeout session) as [h|] eqn:Hh; [|reflexivity].
    rewrite (Hinv _ _ Hs) in Hp; [discriminate|congruence].
  - intros fuel rnd inputs st out quiz session socket p Hrun Hs Hp.
    pose proof (Scored_run_exclusive _ _ _ _ _ _ Scored_init_exclusive Hrun) as Hinv.
    apply get_In in Hs.
    destruct (Scored.cleanupTimeout session) as [h|] eqn:Hh; [|reflexivity].
    rewrite (Hinv _ _ Hs) in Hp; [discriminate|congruence].
  - intros fuel rnd inputs st out quiz session socket p Hrun Hs Hp.
    pose proof (Admin_run_exclusive _ _ _ _ _ _ Admin_init_exclusive Hrun) as Hinv.
    apply get_In in Hs.
    destruct (Admin.cleanupTimeout session) as [h|] eqn:Hh; [|reflexivity].
    rewrite (Hinv _ _ Hs) in Hp; [discriminate|congruence].
Qed.

Lemma occupied_session_witness :
  option_map Basic.cleanupTimeout (Basic.byQuizId "quiz7" basic_rooms) = Some None /\
  option_map Scored.cleanupTimeout (Scored.byQuizId "quiz42" scored_room) = Some None /\
  option_map Admin.cleanupTimeout (Admin.byQuizId "quiz42" admin_room) = Some None.
Proof.
  destruct occupied_session_has_no_timer_handle as (HB & HS & HA).
  split; [|split].
  - pose proof basic_rooms_run as Hst.
    destruct (Basic.run 1 by_attempt Basic.init basic_rooms_inputs) as [[st out]|] eqn:Hrun;
      [|discriminate Hst].
    simpl in Hst. injection Hst as ->.
    exact (f_equal Some (HB _ _ _ _ _ "quiz7" _ "s2" basic_bob Hrun eq_refl eq_refl)).
  - pose proof scored_room_run as Hst.
    destruct (Scored.run 1 by_attempt Scored.init scored_room_inputs) as [[st out]|] eqn:Hrun;
      [|discriminate Hst].
    simpl in Hst. injection Hst as ->.
    exact (f_equal Some (HS _ _ _ _ _ "quiz42" _ "s1" _ Hrun eq_refl eq_refl)).
  - pose proof admin_room_run as Hst.
    destruct (Admin.run 1 by_attempt Admin.init admin_room_inputs) as [[st out]|] eqn:Hrun;
      [|discriminate Hst].
    simpl in Hst. injection Hst as ->.
    exact (f_equal Some (HA _ _ _ _ _ "quiz42" _ "s1" _ Hrun eq_refl eq_refl)).
Defined.

(** X4.  [player_movement] of a participant, in the revisions with one
    registry: the handler emits one [player_moved], to the room except the
    sender, and writes the two coordinates of the payload into the entry of
    the sender; the other fields of that entry (the score among them), the
    entries before and after it, the room code and the timer handle of the
    session are as they were. *)
Theorem player_movement_moves_the_sender_only :
  (forall (st : Basic.State) (socket code : string) (nx ny : number) session p,
      Basic.byRoomCode code st = Some session ->
      JsObject.get socket (Basic.players session) = Some p ->
      exists st' session' before after,
        Basic.player_movement socket code nx ny st =
          (st', [ Basic.Emit (ToRoomExceptSender code socket)
                    (Basic.player_moved socket nx ny) ]) /\
        Basic.byRoomCode code st' = Some session' /\
        Basic.roomCode session' = Basic.roomCode session /\
        Basic.cleanupTimeout session' = Basic.cleanupTimeout session /\
        Basic.players session = (before ++ (socket, p) :: after)%list /\
        JsObject.get socket before = None /\
        Basic.players session' =
          (before ++
           (socket, {| Basic.x := nx; Basic.y := ny; Basic.character := Basic.character p; Basic.username := Basic.username p |}) :: after)%list) /\
  (forall (st : Scored.State) (socket code : string) (nx ny : number) session p,
      Scored.byRoomCode code st = Some session ->
      JsObject.get socket (Scored.players session) = Some p ->
      exists st' session' before after,
        Scored.player_movement socket code nx ny st =
          (st', [ Scored.Emit (ToRoomExceptSender code socket)
                    (Scored.player_moved socket nx ny) ]) /\
        Scored.byRoomCode code st' = Some session' /\
        Scored.roomCode session' = Scored.roomCode session /\
        Scored.cleanupTimeout session' = Scored.cleanupTimeout session /\
        Scored.players session = (before ++ (socket, p) :: after)%list /\
        JsObject.get socket before = None /\
        Scored.players session' =
          (before ++
           (socket, {| Scored.x := nx; Scored.y := ny; Scored.character := Scored.character p; Scored.username := Scored.username p; Scored.score := Scored.score p |}) :: after)%list) /\
  (forall (st : Admin.State) (socket code : string) (nx ny : number) session p,
      Admin.byRoomCode code st = Some session ->
      JsObject.get socket (Admin.players session) = Some p ->
      exists st' session' before after,
        Admin.player_movement socket code nx ny st =
          (st', [ Admin.Emit (ToRoomExceptSender code socket)
                    (Admin.player_moved socket nx ny) ]) /\
        Admin.byRoomCode code st' = Some session' /\
        Admin.roomCode session' = Admin.roomCode session /\
        Admin.cleanupTimeout session' = Admin.cleanupTimeout session /\
        Admin.players session = (before ++ (socket, p) :: after)%list /\
        JsObject.get socket before = None /\
        Admin.players session' =
          (before ++
           (socket, {| Admin.x := nx; Admin.y := ny; Admin.character := Admin.character p; Admin.username := Admin.username p; Admin.score := Admin.score p; Admin.user_id := Admin.user_id p; Admin.role := Admin.role p |}) :: after)%list).
Proof.
  split; [|split].
  - intros st socket code nx ny session p Hs Hp.
    destruct (set_present_split _ socket (Basic.set_position nx ny p) p Hp)
      as (before & after & Hsplit & Hb & Hset).
    unfold Basic.player_movement. pose proof Hs as Hs'. unfold Basic.byRoomCode in Hs'.
    rewrite Hs', Hp.
    eexists _, (Basic.set_players
                  (JsObject.set socket (Basic.set_position nx ny p) (Basic.players session))
                  session), before, after.
    split; [reflexivity|].
    split.
    { unfold Basic.byRoomCode. simpl.
      apply (find_value_modify_first _ _
               (fun s => Basic.set_players
                           (JsObject.set socket (Basic.set_position nx ny p) (Basic.players s)) s)
               session Hs').
      apply find_value_Some_holds in Hs' as [H _]. exact H. }
    do 2 (split; [reflexivity|]).
    split; [exact Hsplit|]. split; [exact Hb|exact Hset].
  - intros st socket code nx ny session p Hs Hp.
    destruct (set_present_split _ socket (Scored.set_position nx ny p) p Hp)
      as (before & after & Hsplit & Hb & Hset).
    unfold Scored.player_movement. pose proof Hs as Hs'. unfold Scored.byRoomCode in Hs'.
    rewrite Hs', Hp.
    eexists _, (Scored.set_players
                  (JsObject.set socket (Scored.set_position nx ny p) (Scored.players session))
                  session), before, after.
    split; [reflexivity|].
    split.
    { unfold Scored.byRoomCode. simpl.
      apply (find_value_modify_first _ _
               (fun s => Scored.set_players
                           (JsObject.set socket (Scored.set_position nx ny p) (Scored.players s)) s)
               session Hs').
      apply find_value_Some_holds in Hs' as [H _]. exact H. }
    do 2 (split; [reflexivity|]).
    split; [exact Hsplit|]. split; [exact Hb|exact Hset].
  - intros st socket code nx ny session p Hs Hp.
    destruct (set_present_split _ socket (Admin.set_position nx ny p) p Hp)
      as (before & after & Hsplit & Hb & Hset).
    unfold Admin.player_movement. pose proof Hs as Hs'. unfold Admin.byRoomCode in Hs'.
    rewrite Hs', Hp.
    eexists _, (Admin.set_players
                  (JsObject.set socket (Admin.set_position nx ny p) (Admin.players session))
                  session), before, after.
    split; [reflexivity|].
    split.
    { unfold Admin.byRoomCode. simpl.
      apply (find_value_modify_first _ _
               (fun s => Admin.set_players
                           (JsObject.set socket (Admin.set_position nx ny p) (Admin.players s)) s)
               session Hs').
      apply find_value_Some_holds in Hs' as [H _]. exact H. }
    do 2 (split; [reflexivity|]).
    split; [exact Hsplit|]. split; [exact Hb|exact Hset].
Qed.

Lemma player_movement_witness :
  (exists st' session',
      Basic.player_movement "s2" "AAAAAA" 7%Z 9%Z basic_rooms =
        (st', [ Basic.Emit (ToRoomExceptSender "AAAAAA" "s2")
                  (Basic.player_moved "s2" 7%Z 9%Z) ]) /\
      Basic.byRoomCode "AAAAAA" st' = Some session' /\
      Basic.roomCode session' = "AAAAAA") /\
  (exists st' session',
      Scored.player_movement "s1" "AAAAAA" 7%Z 9%Z scored_room =
        (st', [ Scored.Emit (ToRoomExceptSender "AAAAAA" "s1")
                  (Scored.player_moved "s1" 7%Z 9%Z) ]) /\
      Scored.byRoomCode "AAAAAA" st' = Some session' /\
      Scored.roomCode session' = "AAAAAA") /\
  (exists st' session',
      Admin.player_movement "s1" "AAAAAA" 7%Z 9%Z admin_room =
        (st', [ Admin.Emit (ToRoomExceptSender "AAAAAA" "s1")
                  (Admin.player_moved "s1" 7%Z 9%Z) ]) /\
      Admin.byRoomCode "AAAAAA" st' = Some session' /\
      Admin.roomCode session' = "AAAAAA").
Proof.
  destruct player_movement_moves_the_sender_only as (HB & HS & HA).
  split; [|split].
  - destruct (HB basic_rooms "s2" "AAAAAA" 7%Z 9%Z _ _ eq_refl eq_refl)
      as (st' & session' & before & after & Hrun & Hfind & Hcode & _).
    exists st', session'. rewrite Hcode. auto.
  - destruct (HS scored_room "s1" "AAAAAA" 7%Z 9%Z _ _ eq_refl eq_refl)
      as (st' & session' & before & after & Hrun & Hfind & Hcode & _).
    exists st', session'. rewrite Hcode. auto.
  - destruct (HA admin_room "s1" "AAAAAA" 7%Z 9%Z _ _ eq_refl eq_refl)
      as (st' & session' & before & after & Hrun & Hfind & Hcode & _).
    exists st', session'. rewrite Hcode. auto.
Defined.

(** X5.  [disconnect] in server.ts and in the revision with scores, on a
    state of a run.  The loop stops at the first session, in the order of
    enumeration, that holds the socket: that session loses the entry of the
    socket and nothing else of its roster, and keeps its room code; the
    session of every other quiz id is as it was, also when it holds the
    socket.  The room is told of the departure, in server.ts all of it but
    the sender and in the revision with scores all of it; in the revision
    with scores that is all that is emitted when the session is left empty,
    and when participants remain the room is sent their roster next, and
    neither the timers nor the timer handle change.  A socket that no
    session holds changes nothing and nothing is emitted. *)
Theorem disconnect_leaves_one_session :
  (forall fuel rnd inputs st out0 socket,
      Basic.run fuel rnd Basic.init inputs = Some (st, out0) ->
      (JsObject.find_entry (Basic.has_player socket) (Basic.activeSessions st) = None ->
       Basic.disconnect socket st = (st, [])) /\
      (forall quiz session,
          JsObject.find_entry (Basic.has_player socket) (Basic.activeSessions st) =
            Some (quiz, session) ->
          exists st' session',
            Basic.disconnect socket st =
              (st', [ Basic.Emit (ToRoomExceptSender (Basic.roomCode session) socket)
                        (Basic.player_disconnected socket) ]) /\
            Basic.byQuizId quiz st' = Some session' /\
            Basic.roomCode session' = Basic.roomCode session /\
            Basic.players session' = JsObject.delete socket (Basic.players session) /\
            JsObject.get socket (Basic.players session') = None /\
            (forall other, other <> socket ->
               JsObject.get other (Basic.players session') =
               JsObject.get other (Basic.players session)) /\
            (forall q, q <> quiz -> Basic.byQuizId q st' = Basic.byQuizId q st))) /\
  (forall fuel rnd inputs st out0 socket,
      Scored.run fuel rnd Scored.init inputs = Some (st, out0) ->
      (JsObject.find_entry (Scored.has_player socket) (Scored.activeSessions st) = None ->
       Scored.disconnect socket st = (st, [])) /\
      (forall quiz session,
          JsObject.find_entry (Scored.has_player socket) (Scored.activeSessions st) =
            Some (quiz, session) ->
          exists st' session',
            Scored.disconnect socket st =
              (st',
               Scored.Emit (ToRoom (Scored.roomCode session))
                 (Scored.player_disconnected socket) ::
               (if JsObject.is_empty (JsObject.delete socket (Scored.players session))
                then []
                else [ Scored.Emit (ToRoom (Scored.roomCode session))
                         (Scored.leaderboard_update
                            (JsObject.values
                               (JsObject.delete socket (Scored.players session)))) ])) /\
            Scored.byQuizId quiz st' = Some session' /\
            Scored.roomCode session' = Scored.roomCode session /\
            Scored.players session' = JsObject.delete socket (Scored.players session) /\
            JsObject.get socket (Scored.players session') = None /\
            (forall other, other <> socket ->
               JsObject.get other (Scored.players session') =
               JsObject.get other (Scored.players session)) /\
            (forall q, q <> quiz -> Scored.byQuizId q st' = Scored.byQuizId q st) /\
            (Scored.players session' <> [] ->
             Scored.timers st' = Scored.timers st /\
             Scored.cleanupTimeout session' = Scored.cleanupTimeout session))).
Proof.
  split.
  - intros fuel rnd inputs st out0 socket Hrun.
    destruct (Basic_run_wf _ _ _ _ _ _ Basic_init_wf Hrun) as [Hk _].
    split; [intros Hnone; unfold Basic.disconnect; rewrite Hnone; reflexivity|].
    intros quiz session Hfind.
    pose proof (find_entry_Some _ _ _ _ Hfind) as [_ Hin].
    pose proof (get_In_NoDup _ _ _ Hk Hin) as Hs.
    unfold Basic.disconnect. rewrite Hfind.
    assert (forall g : Basic.Session -> Basic.Session,
               Basic.byQuizId quiz
                 (Basic.set_activeSessions
                    (JsObject.modify_first (Basic.has_player socket) g
                       (Basic.activeSessions st)) st) = Some (g session) /\
               (forall q, q <> quiz ->
                  Basic.byQuizId q
                    (Basic.set_activeSessions
                       (JsObject.modify_first (Basic.has_player socket) g
                          (Basic.activeSessions st)) st) = Basic.byQuizId q st)) as Hmod.
    { intros g. split; [apply (get_modify_first_hit _ _ _ _ _ Hfind Hs)|].
      intros q Hq. apply (get_modify_first_other _ _ _ _ _ _ Hfind Hq). }
    destruct (truthy_opt_string _);
      eexists _, _; (split; [reflexivity|]);
      match goal with
      | |- context [JsObject.modify_first _ ?g _] => destruct (Hmod g) as [H1 H2]
      end;
      (split; [exact H1|]); simpl;
      (split; [reflexivity|]); (split; [reflexivity|]);
      (split; [apply get_delete_eq|]);
      (split; [intros other Hother; apply get_delete_ne; congruence|exact H2]).
  - intros fuel rnd inputs st out0 socket Hrun.
    destruct (Scored_run_wf _ _ _ _ _ _ Scored_init_wf Hrun) as [Hk _].
    split; [intros Hnone; unfold Scored.disconnect; rewrite Hnone; reflexivity|].
    intros quiz session Hfind.
    pose proof (find_entry_Some _ _ _ _ Hfind) as [_ Hin].
    pose proof (get_In_NoDup _ _ _ Hk Hin) as Hs.
    unfold Scored.disconnect. rewrite Hfind.
    assert (forall g : Scored.Session -> Scored.Session,
               Scored.byQuizId quiz
                 (Scored.set_activeSessions
                    (JsObject.modify_first (Scored.has_player socket) g
                       (Scored.activeSessions st)) st) = Some (g session) /\
               (forall q, q <> quiz ->
                  Scored.byQuizId q
                    (Scored.set_activeSessions
                       (JsObject.modify_first (Scored.has_player socket) g
                          (Scored.activeSessions st)) st) = Scored.byQuizId q st)) as Hmod.
    { intros g. split; [apply (get_modify_first_hit _ _ _ _ _ Hfind Hs)|].
      intros q Hq. apply (get_modify_first_other _ _ _ _ _ _ Hfind Hq). }
    destruct (JsObject.is_empty _) eqn:Hempty; [destruct (truthy_opt_string _)|simpl];
      eexists _, _; (split; [reflexivity|]);
      match goal with
      | |- context [JsObject.modify_first _ ?g _] => destruct (Hmod g) as [H1 H2]
      end;
      (split; [exact H1|]); simpl;
      (split; [reflexivity|]); (split; [reflexivity|]);
      (split; [apply get_delete_eq|]);
      (split; [intros other Hother; apply get_delete_ne; congruence|]);
      (split; [exact H2|]); intros Hne;
      try (apply is_empty_nil in Hempty; congruence); auto.
Qed.

(** The socket "s2" is in the rooms of "quiz42" and of "quiz7": its
    disconnection takes it out of the first and leaves it in the second. *)
Lemma disconnect_witness :
  Basic.disconnect "s9" basic_rooms = (basic_rooms, []) /\
  (exists st' session',
      fst (Basic.disconnect "s2" basic_rooms) = st' /\
      Basic.byQuizId "quiz42" st' = Some session' /\
      JsObject.get "s2" (Basic.players session') = None /\
      option_map Basic.players (Basic.byQuizId "quiz7" st') = Some [("s2", basic_bob)]) /\
  (exists st' session',
      fst (Scored.disconnect "s1" scored_room) = st' /\
      Scored.byQuizId "quiz42" st' = Some session' /\
      JsObject.get "s1" (Scored.players session') = None /\
      Scored.timers st' = Scored.timers scored_room).
Proof.
  destruct disconnect_leaves_one_session as [HB HS].
  pose proof basic_rooms_run as HstB.
  destruct (Basic.run 1 by_attempt Basic.init basic_rooms_inputs) as [[stB outB]|] eqn:HrunB;
    [|discriminate HstB].
  simpl in HstB. injection HstB as ->.
  pose proof scored_room_run as HstS.
  destruct (Scored.run 1 by_attempt Scored.init scored_room_inputs) as [[stS outS]|] eqn:HrunS;
    [|discriminate HstS].
  simpl in HstS. injection HstS as ->.
  split; [|split].
  - apply (proj1 (HB _ _ _ _ _ "s9" HrunB)). reflexivity.
  - destruct (proj2 (HB _ _ _ _ _ "s2" HrunB) "quiz42" _ eq_refl)
      as (st' & session' & Hrun & Hs & _ & _ & Hgone & _ & Hother).
    exists st', session'. rewrite Hrun. split; [reflexivity|].
    split; [exact Hs|]. split; [exact Hgone|].
    rewrite (Hother "quiz7") by discriminate. reflexivity.
  - destruct (proj2 (HS _ _ _ _ _ "s1" HrunS) "quiz42" _ eq_refl)
      as (st' & session' & Hrun & Hs & _ & Hplayers & Hgone & _ & _ & Hrest).
    exists st', session'. rewrite Hrun. split; [reflexivity|].
    split; [exact Hs|]. split; [exact Hgone|].
    apply Hrest. rewrite Hplayers. discriminate.
Defined.

Lemma modify_first_overwrite_undo {V : Type} (o : jsobj V) (p : V -> bool)
    (g : V -> V) k v v1 :
  JsObject.get k o = Some v ->
  (forall k' v', In (k', v') o -> p v' = false) ->
  p v1 = true -> g v1 = v ->
  JsObject.modify_first p g (JsObject.overwrite k v1 o) = o.
Proof.
  intros Hget Hnone Hp Hg. revert Hget Hnone.
  induction o as [|[k0 v0] o IH]; simpl; [discriminate|].
  intros Hget Hnone. destruct (String.eqb_spec k k0) as [->|Hne]; simpl.
  - injection Hget as ->. rewrite Hp, Hg. reflexivity.
  - rewrite (Hnone k0 v0) by (left; reflexivity).
    rewrite IH; [reflexivity|exact Hget|]. intros k' v' Hin. eapply Hnone. right. exact Hin.
Qed.

(** X6.  A join and the leave that follows it undo each other, in server.ts
    and in the revision with scores: when a socket that no session holds
    asks for a quiz whose session has participants, and then disconnects,
    the state of the server is the state before the join (the registry with
    its order, the rosters, the timers and the count of draws). *)
Theorem join_then_leave_restores_the_state :
  (forall fuel0 fuel rnd inputs st out0 socket quiz playerInfo session,
      Basic.run fuel0 rnd Basic.init inputs = Some (st, out0) ->
      Basic.byQuizId quiz st = Some session ->
      Basic.players session <> [] ->
      JsObject.find_entry (Basic.has_player socket) (Basic.activeSessions st) = None ->
      exists st1 out1 out2,
        Basic.request_session fuel rnd socket quiz playerInfo st = Some (st1, out1) /\
        Basic.disconnect socket st1 = (st, out2)) /\
  (forall fuel0 fuel rnd inputs st out0 socket quiz playerInfo session,
      Scored.run fuel0 rnd Scored.init inputs = Some (st, out0) ->
      Scored.byQuizId quiz st = Some session ->
      Scored.players session <> [] ->
      JsObject.find_entry (Scored.has_player socket) (Scored.activeSessions st) = None ->
      exists st1 out1 out2,
        Scored.request_session fuel rnd socket quiz playerInfo st = Some (st1, out1) /\
        Scored.disconnect socket st1 = (st, out2)).
Proof.
  split.
  - intros fuel0 fuel rnd inputs st out0 socket quiz playerInfo session Hrun Hs Hne Hnone.
    pose proof (Basic_run_exclusive _ _ _ _ _ _ Basic_init_exclusive Hrun) as Hex.
    unfold Basic.byQuizId in Hs. pose proof (get_In _ _ _ Hs) as Hin.
    assert (Basic.cleanupTimeout session = None) as Hh.
    { destruct (Basic.cleanupTimeout session) eqn:E; [|reflexivity].
      exfalso. apply Hne. apply (Hex _ _ Hin). congruence. }
    assert (JsObject.get socket (Basic.players session) = None) as Hp.
    { pose proof (find_entry_None _ _ _ _ Hnone Hin) as H. unfold Basic.has_player in H.
      destruct (JsObject.get socket (Basic.players session)); [discriminate|reflexivity]. }
    unfold Basic.request_session. rewrite Hs, Hh.
    set (session1 := {| Basic.roomCode := Basic.roomCode session;
                        Basic.players :=
                          JsObject.set socket playerInfo (Basic.players session);
                        Basic.cleanupTimeout := None |}).
    assert (JsObject.set quiz session1 (Basic.activeSessions st) =
            JsObject.overwrite quiz session1 (Basic.activeSessions st)) as Hset.
    { unfold JsObject.set. rewrite Hs. reflexivity. }
    rewrite Hset.
    eexists _, _, _. split; [reflexivity|].
    assert (Basic.has_player socket session1 = true) as Hhas.
    { unfold Basic.has_player. simpl. rewrite get_set_eq. reflexivity. }
    assert (JsObject.find_entry (Basic.has_player socket)
              (JsObject.overwrite quiz session1 (Basic.activeSessions st)) =
            Some (quiz, session1)) as Hfind.
    { clear - Hs Hnone Hhas. revert Hs Hnone.
      induction (Basic.activeSessions st) as [|[k0 v0] o IH]; simpl; [discriminate|].
      destruct (Basic.has_player socket v0) eqn:E; [discriminate|].
      destruct (String.eqb_spec quiz k0) as [->|Hk]; simpl; intros Hs Hnone.
      - rewrite Hhas. reflexivity.
      - rewrite E. auto. }
    unfold Basic.disconnect. cbn [Basic.activeSessions]. rewrite Hfind.
    cbn [Basic.players session1].
    rewrite (delete_set_absent _ _ _ Hp).
    assert (JsObject.is_empty (Basic.players session) = false) as ->.
    { destruct (JsObject.is_empty (Basic.players session)) eqn:E; [|reflexivity].
      apply is_empty_nil in E. congruence. }
    cbn [truthy_opt_string]. unfold Basic.set_activeSessions. cbn [Basic.activeSessions Basic.timers Basic.next_timer Basic.draws Basic.now].
    rewrite (modify_first_overwrite_undo _ _ _ _ session session1 Hs
               (fun k' v' => find_entry_None _ _ k' v' Hnone) Hhas).
    + f_equal. destruct st; reflexivity.
    + destruct session; simpl in *. subst. reflexivity.
  - intros fuel0 fuel rnd inputs st out0 socket quiz playerInfo session Hrun Hs Hne Hnone.
    pose proof (Scored_run_exclusive _ _ _ _ _ _ Scored_init_exclusive Hrun) as Hex.
    unfold Scored.byQuizId in Hs. pose proof (get_In _ _ _ Hs) as Hin.
    assert (Scored.cleanupTimeout session = None) as Hh.
    { destruct (Scored.cleanupTimeout session) eqn:E; [|reflexivity].
      exfalso. apply Hne. apply (Hex _ _ Hin). congruence. }
    assert (JsObject.get socket (Scored.players session) = None) as Hp.
    { pose proof (find_entry_None _ _ _ _ Hnone Hin) as H. unfold Scored.has_player in H.
      destruct (JsObject.get socket (Scored.players session)); [discriminate|reflexivity]. }
    unfold Scored.request_session. rewrite Hs, Hh.
    set (session1 := {| Scored.roomCode := Scored.roomCode session;
                        Scored.players :=
                          JsObject.set socket (Scored.joined playerInfo) (Scored.players session);
                        Scored.cleanupTimeout := None |}).
    assert (JsObject.set quiz session1 (Scored.activeSessions st) =
            JsObject.overwrite quiz session1 (Scored.activeSessions st)) as Hset.
    { unfold JsObject.set. rewrite Hs. reflexivity. }
    rewrite Hset.
    eexists _, _, _. split; [reflexivity|].
    assert (Scored.has_player socket session1 = true) as Hhas.
    { unfold Scored.has_player. simpl. rewrite get_set_eq. reflexivity. }
    assert (JsObject.find_entry (Scored.has_player socket)
              (JsObject.overwrite quiz session1 (Scored.activeSessions st)) =
            Some (quiz, session1)) as Hfind.
    { clear - Hs Hnone Hhas. revert Hs Hnone.
      induction (Scored.activeSessions st) as [|[k0 v0] o IH]; simpl; [discriminate|].
      destruct (Scored.has_player socket v0) eqn:E; [discriminate|].
      destruct (String.eqb_spec quiz k0) as [->|Hk]; simpl; intros Hs Hnone.
      - rewrite Hhas. reflexivity.
      - rewrite E. auto. }
    unfold Scored.disconnect. cbn [Scored.activeSessions]. rewrite Hfind.
    cbn [Scored.players session1].
    rewrite (delete_set_absent _ _ _ Hp).
    assert (JsObject.is_empty (Scored.players session) = false) as ->.
    { destruct (JsObject.is_empty (Scored.players session)) eqn:E; [|reflexivity].
      apply is_empty_nil in E. congruence. }
    cbn [truthy_opt_string]. unfold Scored.set_activeSessions. cbn [Scored.activeSessions Scored.timers Scored.next_timer Scored.draws Scored.now].
    rewrite (modify_first_overwrite_undo _ _ _ _ session session1 Hs
               (fun k' v' => find_entry_None _ _ k' v' Hnone) Hhas).
    + f_equal. destruct st; reflexivity.
    + destruct session; simpl in *. subst. reflexivity.
Qed.

Lemma join_then_leave_witness :
  (exists st1 out1 out2,
      Basic.request_session 0 by_attempt "s3" "quiz42" basic_ann basic_rooms =
        Some (st1, out1) /\
      Basic.disconnect "s3" st1 = (basic_rooms, out2)) /\
  (exists st1 out1 out2,
      Scored.request_session 0 by_attempt "s3" "quiz42" scored_ann scored_room =
        Some (st1, out1) /\
      Scored.disconnect "s3" st1 = (scored_room, out2)).
Proof.
  destruct join_then_leave_restores_the_state as [HB HS].
  pose proof basic_rooms_run as HstB.
  destruct (Basic.run 1 by_attempt Basic.init basic_rooms_inputs) as [[stB outB]|] eqn:HrunB;
    [|discriminate HstB].
  simpl in HstB. injection HstB as ->.
  pose proof scored_room_run as HstS.
  destruct (Scored.run 1 by_attempt Scored.init scored_room_inputs) as [[stS outS]|] eqn:HrunS;
    [|discriminate HstS].
  simpl in HstS. injection HstS as ->.
  split.
  - apply (HB _ 0 _ _ _ _ "s3" "quiz42" basic_ann _ HrunB eq_refl); [discriminate|reflexivity].
  - apply (HS _ 0 _ _ _ _ "s3" "quiz42" scored_ann _ HrunS eq_refl); [discriminate|reflexivity].
Defined.

(** Once the property of a value is deleted, a search by the image of that
    value finds nothing, when images are not shared. *)
Lemma find_value_delete_by_image {V : Type} (f : V -> string) (o : jsobj V) k v code :
  NoDup (map f (JsObject.values o)) -> In (k, v) o -> f v = code ->
  JsObject.find_value (fun s => String.eqb (f s) code) (JsObject.delete k o) = None.
Proof.
  intros Hnd Hin Hcode.
  destruct (JsObject.find_value _ (JsObject.delete k o)) as [v'|] eqn:Hfind; [|reflexivity].
  exfalso. apply find_value_Some_holds in Hfind as [Heq Hin'].
  apply String.eqb_eq in Heq.
  apply in_map_iff in Hin' as ([k' v''] & Hsnd & Hin'). simpl in Hsnd. subst v''.
  pose proof (In_delete_ne _ _ _ _ Hin') as Hne. apply In_delete in Hin'.
  pose proof (image_NoDup_inj f o k' v' k v Hnd Hin' Hin) as E.
  rewrite Heq, Hcode in E. specialize (E eq_refl). congruence.
Qed.

(** X7.  [admin_end_quiz] for a room code that resolves to no session, or
    with a token that differs from the admin token of the session (each a
    string or [undefined]): the caller alone is sent [error_ending_quiz],
    the results sink is not called, and the state is the state before, so
    the refusal can be repeated any number of times. *)
Theorem refused_finalization_changes_nothing :
  forall (st : Admin.State) (caller code : string) token,
    (Admin.byRoomCode code st = None \/
     exists session,
       Admin.byRoomCode code st = Some session /\ Admin.adminToken session <> token) ->
    forall n,
      Admin.run 0 (fun _ => 0) st (repeat (Admin.AdminEndQuiz caller code token) n) =
        Some (st,
              repeat (Admin.Emit (ToSocket caller)
                        (Admin.error_ending_quiz "Unauthorized or invalid session." None))
                n) /\
      sink_calls
        (repeat (Admin.Emit (ToSocket caller)
                   (Admin.error_ending_quiz "Unauthorized or invalid session." None)) n) = [].
Proof.
  intros st caller code token Hbad n.
  pose proof (Admin_finalize_unauthorized st caller code token Hbad) as Hstep.
  induction n as [|n [IH1 IH2]]; [split; reflexivity|].
  split.
  - cbn [repeat Admin.run Admin.step]. rewrite Hstep, IH1. reflexivity.
  - cbn [repeat sink_calls filter]. exact IH2.
Qed.

Lemma refused_finalization_witness :
  Admin.run 0 (fun _ => 0) admin_room
    [ Admin.AdminEndQuiz "s2" "AAAAAA" (Some "guess");
      Admin.AdminEndQuiz "s2" "AAAAAA" (Some "guess") ] =
    Some (admin_room,
          [ Admin.Emit (ToSocket "s2")
              (Admin.error_ending_quiz "Unauthorized or invalid session." None);
            Admin.Emit (ToSocket "s2")
              (Admin.error_ending_quiz "Unauthorized or invalid session." None) ]).
Proof.
  assert (Admin.byRoomCode "AAAAAA" admin_room = None \/
          exists session,
            Admin.byRoomCode "AAAAAA" admin_room = Some session /\
            Admin.adminToken session <> Some "guess") as Hbad.
  { right. eexists. split; [reflexivity|discriminate]. }
  exact (proj1 (refused_finalization_changes_nothing admin_room "s2" "AAAAAA"
                  (Some "guess") Hbad 2)).
Defined.

(** X8.  [disconnect] of a participant whose role is admin, from a session
    of a run that has a non-empty admin token: the token is cleared, and
    from then on every [admin_end_quiz] for the room that carries a token is
    answered with the error to the caller, with no call of the sink and no
    change of the state. *)
Theorem admin_leaving_ends_finalization :
  forall fuel rnd inputs st out0 socket quiz session p tk,
    Admin.run fuel rnd Admin.init inputs = Some (st, out0) ->
    JsObject.find_entry (Admin.has_player socket) (Admin.activeSessions st) =
      Some (quiz, session) ->
    JsObject.get socket (Admin.players session) = Some p ->
    Admin.role p = Some "admin" ->
    Admin.adminToken session = Some tk -> tk <> "" ->
    exists st' out session',
      Admin.disconnect socket st = (st', out) /\
      Admin.byQuizId quiz st' = Some session' /\
      Admin.byRoomCode (Admin.roomCode session) st' = Some session' /\
      Admin.adminToken session' = None /\
      (forall caller token,
          Admin.admin_end_quiz caller (Admin.roomCode session) (Some token) st' =
            (st', [ Admin.Emit (ToSocket caller)
                      (Admin.error_ending_quiz "Unauthorized or invalid session." None) ])).
Proof.
  intros fuel rnd inputs st out0 socket quiz session p tk Hrun Hfind Hp Hrole Htk Hne.
  pose proof (Admin_run_wf _ _ _ _ _ _ Admin_init_wf Hrun) as Hwf.
  destruct (Admin.disconnect socket st) as [st' out] eqn:Hd.
  assert (Admin_wf st') as (Hk' & Hc' & _).
  { apply (Admin_step_wf fuel rnd st (Admin.Disconnect socket) st' out Hwf).
    simpl. rewrite Hd. reflexivity. }
  destruct Hwf as (Hk & _ & _).
  pose proof (find_entry_Some _ _ _ _ Hfind) as [_ Hin].
  pose proof (get_In_NoDup _ _ _ Hk Hin) as Hs.
  assert (exists session',
             Admin.byQuizId quiz st' = Some session' /\
             Admin.roomCode session' = Admin.roomCode session /\
             Admin.adminToken session' = None) as (session' & Hs' & Hcode & Htoken).
  { unfold Admin.disconnect in Hd. rewrite Hfind, Hp, Htk in Hd.
    assert (truthy_opt_string (Some tk) && Admin.is_admin p = true) as Hleaving.
    { apply andb_true_intro. split; [destruct tk; [congruence|reflexivity]|].
      apply is_admin_true. exact Hrole. }
    rewrite Hleaving in Hd.
    destruct (truthy_opt_string _) in Hd; injection Hd as <- <-;
      eexists; (split; [apply (get_modify_first_hit _ _ _ _ _ Hfind Hs)|]);
      split; reflexivity. }
  exists st', out, session'. split; [reflexivity|]. split; [exact Hs'|].
  assert (Admin.byRoomCode (Admin.roomCode session) st' = Some session') as Hby.
  { rewrite <- Hcode. unfold Admin.byQuizId in Hs'. apply get_In in Hs'.
    apply (find_value_by_image Admin.roomCode _ _ _ Hc' Hs'). }
  split; [exact Hby|]. split; [exact Htoken|].
  intros caller token. apply Admin_finalize_unauthorized.
  right. exists session'. split; [exact Hby|]. rewrite Htoken. discriminate.
Qed.

Lemma admin_leaving_witness :
  exists st' session',
    fst (Admin.disconnect "s1" admin_room) = st' /\
    Admin.byRoomCode "AAAAAA" st' = Some session' /\
    Admin.adminToken session' = None /\
    Admin.admin_end_quiz "s2" "AAAAAA" (Some "secret") st' =
      (st', [ Admin.Emit (ToSocket "s2")
                (Admin.error_ending_quiz "Unauthorized or invalid session." None) ]).
Proof.
  pose proof admin_room_run as Hst.
  destruct (Admin.run 1 by_attempt Admin.init admin_room_inputs) as [[st out]|] eqn:Hrun;
    [|discriminate Hst].
  simpl in Hst. injection Hst as ->.
  destruct (admin_leaving_ends_finalization _ _ _ _ _ "s1" "quiz42" _ _ "secret"
              Hrun eq_refl eq_refl eq_refl eq_refl ltac:(discriminate))
    as (st' & out' & session' & Hd & _ & Hby & Htoken & Hrefused).
  exists st', session'. rewrite Hd. split; [reflexivity|].
  split; [exact Hby|]. split; [exact Htoken|]. apply Hrefused.
Defined.

(** X9.  An authorized [admin_end_quiz] on a state of a run, followed at
    once by an ok answer of the sink: the handler posts the roster of that
    moment under the quiz id of the session, emits one [quiz_ended] to the
    room, and afterwards neither the room code nor the quiz id resolves to
    a session; the sessions of the other quiz ids and the timers are as
    they were. *)
Theorem finalization_ok_destroys_the_session :
  forall fuel rnd inputs st out0 caller code token session,
    Admin.run fuel rnd Admin.init inputs = Some (st, out0) ->
    Admin.byRoomCode code st = Some session ->
    Admin.adminToken session = token ->
    exists st1 st2,
      Admin.admin_end_quiz caller code token st =
        (st1, [ Admin.Fetch (Admin.next_fetch st) token (Admin.quizId session)
                  (JsObject.values (Admin.players session)) ]) /\
      Admin.fetch_settles (Admin.next_fetch st) Admin.ResponseOk st1 =
        Some (st2, [ Admin.Emit (ToRoom code)
                       (Admin.quiz_ended "Quiz has been ended by the admin.") ]) /\
      Admin.byRoomCode code st2 = None /\
      Admin.byQuizId (Admin.quizId session) st2 = None /\
      (forall q, q <> Admin.quizId session -> Admin.byQuizId q st2 = Admin.byQuizId q st) /\
      Admin.timers st2 = Admin.timers st.
Proof.
  intros fuel rnd inputs st out0 caller code token session Hrun Hs Htoken.
  destruct (Admin_run_wf _ _ _ _ _ _ Admin_init_wf Hrun) as (_ & Hc & Hq).
  destruct (Admin_finalize_authorized st caller code token session Hs Htoken)
    as (st1 & Hbegin & Hreg & Htimers & Hpending).
  destruct (Admin_fetch_settles_spec st1 (Admin.next_fetch st) _ Admin.ResponseOk Hpending)
    as (st2 & out & Hsettle & Htimers2 & Hout & Hgone & Hother).
  simpl in Hout, Hgone, Hother. subst out.
  exists st1, st2. split; [exact Hbegin|]. split; [exact Hsettle|].
  split.
  { unfold Admin.fetch_settles in Hsettle. rewrite Hpending in Hsettle.
    injection Hsettle as <-. unfold Admin.byRoomCode. simpl. rewrite Hreg.
    destruct (Admin_find_value_In _ _ _ Hs) as (quiz & Hfind & Hin).
    pose proof (Hq _ _ Hin) as Hquiz. subst quiz.
    apply find_value_Some_holds in Hs as [Hcode _].
    apply String.eqb_eq in Hcode.
    apply (find_value_delete_by_image Admin.roomCode _ _ _ code Hc Hin Hcode). }
  split; [exact Hgone|]. split.
  - intros q Hne. rewrite (Hother q Hne). unfold Admin.byQuizId. rewrite Hreg. reflexivity.
  - congruence.
Qed.

Lemma finalization_ok_witness :
  exists st1 st2,
    fst (Admin.admin_end_quiz "s1" "AAAAAA" (Some "secret") admin_room) = st1 /\
    option_map fst (Admin.fetch_settles 0 Admin.ResponseOk st1) = Some st2 /\
    Admin.byRoomCode "AAAAAA" st2 = None /\
    Admin.byQuizId "quiz42" st2 = None.
Proof.
  pose proof admin_room_run as Hst.
  destruct (Admin.run 1 by_attempt Admin.init admin_room_inputs) as [[st out]|] eqn:Hrun;
    [|discriminate Hst].
  simpl in Hst. injection Hst as ->.
  destruct (finalization_ok_destroys_the_session _ _ _ _ _ "s1" "AAAAAA" (Some "secret") _
              Hrun eq_refl eq_refl)
    as (st1 & st2 & Hbegin & Hsettle & Hcode & Hquiz & _).
  exists st1, st2. rewrite Hbegin. split; [reflexivity|].
  simpl in Hsettle. rewrite Hsettle. auto.
Defined.

(** X10.  An authorized [admin_end_quiz] followed at once by an answer of
    the sink that is not ok, or by a failed request: one
    [error_ending_quiz] goes to the caller, the registry and the timers are
    as before the request, and asking again is authorized again and posts
    the same roster. *)
Theorem finalization_failure_can_be_retried :
  forall (st : Admin.State) caller code token session o,
    Admin.byRoomCode code st = Some session ->
    Admin.adminToken session = token ->
    o <> Admin.ResponseOk ->
    exists st1 st2 message details,
      Admin.admin_end_quiz caller code token st =
        (st1, [ Admin.Fetch (Admin.next_fetch st) token (Admin.quizId session)
                  (JsObject.values (Admin.players session)) ]) /\
      Admin.fetch_settles (Admin.next_fetch st) o st1 =
        Some (st2, [ Admin.Emit (ToSocket caller)
                       (Admin.error_ending_quiz message details) ]) /\
      Admin.activeSessions st2 = Admin.activeSessions st /\
      Admin.timers st2 = Admin.timers st /\
      snd (Admin.admin_end_quiz caller code token st2) =
        [ Admin.Fetch (S (Admin.next_fetch st)) token (Admin.quizId session)
            (JsObject.values (Admin.players session)) ].
Proof.
  intros st caller code token session o Hs Htoken Ho.
  destruct (Admin_finalize_authorized st caller code token session Hs Htoken)
    as (st1 & Hbegin & Hreg & Htimers & Hpending).
  assert (Admin.next_fetch st1 = S (Admin.next_fetch st)) as Hnext.
  { unfold Admin.admin_end_quiz, Admin.byRoomCode in *. rewrite Hs in Hbegin.
    destruct (opt_string_eqb _ _); [|unfold Admin.unauthorized in Hbegin; congruence].
    injection Hbegin as <-. reflexivity. }
  destruct (Admin_fetch_settles_spec st1 (Admin.next_fetch st) _ o Hpending)
    as (st2 & out & Hsettle & Htimers2 & Hout).
  assert (Admin.activeSessions st2 = Admin.activeSessions st1 /\
          Admin.next_fetch st2 = Admin.next_fetch st1 /\
          exists message details,
            out = [ Admin.Emit (ToSocket caller)
                      (Admin.error_ending_quiz message details) ])
    as (Hreg2 & Hnext2 & message & details & ->).
  { unfold Admin.fetch_settles in Hsettle. rewrite Hpending in Hsettle.
    destruct o as [|[errorData|]|]; [congruence| | |];
      injection Hsettle as <- <-; simpl; eauto. }
  exists st1, st2, message, details.
  split; [exact Hbegin|]. split; [exact Hsettle|].
  split; [congruence|]. split; [congruence|].
  assert (Admin.byRoomCode code st2 = Some session) as Hs2.
  { unfold Admin.byRoomCode in *. rewrite Hreg2, Hreg. exact Hs. }
  destruct (Admin_finalize_authorized st2 caller code token session Hs2 Htoken)
    as (st3 & Hagain & _).
  rewrite Hagain. simpl. rewrite Hnext2, Hnext. reflexivity.
Qed.

Lemma finalization_failure_witness :
  exists st1 st2 message details,
    fst (Admin.admin_end_quiz "s1" "AAAAAA" (Some "secret") admin_room) = st1 /\
    Admin.fetch_settles 0 Admin.FetchThrows st1 =
      Some (st2, [ Admin.Emit (ToSocket "s1")
                     (Admin.error_ending_quiz message details) ]) /\
    Admin.activeSessions st2 = Admin.activeSessions admin_room.
Proof.
  destruct (finalization_failure_can_be_retried admin_room "s1" "AAAAAA" (Some "secret")
              _ Admin.FetchThrows eq_refl eq_refl ltac:(discriminate))
    as (st1 & st2 & message & details & Hbegin & Hsettle & Hreg & _).
  exists st1, st2, message, details. rewrite Hbegin. auto.
Defined.

(** X11.  [join_game] in the revision with two registries, on a state of a
    run.  A room code that the registry by room code does not hold and that
    names no member of [Object.prototype] is answered with the error "Room
    not found" to the caller alone, and the state is unchanged.  A room
    code that the registry does not hold and that names such a member makes
    the handler throw.  For a room code that the registry holds, the
    [playerInfo] of the payload is stored as it is under the socket, the
    caller is sent the roster that results and the others of the room the
    new player; the rest of the roster, the room code, the quiz id and the
    timer handle of the session, every other session, both registries and
    the timers are as they were. *)
Theorem join_game_adds_the_caller_only :
  forall fuel rnd inputs st out0 socket code playerInfo,
    TwoIndex.run fuel rnd TwoIndex.init inputs = Some (st, out0) ->
    (JsObject.get code (TwoIndex.activeSessionsByRoomCode st) = None ->
     JsObject.inherited code = false ->
     TwoIndex.join_game socket code playerInfo st =
       Some (st, [ TwoIndex.Emit (ToSocket socket) (TwoIndex.error "Room not found") ])) /\
    (JsObject.get code (TwoIndex.activeSessionsByRoomCode st) = None ->
     JsObject.inherited code = true ->
     TwoIndex.join_game socket code playerInfo st = None) /\
    (forall a,
        JsObject.get code (TwoIndex.activeSessionsByRoomCode st) = Some a ->
        exists s st',
          TwoIndex.store st !! a = Some s /\
          TwoIndex.join_game socket code playerInfo st =
            Some (st', [ TwoIndex.Join socket code;
                         TwoIndex.Emit (ToSocket socket)
                           (TwoIndex.session_joined
                              (JsObject.set socket playerInfo (TwoIndex.players s)) socket);
                         TwoIndex.Emit (ToRoomExceptSender code socket)
                           (TwoIndex.new_player socket playerInfo) ]) /\
          TwoIndex.byRoomCode code st' =
            Some {| TwoIndex.roomCode := TwoIndex.roomCode s;
                    TwoIndex.players :=
                      JsObject.set socket playerInfo (TwoIndex.players s);
                    TwoIndex.quizId := TwoIndex.quizId s;
                    TwoIndex.cleanupTimeout := TwoIndex.cleanupTimeout s |} /\
          JsObject.get socket (JsObject.set socket playerInfo (TwoIndex.players s)) =
            Some playerInfo /\
          (forall other, other <> socket ->
             JsObject.get other (JsObject.set socket playerInfo (TwoIndex.players s)) =
             JsObject.get other (TwoIndex.players s)) /\
          (forall b, b <> a -> TwoIndex.store st' !! b = TwoIndex.store st !! b) /\
          TwoIndex.activeSessionsByQuizId st' = TwoIndex.activeSessionsByQuizId st /\
          TwoIndex.activeSessionsByRoomCode st' = TwoIndex.activeSessionsByRoomCode st /\
          TwoIndex.timers st' = TwoIndex.timers st).
Proof.
  intros fuel rnd inputs st out0 socket code playerInfo Hrun.
  destruct (TwoIndex_run_keyed _ _ _ _ _ _ TwoIndex_init_keyed Hrun) as (_ & Hc & _).
  split; [|split].
  - intros Hnone Hinh. unfold TwoIndex.join_game. rewrite Hnone, Hinh. reflexivity.
  - intros Hnone Hinh. unfold TwoIndex.join_game. rewrite Hnone, Hinh. reflexivity.
  - intros a Ha. destruct (Hc code a (get_In _ _ _ Ha)) as (s & Hs & _).
    exists s. eexists. split; [exact Hs|].
    unfold TwoIndex.join_game. rewrite Ha, Hs. split; [reflexivity|].
    unfold TwoIndex.byRoomCode. simpl. rewrite Ha.
    split; [apply lookup_insert_eq|]. split; [apply get_set_eq|].
    split; [intros other Hother; apply get_set_ne; congruence|].
    split; [intros b Hb; apply lookup_insert_ne; congruence|]. auto.
Qed.

Lemma join_game_witness :
  TwoIndex.join_game "s2" "ZZZZZZ" two_bob two_room =
    Some (two_room, [ TwoIndex.Emit (ToSocket "s2") (TwoIndex.error "Room not found") ]) /\
  TwoIndex.join_game "s2" "constructor" two_bob two_room = None /\
  (exists s st',
      TwoIndex.store two_room !! 0 = Some s /\
      option_map fst (TwoIndex.join_game "s2" "AAAAAA" two_bob two_room) = Some st' /\
      option_map TwoIndex.players (TwoIndex.byRoomCode "AAAAAA" st') =
        Some (JsObject.set "s2" two_bob (TwoIndex.players s))).
Proof.
  pose proof two_room_run as Hst.
  destruct (TwoIndex.run 1 by_attempt TwoIndex.init two_room_inputs) as [[st out]|] eqn:Hrun;
    [|discriminate Hst].
  simpl in Hst. injection Hst as ->.
  split; [|split].
  - apply (proj1 (join_game_adds_the_caller_only _ _ _ _ _ "s2" "ZZZZZZ" two_bob Hrun));
      reflexivity.
  - apply (proj1 (proj2 (join_game_adds_the_caller_only _ _ _ _ _ "s2" "constructor"
                           two_bob Hrun))); reflexivity.
  - destruct (proj2 (proj2 (join_game_adds_the_caller_only _ _ _ _ _ "s2" "AAAAAA"
                              two_bob Hrun)) 0 eq_refl) as (s & st' & Hs & Hjoin & Hby & _).
    exists s, st'. rewrite Hjoin, Hby. auto.
Defined.

(** X12.  [player_movement] in the revision with two registries.  When the
    room code is no key of the registry by room code and names no member
    of [Object.prototype], or the session it resolves to does not hold the
    socket, the state is unchanged and nothing is emitted.  When the room
    code is no key of the registry and names such a member, the handler
    throws.  When the session holds the socket, one [player_moved] goes to
    the room except the sender, the entry of the sender takes the
    coordinates of the payload and keeps its character and username, and
    the other entries, the registries, the other sessions and the timers
    are as they were. *)
Theorem player_movement_two_registries :
  forall (st : TwoIndex.State) socket code nx ny,
    (JsObject.get code (TwoIndex.activeSessionsByRoomCode st) = None ->
     JsObject.inherited code = false ->
     TwoIndex.player_movement socket code nx ny st = Some (st, [])) /\
    (JsObject.get code (TwoIndex.activeSessionsByRoomCode st) = None ->
     JsObject.inherited code = true ->
     TwoIndex.player_movement socket code nx ny st = None) /\
    (forall s,
        TwoIndex.byRoomCode code st = Some s ->
        JsObject.get socket (TwoIndex.players s) = None ->
        TwoIndex.player_movement socket code nx ny st = Some (st, [])) /\
    (forall s p,
        TwoIndex.byRoomCode code st = Some s ->
        JsObject.get socket (TwoIndex.players s) = Some p ->
        exists st' s',
          TwoIndex.player_movement socket code nx ny st =
            Some (st', [ TwoIndex.Emit (ToRoomExceptSender code socket)
                           (TwoIndex.player_moved socket nx ny) ]) /\
          TwoIndex.byRoomCode code st' = Some s' /\
          JsObject.get socket (TwoIndex.players s') =
            Some {| TwoIndex.x := nx; TwoIndex.y := ny;
                    TwoIndex.character := TwoIndex.character p;
                    TwoIndex.username := TwoIndex.username p |} /\
          (forall other, other <> socket ->
             JsObject.get other (TwoIndex.players s') =
             JsObject.get other (TwoIndex.players s)) /\
          JsObject.keys (TwoIndex.players s') = JsObject.keys (TwoIndex.players s) /\
          TwoIndex.roomCode s' = TwoIndex.roomCode s /\
          TwoIndex.quizId s' = TwoIndex.quizId s /\
          TwoIndex.cleanupTimeout s' = TwoIndex.cleanupTimeout s /\
          TwoIndex.activeSessionsByQuizId st' = TwoIndex.activeSessionsByQuizId st /\
          TwoIndex.activeSessionsByRoomCode st' = TwoIndex.activeSessionsByRoomCode st /\
          TwoIndex.timers st' = TwoIndex.timers st).
Proof.
  intros st socket code nx ny.
  split; [|split; [|split]].
  - intros Hnone Hinh. unfold TwoIndex.player_movement. rewrite Hnone, Hinh. reflexivity.
  - intros Hnone Hinh. unfold TwoIndex.player_movement. rewrite Hnone, Hinh. reflexivity.
  - intros s Hs Hp. unfold TwoIndex.player_movement, TwoIndex.byRoomCode in *.
    destruct (JsObject.get code (TwoIndex.activeSessionsByRoomCode st)) as [a|];
      [|discriminate].
    rewrite Hs, Hp. reflexivity.
  - intros s p Hs Hp. unfold TwoIndex.player_movement, TwoIndex.byRoomCode in *.
    destruct (JsObject.get code (TwoIndex.activeSessionsByRoomCode st)) as [a|] eqn:Ha;
      [|discriminate].
    rewrite Hs, Hp. eexists _, _. split; [reflexivity|]. simpl. rewrite Ha.
    split; [apply lookup_insert_eq|]. simpl.
    split; [apply get_set_eq|].
    split; [intros other Hother; apply get_set_ne; congruence|].
    split; [eapply keys_set_present; exact Hp|]. auto 10.
Qed.

Lemma player_movement_two_witness :
  TwoIndex.player_movement "s1" "ZZZZZZ" 7%Z 9%Z two_room = Some (two_room, []) /\
  TwoIndex.player_movement "s1" "toString" 7%Z 9%Z two_room = None /\
  TwoIndex.player_movement "s9" "AAAAAA" 7%Z 9%Z two_room = Some (two_room, []) /\
  (exists st' s',
      option_map fst (TwoIndex.player_movement "s1" "AAAAAA" 7%Z 9%Z two_room) = Some st' /\
      TwoIndex.byRoomCode "AAAAAA" st' = Some s' /\
      JsObject.get "s1" (TwoIndex.players s') =
        Some {| TwoIndex.x := 7%Z; TwoIndex.y := 9%Z; TwoIndex.character := "fox";
                TwoIndex.username := "ann" |}).
Proof.
  split; [|split; [|split]].
  - apply (proj1 (player_movement_two_registries two_room "s1" "ZZZZZZ" 7%Z 9%Z));
      reflexivity.
  - apply (proj1 (proj2 (player_movement_two_registries two_room "s1" "toString" 7%Z 9%Z)));
      reflexivity.
  - apply (proj1 (proj2 (proj2
             (player_movement_two_registries two_room "s9" "AAAAAA" 7%Z 9%Z)))
             _ eq_refl eq_refl).
  - destruct (proj2 (proj2 (proj2
                (player_movement_two_registries two_room "s1" "AAAAAA" 7%Z 9%Z)))
                _ _ eq_refl eq_refl)
      as (st' & s' & Hmove & Hby & Hentry & _).
    exists st', s'. rewrite Hmove. auto.
Defined.

(** X13.  [request_session] in the revision with two registries: two quiz
    ids that had no session, asked for one after the other and answered
    with a room code each, are given different room codes; and asking for
    the first again answers its room code and changes nothing.  A quiz id
    that has no session and names a member of [Object.prototype] is
    answered without a room code, and the state is unchanged. *)
Theorem fresh_quizzes_get_distinct_rooms :
  (forall fuel1 fuel2 fuel3 rnd (st : TwoIndex.State) socket1 socket2 socket3
          quiz1 quiz2 st1 code1 st2 code2,
      JsObject.get quiz1 (TwoIndex.activeSessionsByQuizId st) = None ->
      JsObject.get quiz2 (TwoIndex.activeSessionsByQuizId st) = None ->
      quiz1 <> quiz2 ->
      TwoIndex.request_session fuel1 rnd socket1 quiz1 st =
        Some (st1, [ TwoIndex.Emit (ToSocket socket1)
                       (TwoIndex.session_created (Some code1)) ]) ->
      TwoIndex.request_session fuel2 rnd socket2 quiz2 st1 =
        Some (st2, [ TwoIndex.Emit (ToSocket socket2)
                       (TwoIndex.session_created (Some code2)) ]) ->
      code1 <> code2 /\
      TwoIndex.request_session fuel3 rnd socket3 quiz1 st2 =
        Some (st2, [ TwoIndex.Emit (ToSocket socket3)
                       (TwoIndex.session_created (Some code1)) ])) /\
  (forall fuel rnd (st : TwoIndex.State) socket quiz,
      JsObject.get quiz (TwoIndex.activeSessionsByQuizId st) = None ->
      JsObject.inherited quiz = true ->
      TwoIndex.request_session fuel rnd socket quiz st =
        Some (st, [ TwoIndex.Emit (ToSocket socket) (TwoIndex.session_created None) ])).
Proof.
  split.
  2: { intros fuel rnd st socket quiz Hnone Hinh.
       unfold TwoIndex.request_session. rewrite Hnone, Hinh. reflexivity. }
  intros fuel1 fuel2 fuel3 rnd st socket1 socket2 socket3 quiz1 quiz2 st1 code1 st2 code2
         Hnone1 Hnone2 Hne H1 H2.
  unfold TwoIndex.request_session in H1. rewrite Hnone1 in H1.
  destruct (JsObject.inherited quiz1); [discriminate H1|].
  destruct (TwoIndex.generateRoomCode fuel1 rnd st) as [[c1 d1]|] eqn:G1; [|discriminate].
  cbn [TwoIndex.store] in H1. rewrite lookup_insert_eq in H1.
  cbn [TwoIndex.cleanupTimeout TwoIndex.roomCode] in H1.
  injection H1 as <- <-.
  unfold TwoIndex.request_session in H2.
  cbn [TwoIndex.activeSessionsByQuizId] in H2.
  rewrite get_set_ne, Hnone2 in H2 by exact Hne.
  destruct (JsObject.inherited quiz2); [discriminate H2|].
  match type of H2 with
  | context [TwoIndex.generateRoomCode fuel2 rnd ?s] =>
      destruct (TwoIndex.generateRoomCode fuel2 rnd s) as [[c2 d2]|] eqn:G2;
        [|discriminate]
  end.
  cbn [TwoIndex.store TwoIndex.next_session] in H2. rewrite lookup_insert_eq in H2.
  cbn [TwoIndex.cleanupTimeout TwoIndex.roomCode] in H2.
  injection H2 as <- <-.
  split.
  - intros <-. unfold TwoIndex.generateRoomCode in G2.
    apply generate_sound in G2 as [Hfree _].
    apply isCodeInUse_false_TwoIndex in Hfree as [Hfree _].
    cbn [TwoIndex.activeSessionsByRoomCode] in Hfree.
    rewrite get_set_eq in Hfree. discriminate.
  - unfold TwoIndex.request_session. cbn [TwoIndex.activeSessionsByQuizId].
    rewrite get_set_ne by congruence. rewrite get_set_eq.
    cbn [TwoIndex.store TwoIndex.next_session].
    rewrite lookup_insert_ne by lia. rewrite lookup_insert_eq.
    reflexivity.
Qed.

Lemma fresh_quizzes_witness :
  (exists st1 code1 st2 code2,
      TwoIndex.request_session 1 by_attempt "s1" "quiz42" TwoIndex.init =
        Some (st1, [ TwoIndex.Emit (ToSocket "s1")
                       (TwoIndex.session_created (Some code1)) ]) /\
      TwoIndex.request_session 1 by_attempt "s2" "quiz7" st1 =
        Some (st2, [ TwoIndex.Emit (ToSocket "s2")
                       (TwoIndex.session_created (Some code2)) ]) /\
      code1 <> code2 /\
      TwoIndex.request_session 0 by_attempt "s3" "quiz42" st2 =
        Some (st2, [ TwoIndex.Emit (ToSocket "s3")
                       (TwoIndex.session_created (Some code1)) ])) /\
  TwoIndex.request_session 1 by_attempt "s1" "constructor" two_room =
    Some (two_room, [ TwoIndex.Emit (ToSocket "s1") (TwoIndex.session_created None) ]).
Proof.
  destruct fresh_quizzes_get_distinct_rooms as [Hfresh Hproto].
  split.
  - eexists _, _, _, _.
    split; [vm_compute; reflexivity|]. split; [vm_compute; reflexivity|].
    eapply (Hfresh 1 1 0 by_attempt TwoIndex.init "s1" "s2" "s3" "quiz42" "quiz7");
      [reflexivity|reflexivity|discriminate|vm_compute; reflexivity|vm_compute; reflexivity].
  - apply Hproto; reflexivity.
Defined.

(** X14.  The cleanup of the revision with two registries when no join
    intervenes, on a state of a run: the [disconnect] that empties a session
    tells the room and arms a timer due 60000 ms later; the timer cannot
    fire before that; when it fires, the room code and the quiz id of the
    session are keys of the registries no more. *)
Theorem last_leave_evicts_after_a_minute :
  forall fuel rnd inputs st out0 socket code a s,
    TwoIndex.run fuel rnd TwoIndex.init inputs = Some (st, out0) ->
    JsObject.find_entry (TwoIndex.has_player socket st)
      (TwoIndex.activeSessionsByRoomCode st) = Some (code, a) ->
    TwoIndex.store st !! a = Some s ->
    JsObject.is_empty (JsObject.delete socket (TwoIndex.players s)) = true ->
    exists st1,
      TwoIndex.disconnect socket st =
        (st1, [ TwoIndex.Emit (ToRoom code) (TwoIndex.player_disconnected socket) ]) /\
      TwoIndex.timers st1 !! TwoIndex.next_timer st =
        Some {| TwoIndex.due := (TwoIndex.now st + 60000)%N; TwoIndex.session := a |} /\
      (forall ms, (ms < 60000)%N ->
         TwoIndex.timer_fires (TwoIndex.next_timer st) (TwoIndex.elapse ms st1) = None) /\
      (forall ms, (60000 <= ms)%N ->
         exists st2,
           TwoIndex.timer_fires (TwoIndex.next_timer st) (TwoIndex.elapse ms st1) =
             Some st2 /\
           JsObject.get code (TwoIndex.activeSessionsByRoomCode st2) = None /\
           JsObject.get (TwoIndex.quizId s) (TwoIndex.activeSessionsByQuizId st2) = None /\
           TwoIndex.timers st2 !! TwoIndex.next_timer st = None).
Proof.
  intros fuel rnd inputs st out0 socket code a s Hrun Hfind Hs Hempty.
  destruct (TwoIndex_run_keyed _ _ _ _ _ _ TwoIndex_init_keyed Hrun) as (_ & Hc & _).
  pose proof (find_entry_Some _ _ _ _ Hfind) as [_ Hin].
  destruct (Hc code a Hin) as (s' & Hs' & Hcode).
  rewrite Hs in Hs'. injection Hs' as <-.
  unfold TwoIndex.disconnect. rewrite Hfind, Hs, Hempty.
  eexists. split; [reflexivity|]. cbn [TwoIndex.timers TwoIndex.next_timer].
  split; [apply lookup_insert_eq|]. split.
  - intros ms Hms. unfold TwoIndex.timer_fires, TwoIndex.elapse.
    cbn [TwoIndex.timers TwoIndex.now]. rewrite lookup_insert_eq. cbn [TwoIndex.due].
    unfold cleanup_delay.
    assert ((TwoIndex.now st + 60000 <=? TwoIndex.now st + ms)%N = false) as ->
      by (apply N.leb_gt; lia).
    reflexivity.
  - intros ms Hms. unfold TwoIndex.timer_fires, TwoIndex.elapse.
    cbn [TwoIndex.timers TwoIndex.now]. rewrite lookup_insert_eq.
    cbn [TwoIndex.due TwoIndex.session TwoIndex.store].
    unfold cleanup_delay.
    assert ((TwoIndex.now st + 60000 <=? TwoIndex.now st + ms)%N = true) as ->
      by (apply N.leb_le; lia).
    rewrite lookup_insert_eq. eexists. split; [reflexivity|].
    cbn. rewrite Hcode.
    split; [apply get_delete_eq|]. split; [apply get_delete_eq|].
    apply lookup_delete_eq.
Qed.

Lemma last_leave_witness :
  exists st1 st2,
    fst (TwoIndex.disconnect "s1" two_room) = st1 /\
    TwoIndex.timer_fires 0 (TwoIndex.elapse 59999 st1) = None /\
    TwoIndex.timer_fires 0 (TwoIndex.elapse 60000 st1) = Some st2 /\
    JsObject.get "AAAAAA" (TwoIndex.activeSessionsByRoomCode st2) = None /\
    JsObject.get "quiz42" (TwoIndex.activeSessionsByQuizId st2) = None.
Proof.
  pose proof two_room_run as Hst.
  destruct (TwoIndex.run 1 by_attempt TwoIndex.init two_room_inputs) as [[st out]|] eqn:Hrun;
    [|discriminate Hst].
  simpl in Hst. injection Hst as ->.
  destruct (last_leave_evicts_after_a_minute _ _ _ _ _ "s1" "AAAAAA" 0 _ Hrun
              eq_refl eq_refl eq_refl)
    as (st1 & Hd & _ & Hearly & Hdue).
  destruct (Hdue 60000%N ltac:(lia)) as (st2 & Hfire & Hcode & Hquiz & _).
  exists st1, st2. rewrite Hd. split; [reflexivity|].
  split; [apply Hearly; lia|]. auto.
Defined.

(** X15.  The cleanup of server.ts and of the revision with scores for a
    quiz id that is not the empty string, on a state of a run.  The
    [disconnect] that empties the session leaves it in the registry, empty,
    with the handle of a timer due 60000 ms later.  The timer cannot fire
    before that; when it fires, neither the quiz id nor the room code
    resolves to a session.  A [request_session] for the quiz that comes
    first clears the timer, draws no code and puts the caller, alone, in the
    session with the room code it had. *)
Theorem cleanup_cycle_of_a_named_quiz :
  (forall fuel0 rnd inputs st out0 socket quiz session,
      Basic.run fuel0 rnd Basic.init inputs = Some (st, out0) ->
      JsObject.find_entry (Basic.has_player socket) (Basic.activeSessions st) =
        Some (quiz, session) ->
      JsObject.is_empty (JsObject.delete socket (Basic.players session)) = true ->
      quiz <> "" ->
      exists st1 out1,
        Basic.disconnect socket st = (st1, out1) /\
        Basic.byQuizId quiz st1 =
          Some {| Basic.roomCode := Basic.roomCode session; Basic.players := [];
                  Basic.cleanupTimeout := Some (Basic.next_timer st) |} /\
        Basic.timers st1 !! Basic.next_timer st =
          Some {| Basic.due := (Basic.now st + 60000)%N; Basic.quizIdToClean := quiz |} /\
        (forall ms, (ms < 60000)%N ->
           Basic.timer_fires (Basic.next_timer st) (Basic.elapse ms st1) = None) /\
        (forall ms, (60000 <= ms)%N ->
           exists st2,
             Basic.timer_fires (Basic.next_timer st) (Basic.elapse ms st1) = Some st2 /\
             Basic.byQuizId quiz st2 = None /\
             Basic.byRoomCode (Basic.roomCode session) st2 = None) /\
        (forall fuel joiner playerInfo,
           exists st2 out2,
             Basic.request_session fuel rnd joiner quiz playerInfo st1 = Some (st2, out2) /\
             Basic.byQuizId quiz st2 =
               Some {| Basic.roomCode := Basic.roomCode session;
                       Basic.players := [(joiner, playerInfo)];
                       Basic.cleanupTimeout := None |} /\
             Basic.timers st2 !! Basic.next_timer st = None /\
             Basic.draws st2 = Basic.draws st)) /\
  (forall fuel0 rnd inputs st out0 socket quiz session,
      Scored.run fuel0 rnd Scored.init inputs = Some (st, out0) ->
      JsObject.find_entry (Scored.has_player socket) (Scored.activeSessions st) =
        Some (quiz, session) ->
      JsObject.is_empty (JsObject.delete socket (Scored.players session)) = true ->
      quiz <> "" ->
      exists st1 out1,
        Scored.disconnect socket st = (st1, out1) /\
        Scored.byQuizId quiz st1 =
          Some {| Scored.roomCode := Scored.roomCode session; Scored.players := [];
                  Scored.cleanupTimeout := Some (Scored.next_timer st) |} /\
        Scored.timers st1 !! Scored.next_timer st =
          Some {| Scored.due := (Scored.now st + 60000)%N; Scored.quizIdToClean := quiz |} /\
        (forall ms, (ms < 60000)%N ->
           Scored.timer_fires (Scored.next_timer st) (Scored.elapse ms st1) = None) /\
        (forall ms, (60000 <= ms)%N ->
           exists st2,
             Scored.timer_fires (Scored.next_timer st) (Scored.elapse ms st1) = Some st2 /\
             Scored.byQuizId quiz st2 = None /\
             Scored.byRoomCode (Scored.roomCode session) st2 = None) /\
        (forall fuel joiner playerInfo,
           exists st2 out2,
             Scored.request_session fuel rnd joiner quiz playerInfo st1 = Some (st2, out2) /\
             Scored.byQuizId quiz st2 =
               Some {| Scored.roomCode := Scored.roomCode session;
                       Scored.players := [(joiner, Scored.joined playerInfo)];
                       Scored.cleanupTimeout := None |} /\
             Scored.timers st2 !! Scored.next_timer st = None /\
             Scored.draws st2 = Scored.draws st)).
Proof.
  split.
  - intros fuel0 rnd inputs st out0 socket quiz session Hrun Hfind Hempty Hquiz.
    pose proof (Basic_run_wf _ _ _ _ _ _ Basic_init_wf Hrun) as Hwf.
    destruct (Basic.disconnect socket st) as [st1 out1] eqn:Hd.
    assert (Basic_wf st1) as [_ Hc1].
    { apply (Basic_step_wf fuel0 rnd st (Basic.Disconnect socket) st1 out1 Hwf).
      simpl. rewrite Hd. reflexivity. }
    destruct Hwf as [Hk _].
    pose proof (find_entry_Some _ _ _ _ Hfind) as [_ Hin].
    pose proof (get_In_NoDup _ _ _ Hk Hin) as Hs.
    unfold Basic.disconnect in Hd. rewrite Hfind, Hempty in Hd.
    assert (truthy_opt_string (Some quiz) = true) as Htruthy
      by (destruct quiz; [congruence|reflexivity]).
    rewrite Htruthy in Hd. injection Hd as <- <-.
    apply is_empty_nil in Hempty.
    assert (Basic.byQuizId quiz
              {| Basic.activeSessions :=
                   JsObject.modify_first (Basic.has_player socket)
                     (fun s => Basic.set_cleanupTimeout (Some (Basic.next_timer st))
                                 (Basic.set_players
                                    (JsObject.delete socket (Basic.players session)) s))
                     (Basic.activeSessions st);
                 Basic.timers :=
                   <[ Basic.next_timer st :=
                        {| Basic.due := (Basic.now st + cleanup_delay)%N;
                           Basic.quizIdToClean := quiz |} ]> (Basic.timers st);
                 Basic.next_timer := S (Basic.next_timer st);
                 Basic.draws := Basic.draws st; Basic.now := Basic.now st |} =
            Some {| Basic.roomCode := Basic.roomCode session; Basic.players := [];
                    Basic.cleanupTimeout := Some (Basic.next_timer st) |}) as Hs1.
    { unfold Basic.byQuizId. cbn [Basic.activeSessions].
      rewrite (get_modify_first_hit _ _ _ _ _ Hfind Hs).
      unfold Basic.set_cleanupTimeout, Basic.set_players. cbn. rewrite Hempty. reflexivity. }
    eexists _, _. split; [reflexivity|]. split; [exact Hs1|].
    cbn [Basic.timers]. split; [apply lookup_insert_eq|]. split; [|split].
    + intros ms Hms. unfold Basic.timer_fires, Basic.elapse.
      cbn [Basic.timers Basic.now]. rewrite lookup_insert_eq. cbn [Basic.due].
      unfold cleanup_delay.
      assert ((Basic.now st + 60000 <=? Basic.now st + ms)%N = false) as ->
        by (apply N.leb_gt; lia).
      reflexivity.
    + intros ms Hms. unfold Basic.timer_fires, Basic.elapse.
      cbn [Basic.timers Basic.now]. rewrite lookup_insert_eq.
      cbn [Basic.due Basic.quizIdToClean Basic.activeSessions]. unfold cleanup_delay.
      assert ((Basic.now st + 60000 <=? Basic.now st + ms)%N = true) as ->
        by (apply N.leb_le; lia).
      eexists. split; [reflexivity|].
      unfold Basic.byQuizId, Basic.byRoomCode. cbn [Basic.activeSessions].
      split; [apply get_delete_eq|].
      unfold Basic.byQuizId in Hs1. cbn [Basic.activeSessions] in Hs1.
      apply get_In in Hs1. cbn [Basic.activeSessions] in Hc1.
      apply (find_value_delete_by_image Basic.roomCode _ _ _ _ Hc1 Hs1). reflexivity.
    + intros fuel joiner playerInfo. unfold Basic.request_session.
      unfold Basic.byQuizId in Hs1. cbn [Basic.activeSessions] in Hs1.
      cbn [Basic.activeSessions]. rewrite Hs1.
      eexists _, _. split; [reflexivity|].
      unfold Basic.byQuizId. cbn.
      split; [apply get_set_eq|]. split; [apply lookup_delete_eq|reflexivity].
  - intros fuel0 rnd inputs st out0 socket quiz session Hrun Hfind Hempty Hquiz.
    pose proof (Scored_run_wf _ _ _ _ _ _ Scored_init_wf Hrun) as Hwf.
    destruct (Scored.disconnect socket st) as [st1 out1] eqn:Hd.
    assert (Scored_wf st1) as [_ Hc1].
    { apply (Scored_step_wf fuel0 rnd st (Scored.Disconnect socket) st1 out1 Hwf).
      simpl. rewrite Hd. reflexivity. }
    destruct Hwf as [Hk _].
    pose proof (find_entry_Some _ _ _ _ Hfind) as [_ Hin].
    pose proof (get_In_NoDup _ _ _ Hk Hin) as Hs.
    unfold Scored.disconnect in Hd. rewrite Hfind, Hempty in Hd.
    assert (truthy_opt_string (Some quiz) = true) as Htruthy
      by (destruct quiz; [congruence|reflexivity]).
    rewrite Htruthy in Hd. injection Hd as <- <-.
    apply is_empty_nil in Hempty.
    assert (Scored.byQuizId quiz
              {| Scored.activeSessions :=
                   JsObject.modify_first (Scored.has_player socket)
                     (fun s => Scored.set_cleanupTimeout (Some (Scored.next_timer st))
                                 (Scored.set_players
                                    (JsObject.delete socket (Scored.players session)) s))
                     (Scored.activeSessions st);
                 Scored.timers :=
                   <[ Scored.next_timer st :=
                        {| Scored.due := (Scored.now st + cleanup_delay)%N;
                           Scored.quizIdToClean := quiz |} ]> (Scored.timers st);
                 Scored.next_timer := S (Scored.next_timer st);
                 Scored.draws := Scored.draws st; Scored.now := Scored.now st |} =
            Some {| Scored.roomCode := Scored.roomCode session; Scored.players := [];
                    Scored.cleanupTimeout := Some (Scored.next_timer st) |}) as Hs1.
    { unfold Scored.byQuizId. cbn [Scored.activeSessions].
      rewrite (get_modify_first_hit _ _ _ _ _ Hfind Hs).
      unfold Scored.set_cleanupTimeout, Scored.set_players. cbn. rewrite Hempty. reflexivity. }
    eexists _, _. split; [reflexivity|]. split; [exact Hs1|].
    cbn [Scored.timers]. split; [apply lookup_insert_eq|]. split; [|split].
    + intros ms Hms. unfold Scored.timer_fires, Scored.elapse.
      cbn [Scored.timers Scored.now]. rewrite lookup_insert_eq. cbn [Scored.due].
      unfold cleanup_delay.
      assert ((Scored.now st + 60000 <=? Scored.now st + ms)%N = false) as ->
        by (apply N.leb_gt; lia).
      reflexivity.
    + intros ms Hms. unfold Scored.timer_fires, Scored.elapse.
      cbn [Scored.timers Scored.now]. rewrite lookup_insert_eq.
      cbn [Scored.due Scored.quizIdToClean Scored.activeSessions]. unfold cleanup_delay.
      assert ((Scored.now st + 60000 <=? Scored.now st + ms)%N = true) as ->
        by (apply N.leb_le; lia).
      eexists. split; [reflexivity|].
      unfold Scored.byQuizId, Scored.byRoomCode. cbn [Scored.activeSessions].
      split; [apply get_delete_eq|].
      unfold Scored.byQuizId in Hs1. cbn [Scored.activeSessions] in Hs1.
      apply get_In in Hs1. cbn [Scored.activeSessions] in Hc1.
      apply (find_value_delete_by_image Scored.roomCode _ _ _ _ Hc1 Hs1). reflexivity.
    + intros fuel joiner playerInfo. unfold Scored.request_session.
      unfold Scored.byQuizId in Hs1. cbn [Scored.activeSessions] in Hs1.
      cbn [Scored.activeSessions]. rewrite Hs1.
      eexists _, _. split; [reflexivity|].
      unfold Scored.byQuizId. cbn.
      split; [apply get_set_eq|]. split; [apply lookup_delete_eq|reflexivity].
Qed.

Lemma cleanup_cycle_witness :
  exists st st1 st2 st3,
    option_map fst
      (Basic.run 1 by_attempt Basic.init [ Basic.RequestSession "s1" "quiz42" basic_ann ]) =
      Some st /\
    fst (Basic.disconnect "s1" st) = st1 /\
    Basic.timer_fires 0 (Basic.elapse 59999 st1) = None /\
    Basic.timer_fires 0 (Basic.elapse 60000 st1) = Some st2 /\
    Basic.byRoomCode "AAAAAA" st2 = None /\
    option_map fst (Basic.request_session 1 by_attempt "s2" "quiz42" basic_bob st1) =
      Some st3 /\
    Basic.byQuizId "quiz42" st3 =
      Some {| Basic.roomCode := "AAAAAA"; Basic.players := [("s2", basic_bob)];
              Basic.cleanupTimeout := None |}.
Proof.
  assert (option_map fst
            (Basic.run 1 by_attempt Basic.init [ Basic.RequestSession "s1" "quiz42" basic_ann ]) =
          Some {| Basic.activeSessions :=
                    [("quiz42",
                      {| Basic.roomCode := "AAAAAA"; Basic.players := [("s1", basic_ann)];
                         Basic.cleanupTimeout := None |})];
                  Basic.timers := ∅; Basic.next_timer := 0; Basic.draws := 6;
                  Basic.now := 0%N |}) as Hst by reflexivity.
  destruct (Basic.run 1 by_attempt Basic.init [ Basic.RequestSession "s1" "quiz42" basic_ann ])
    as [[st out]|] eqn:Hrun; [|discriminate Hst].
  simpl in Hst. injection Hst as ->.
  assert ("quiz42" <> "") as Hquiz by discriminate.
  destruct cleanup_cycle_of_a_named_quiz as [HB _].
  destruct (HB _ _ _ _ _ "s1" "quiz42" _ Hrun eq_refl eq_refl Hquiz)
    as (st1 & out1 & Hd & _ & _ & Hearly & Hdue & Hjoin).
  destruct (Hdue 60000%N ltac:(lia)) as (st2 & Hfire & _ & Hcode).
  destruct (Hjoin 1 "s2" basic_bob) as (st3 & out3 & Hreq & Hs3 & _).
  eexists _, st1, st2, st3. split; [reflexivity|].
  split; [exact (f_equal fst Hd)|]. split; [apply Hearly; lia|].
  split; [exact Hfire|]. split; [exact Hcode|].
  rewrite Hreq. split; [reflexivity|exact Hs3].
Defined.

Lemma append_empty_r (s : string) : String.append s EmptyString = s.
Proof.
  induction s as [|c s IH]; [reflexivity|].
  change (String c (String.append s EmptyString) = String c s). f_equal. exact IH.
Qed.

Lemma append_append (s1 s2 s3 : string) :
  String.append (String.append s1 s2) s3 = String.append s1 (String.append s2 s3).
Proof.
  induction s1 as [|c s1 IH]; [reflexivity|].
  change (String c (String.append (String.append s1 s2) s3) =
          String c (String.append s1 (String.append s2 s3))).
  f_equal. exact IH.
Qed.

(** The loop appends to the code it is given. *)
Lemma draw_append n : forall rnd cur code,
  RoomCode.draw n rnd cur code =
  String.append code (RoomCode.draw n rnd cur EmptyString).
Proof.
  induction n as [|n IH]; intros rnd cur code; simpl.
  - symmetry. apply append_empty_r.
  - rewrite IH.
    rewrite (IH rnd (S cur)
               (String.append EmptyString (RoomCode.charAt (rnd cur) RoomCode.chars))).
    change (String.append EmptyString (RoomCode.charAt (rnd cur) RoomCode.chars))
      with (RoomCode.charAt (rnd cur) RoomCode.chars).
    apply append_append.
Qed.

(** Two positions of the alphabet that hold the same symbol are the same
    position. *)
Lemma charAt_inj i j :
  i < 34 -> j < 34 ->
  RoomCode.charAt i RoomCode.chars = RoomCode.charAt j RoomCode.chars -> i = j.
Proof.
  intros Hi Hj.
  do 34 (destruct i as [|i];
         [do 34 (destruct j as [|j]; [vm_compute; congruence|]); lia|]).
  lia.
Qed.

Lemma draw_determines_its_draws n : forall rnd1 rnd2 cur1 cur2,
  (forall i, i < n -> rnd1 (cur1 + i) < 34) ->
  (forall i, i < n -> rnd2 (cur2 + i) < 34) ->
  (RoomCode.draw n rnd1 cur1 EmptyString = RoomCode.draw n rnd2 cur2 EmptyString <->
   forall i, i < n -> rnd1 (cur1 + i) = rnd2 (cur2 + i)).
Proof.
  induction n as [|n IH]; intros rnd1 rnd2 cur1 cur2 H1 H2.
  - split; [intros _ i Hi; lia|reflexivity].
  - pose proof (H1 0 ltac:(lia)) as Hr1. pose proof (H2 0 ltac:(lia)) as Hr2.
    rewrite Nat.add_0_r in Hr1, Hr2.
    assert (forall i, i < n -> rnd1 (S cur1 + i) < 34) as H1'
      by (intros i Hi; replace (S cur1 + i) with (cur1 + S i) by lia; apply H1; lia).
    assert (forall i, i < n -> rnd2 (S cur2 + i) < 34) as H2'
      by (intros i Hi; replace (S cur2 + i) with (cur2 + S i) by lia; apply H2; lia).
    specialize (IH rnd1 rnd2 (S cur1) (S cur2) H1' H2').
    destruct (charAt_in_range (rnd1 cur1) Hr1) as (c1 & Hc1 & _).
    destruct (charAt_in_range (rnd2 cur2) Hr2) as (c2 & Hc2 & _).
    cbn [RoomCode.draw String.append].
    rewrite (draw_append n rnd1), (draw_append n rnd2), Hc1, Hc2.
    cbn [String.append]. split.
    + intros Heq. injection Heq as Hc Htail.
      assert (rnd1 cur1 = rnd2 cur2) as Hhead
        by (apply charAt_inj; [assumption|assumption|congruence]).
      pose proof (proj1 IH Htail) as Hrest. intros [|i] Hi.
      * rewrite !Nat.add_0_r. exact Hhead.
      * replace (cur1 + S i) with (S cur1 + i) by lia.
        replace (cur2 + S i) with (S cur2 + i) by lia. apply Hrest. lia.
    + intros Hall.
      assert (rnd1 cur1 = rnd2 cur2) as Hhead
        by (specialize (Hall 0 ltac:(lia)); rewrite !Nat.add_0_r in Hall; exact Hall).
      assert (c1 = c2) as -> by (rewrite Hhead in Hc1; congruence).
      f_equal. refine (proj2 IH _). intros i Hi.
      replace (S cur1 + i) with (cur1 + S i) by lia.
      replace (S cur2 + i) with (cur2 + S i) by lia. apply Hall. lia.
Qed.

(** X16.  The candidate code of [generateRoomCode] and its six draws
    determine each other: with draws below 34, as [Math.floor(Math.random()
    * chars.length)] gives them, two attempts build the same code exactly
    when they made the same six draws, in order.  No two of the 34^6
    sequences of draws collide on a code, because no symbol occurs twice in
    [chars]. *)
Theorem candidate_determines_its_draws :
  forall rnd1 rnd2 cur1 cur2,
    (forall i, i < 6 -> rnd1 (cur1 + i) < 34) ->
    (forall i, i < 6 -> rnd2 (cur2 + i) < 34) ->
    (RoomCode.candidate rnd1 cur1 = RoomCode.candidate rnd2 cur2 <->
     forall i, i < 6 -> rnd1 (cur1 + i) = rnd2 (cur2 + i)).
Proof.
  intros rnd1 rnd2 cur1 cur2 H1 H2. unfold RoomCode.candidate.
  apply draw_determines_its_draws; assumption.
Qed.

Lemma candidate_witness :
  RoomCode.candidate by_attempt 0 = RoomCode.candidate (fun _ => 0) 17.
Proof.
  apply (candidate_determines_its_draws by_attempt (fun _ => 0) 0 17).
  - intros i Hi. do 6 (destruct i as [|i]; [cbv; lia|]). lia.
  - intros i Hi. lia.
  - intros i Hi. do 6 (destruct i as [|i]; [reflexivity|]). lia.
Defined.

Section JsObjectSteps.
Context {V : Type}.
Implicit Types (o : jsobj V) (k : string) (v : V).

(** What a property holds after the in-place mutation of the first value
    that satisfies [p]: what it held, unless it is the property of that
    value. *)
Lemma get_modify_first_cases o (p : V -> bool) (f : V -> V) k v v' :
  JsObject.get k o = Some v ->
  JsObject.get k (JsObject.modify_first p f o) = Some v' ->
  v' = v \/ (v' = f v /\ JsObject.find_entry p o = Some (k, v)).
Proof.
  induction o as [|[k0 v0] o IH]; simpl; [discriminate|].
  destruct (p v0) eqn:Hp; simpl.
  - destruct (String.eqb_spec k k0) as [->|Hne].
    + intros [= ->] [= <-]. right. split; reflexivity.
    + intros H1 H2. left. congruence.
  - destruct (String.eqb_spec k k0) as [->|Hne].
    + intros [= ->] [= <-]. left. reflexivity.
    + exact IH.
Qed.

Lemma get_modify_first_None o (p : V -> bool) (f : V -> V) k :
  JsObject.get k o = None -> JsObject.get k (JsObject.modify_first p f o) = None.
Proof.
  intros H. apply get_None_keys. rewrite keys_modify_first.
  apply get_None_keys. exact H.
Qed.

End JsObjectSteps.

(** X17.  In the revision with an admin, one step of the server leaves the
    identity of every session that stays registered as it was: the session
    found under a quiz id after the step has the room code and the [quizId]
    field of the session found there before, and its admin token is the one
    it had or has been cleared.  No handler binds an admin token to a
    session that exists. *)
Theorem registered_session_keeps_its_identity :
  forall fuel rnd st i st' out quiz s s',
    Admin.step fuel rnd st i = Some (st', out) ->
    Admin.byQuizId quiz st = Some s ->
    Admin.byQuizId quiz st' = Some s' ->
    Admin.roomCode s' = Admin.roomCode s /\
    Admin.quizId s' = Admin.quizId s /\
    (Admin.adminToken s' = Admin.adminToken s \/ Admin.adminToken s' = None).
Proof.
  intros fuel rnd st i st' out quiz s s' Hstep Hs Hs'.
  unfold Admin.byQuizId in Hs, Hs'.
  assert (forall p f,
             JsObject.get quiz (JsObject.modify_first p f (Admin.activeSessions st)) =
               Some s' ->
             s' = s \/ (s' = f s /\
                        JsObject.find_entry p (Admin.activeSessions st) = Some (quiz, s)))
    as Hcases by (intros p f; apply get_modify_first_cases; exact Hs).
  destruct i as [socket quiz0 playerInfo token|socket code nx ny|socket code n
                |socket code token|id o|socket|h|ms]; simpl in Hstep.
  - unfold Admin.request_session in Hstep.
    destruct (JsObject.get quiz0 (Admin.activeSessions st)) as [s0|] eqn:Hq0.
    + injection Hstep as <- <-. cbn [Admin.activeSessions] in Hs'.
      destruct (String.eqb_spec quiz0 quiz) as [->|Hne].
      * rewrite get_set_eq in Hs'. injection Hs' as <-.
        rewrite Hs in Hq0. injection Hq0 as <-. cbn. auto.
      * rewrite get_set_ne in Hs' by exact Hne.
        rewrite Hs in Hs'. injection Hs' as <-. auto.
    + destruct (JsObject.inherited quiz0); [discriminate|].
      destruct (Admin.generateRoomCode fuel rnd st) as [[code d]|]; [|discriminate].
      injection Hstep as <- <-. cbn [Admin.activeSessions] in Hs'.
      destruct (String.eqb_spec quiz0 quiz) as [->|Hne]; [congruence|].
      rewrite get_set_ne in Hs' by exact Hne.
      rewrite Hs in Hs'. injection Hs' as <-. auto.
  - unfold Admin.player_movement in Hstep.
    destruct (JsObject.find_value _ _) as [s0|];
      [destruct (JsObject.get socket _) as [p|]|];
      injection Hstep as <- <-;
      try (rewrite Hs in Hs'; injection Hs' as <-; auto).
    cbn [Admin.set_activeSessions Admin.activeSessions] in Hs'.
    destruct (Hcases _ _ Hs') as [->|[-> _]]; cbn; auto.
  - unfold Admin.update_score in Hstep.
    destruct (JsObject.find_value _ _) as [s0|];
      [destruct (JsObject.get socket _) as [p|]|];
      injection Hstep as <- <-;
      try (rewrite Hs in Hs'; injection Hs' as <-; auto).
    cbn [Admin.set_activeSessions Admin.activeSessions] in Hs'.
    destruct (Hcases _ _ Hs') as [->|[-> _]]; cbn; auto.
  - unfold Admin.admin_end_quiz in Hstep.
    destruct (JsObject.find_value _ _) as [s0|];
      [destruct (opt_string_eqb _ _)|];
      injection Hstep as <- <-; cbn [Admin.activeSessions] in Hs';
      rewrite Hs in Hs'; injection Hs' as <-; auto.
  - unfold Admin.fetch_settles in Hstep.
    destruct (Admin.fetches st !! id) as [k|]; [|discriminate].
    destruct o as [|[errorData|]|]; injection Hstep as <- <-;
      cbn [Admin.activeSessions] in Hs';
      try apply get_delete_subset in Hs';
      rewrite Hs in Hs'; injection Hs' as <-; auto.
  - unfold Admin.disconnect in Hstep.
    destruct (JsObject.find_entry _ _) as [[q ses]|] eqn:Hfind.
    + destruct (truthy_opt_string _); injection Hstep as <- <-;
        cbn [Admin.set_activeSessions Admin.activeSessions] in Hs';
        (destruct (Hcases _ _ Hs') as [->|[-> Hhit]]; [auto|]);
        rewrite Hfind in Hhit; injection Hhit as -> ->; cbn;
        (split; [reflexivity|]); (split; [reflexivity|]);
        destruct (truthy_opt_string (Admin.adminToken s) && _); auto.
    + injection Hstep as <- <-. rewrite Hs in Hs'. injection Hs' as <-. auto.
  - unfold Admin.timer_fires in Hstep.
    destruct (Admin.timers st !! h) as [tm|]; [|discriminate].
    destruct (Admin.due tm <=? Admin.now st)%N; [|discriminate].
    injection Hstep as <- <-. cbn [Admin.activeSessions] in Hs'.
    apply get_delete_subset in Hs'. rewrite Hs in Hs'. injection Hs' as <-. auto.
  - injection Hstep as <- <-. cbn [Admin.elapse Admin.activeSessions] in Hs'.
    rewrite Hs in Hs'. injection Hs' as <-. auto.
Qed.

Lemma registered_session_witness :
  exists s',
    Admin.byQuizId "quiz42" (fst (Admin.disconnect "s1" admin_room)) = Some s' /\
    Admin.roomCode s' = "AAAAAA" /\ Admin.quizId s' = "quiz42" /\
    (Admin.adminToken s' = Some "secret" \/ Admin.adminToken s' = None).
Proof.
  assert (Admin.step 1 by_attempt admin_room (Admin.Disconnect "s1") =
          Some (fst (Admin.disconnect "s1" admin_room),
                snd (Admin.disconnect "s1" admin_room))) as Hstep by reflexivity.
  destruct (Admin.byQuizId "quiz42" (fst (Admin.disconnect "s1" admin_room)))
    as [s'|] eqn:Hs'; [|discriminate Hs'].
  exists s'. split; [reflexivity|].
  exact (registered_session_keeps_its_identity _ _ _ _ _ _ "quiz42" _ s'
           Hstep eq_refl Hs').
Defined.

(** X18.  A session enters the registry in one way only.  In server.ts, in
    the revision with scores and in the revision with an admin, when a step
    of the server makes a quiz id resolve to a session that it did not
    resolve to before, the step is a [request_session] for that quiz id; the
    session holds the caller as its only player, has no cleanup timer, bears
    a room code that no session of the registry bore, and (with an admin)
    records the quiz id and the token of a caller whose role is admin.  The
    pending timers are the same. *)
Theorem session_enters_by_request_only :
  (forall fuel rnd st i st' out quiz s',
      Basic.step fuel rnd st i = Some (st', out) ->
      Basic.byQuizId quiz st = None ->
      Basic.byQuizId quiz st' = Some s' ->
      exists socket playerInfo,
        i = Basic.RequestSession socket quiz playerInfo /\
        Basic.players s' = [(socket, playerInfo)] /\
        Basic.cleanupTimeout s' = None /\
        Basic.isCodeInUse (Basic.activeSessions st) (Basic.roomCode s') = false /\
        Basic.timers st' = Basic.timers st) /\
  (forall fuel rnd st i st' out quiz s',
      Scored.step fuel rnd st i = Some (st', out) ->
      Scored.byQuizId quiz st = None ->
      Scored.byQuizId quiz st' = Some s' ->
      exists socket playerInfo,
        i = Scored.RequestSession socket quiz playerInfo /\
        Scored.players s' = [(socket, Scored.joined playerInfo)] /\
        Scored.cleanupTimeout s' = None /\
        Scored.isCodeInUse st (Scored.roomCode s') = false /\
        Scored.timers st' = Scored.timers st) /\
  (forall fuel rnd st i st' out quiz s',
      Admin.step fuel rnd st i = Some (st', out) ->
      Admin.byQuizId quiz st = None ->
      Admin.byQuizId quiz st' = Some s' ->
      exists socket playerInfo token,
        i = Admin.RequestSession socket quiz playerInfo token /\
        Admin.players s' = [(socket, Admin.joined playerInfo)] /\
        Admin.cleanupTimeout s' = None /\
        Admin.quizId s' = quiz /\
        Admin.adminToken s' = (if Admin.is_admin playerInfo then token else None) /\
        Admin.isCodeInUse st (Admin.roomCode s') = false /\
        Admin.timers st' = Admin.timers st).
Proof.
  split; [|split].
  - intros fuel rnd st i st' out quiz s' Hstep Hs Hs'.
    unfold Basic.byQuizId in Hs, Hs'.
    assert (forall p f,
               JsObject.get quiz (JsObject.modify_first p f (Basic.activeSessions st)) = None)
      as Hkeep by (intros p f; apply get_modify_first_None; exact Hs).
    destruct i as [socket quiz0 playerInfo|socket code nx ny|socket|h|ms]; simpl in Hstep.
    + unfold Basic.request_session in Hstep.
      destruct (JsObject.get quiz0 (Basic.activeSessions st)) as [s0|] eqn:Hq0.
      * injection Hstep as <- <-. cbn [Basic.activeSessions] in Hs'.
        destruct (String.eqb_spec quiz0 quiz) as [->|Hne]; [congruence|].
        rewrite get_set_ne in Hs' by exact Hne. congruence.
      * destruct (JsObject.inherited quiz0); [discriminate|].
        destruct (Basic.generateRoomCode fuel rnd (Basic.activeSessions st) (Basic.draws st)) as [[code d]|] eqn:Hgen;
          [|discriminate].
        injection Hstep as <- <-. cbn [Basic.activeSessions] in Hs'.
        destruct (String.eqb_spec quiz0 quiz) as [->|Hne].
        -- rewrite get_set_eq in Hs'. injection Hs' as <-.
           exists socket, playerInfo. split; [reflexivity|]. cbn.
           do 2 (split; [reflexivity|]).
           split; [|reflexivity].
           unfold Basic.generateRoomCode in Hgen.
           apply generate_sound in Hgen as [Hfree _]. exact Hfree.
        -- rewrite get_set_ne in Hs' by exact Hne. congruence.
    + unfold Basic.player_movement in Hstep.
      destruct (JsObject.find_value _ _) as [s0|];
        [destruct (JsObject.get socket _) as [p|]|];
        injection Hstep as <- <-;
        cbn [Basic.set_activeSessions Basic.activeSessions] in Hs';
        try rewrite Hkeep in Hs'; congruence.
    + unfold Basic.disconnect in Hstep.
      destruct (JsObject.find_entry _ _) as [[q ses]|].
      * destruct (truthy_opt_string _); injection Hstep as <- <-;
          cbn [Basic.set_activeSessions Basic.activeSessions] in Hs';
          rewrite Hkeep in Hs'; discriminate.
      * injection Hstep as <- <-. congruence.
    + unfold Basic.timer_fires in Hstep.
      destruct (Basic.timers st !! h) as [tm|]; [|discriminate].
      destruct (Basic.due tm <=? Basic.now st)%N; [|discriminate].
      injection Hstep as <- <-. cbn [Basic.activeSessions] in Hs'.
      apply get_delete_subset in Hs'. congruence.
    + injection Hstep as <- <-. cbn [Basic.elapse Basic.activeSessions] in Hs'. congruence.
  - intros fuel rnd st i st' out quiz s' Hstep Hs Hs'.
    unfold Scored.byQuizId in Hs, Hs'.
    assert (forall p f,
               JsObject.get quiz (JsObject.modify_first p f (Scored.activeSessions st)) = None)
      as Hkeep by (intros p f; apply get_modify_first_None; exact Hs).
    destruct i as [socket quiz0 playerInfo|socket code nx ny|socket code n|socket|h|ms]; simpl in Hstep.
    + unfold Scored.request_session in Hstep.
      destruct (JsObject.get quiz0 (Scored.activeSessions st)) as [s0|] eqn:Hq0.
      * injection Hstep as <- <-. cbn [Scored.activeSessions] in Hs'.
        destruct (String.eqb_spec quiz0 quiz) as [->|Hne]; [congruence|].
        rewrite get_set_ne in Hs' by exact Hne. congruence.
      * destruct (JsObject.inherited quiz0); [discriminate|].
        destruct (Scored.generateRoomCode fuel rnd st) as [[code d]|] eqn:Hgen;
          [|discriminate].
        injection Hstep as <- <-. cbn [Scored.activeSessions] in Hs'.
        destruct (String.eqb_spec quiz0 quiz) as [->|Hne].
        -- rewrite get_set_eq in Hs'. injection Hs' as <-.
           exists socket, playerInfo. split; [reflexivity|]. cbn.
           do 2 (split; [reflexivity|]).
           split; [|reflexivity].
           unfold Scored.generateRoomCode in Hgen.
           apply generate_sound in Hgen as [Hfree _]. exact Hfree.
        -- rewrite get_set_ne in Hs' by exact Hne. congruence.
    + unfold Scored.player_movement in Hstep.
      destruct (JsObject.find_value _ _) as [s0|];
        [destruct (JsObject.get socket _) as [p|]|];
        injection Hstep as <- <-;
        cbn [Scored.set_activeSessions Scored.activeSessions] in Hs';
        try rewrite Hkeep in Hs'; congruence.
    + unfold Scored.update_score in Hstep.
      destruct (JsObject.find_value _ _) as [s0|];
        [destruct (JsObject.get socket _) as [p|]|];
        injection Hstep as <- <-;
        cbn [Scored.set_activeSessions Scored.activeSessions] in Hs';
        try rewrite Hkeep in Hs'; congruence.
    + unfold Scored.disconnect in Hstep.
      destruct (JsObject.find_entry _ _) as [[q ses]|].
      * destruct (truthy_opt_string _); injection Hstep as <- <-;
          cbn [Scored.set_activeSessions Scored.activeSessions] in Hs';
          rewrite Hkeep in Hs'; discriminate.
      * injection Hstep as <- <-. congruence.
    + unfold Scored.timer_fires in Hstep.
      destruct (Scored.timers st !! h) as [tm|]; [|discriminate].
      destruct (Scored.due tm <=? Scored.now st)%N; [|discriminate].
      injection Hstep as <- <-. cbn [Scored.activeSessions] in Hs'.
      apply get_delete_subset in Hs'. congruence.
    + injection Hstep as <- <-. cbn [Scored.elapse Scored.activeSessions] in Hs'. congruence.
  - intros fuel rnd st i st' out quiz s' Hstep Hs Hs'.
    unfold Admin.byQuizId in Hs, Hs'.
    assert (forall p f,
               JsObject.get quiz (JsObject.modify_first p f (Admin.activeSessions st)) = None)
      as Hkeep by (intros p f; apply get_modify_first_None; exact Hs).
    destruct i as [socket quiz0 playerInfo token|socket code nx ny|socket code n|socket code token|id o|socket|h|ms]; simpl in Hstep.
    + unfold Admin.request_session in Hstep.
      destruct (JsObject.get quiz0 (Admin.activeSessions st)) as [s0|] eqn:Hq0.
      * injection Hstep as <- <-. cbn [Admin.activeSessions] in Hs'.
        destruct (String.eqb_spec quiz0 quiz) as [->|Hne]; [congruence|].
        rewrite get_set_ne in Hs' by exact Hne. congruence.
      * destruct (JsObject.inherited quiz0); [discriminate|].
        destruct (Admin.generateRoomCode fuel rnd st) as [[code d]|] eqn:Hgen;
          [|discriminate].
        injection Hstep as <- <-. cbn [Admin.activeSessions] in Hs'.
        destruct (String.eqb_spec quiz0 quiz) as [->|Hne].
        -- rewrite get_set_eq in Hs'. injection Hs' as <-.
           exists socket, playerInfo, token. split; [reflexivity|]. cbn.
           do 4 (split; [reflexivity|]).
           split; [|reflexivity].
           unfold Admin.generateRoomCode in Hgen.
           apply generate_sound in Hgen as [Hfree _]. exact Hfree.
        -- rewrite get_set_ne in Hs' by exact Hne. congruence.
    + unfold Admin.player_movement in Hstep.
      destruct (JsObject.find_value _ _) as [s0|];
        [destruct (JsObject.get socket _) as [p|]|];
        injection Hstep as <- <-;
        cbn [Admin.set_activeSessions Admin.activeSessions] in Hs';
        try rewrite Hkeep in Hs'; congruence.
    + unfold Admin.update_score in Hstep.
      destruct (JsObject.find_value _ _) as [s0|];
        [destruct (JsObject.get socket _) as [p|]|];
        injection Hstep as <- <-;
        cbn [Admin.set_activeSessions Admin.activeSessions] in Hs';
        try rewrite Hkeep in Hs'; congruence.
    + unfold Admin.admin_end_quiz in Hstep.
      destruct (JsObject.find_value _ _) as [s0|];
        [destruct (opt_string_eqb _ _)|];
        injection Hstep as <- <-; cbn [Admin.activeSessions] in Hs'; congruence.
    + unfold Admin.fetch_settles in Hstep.
      destruct (Admin.fetches st !! id) as [k|]; [|discriminate].
      destruct o as [|[errorData|]|]; injection Hstep as <- <-;
        cbn [Admin.activeSessions] in Hs';
        try apply get_delete_subset in Hs'; congruence.
    + unfold Admin.disconnect in Hstep.
      destruct (JsObject.find_entry _ _) as [[q ses]|].
      * destruct (truthy_opt_string _); injection Hstep as <- <-;
          cbn [Admin.set_activeSessions Admin.activeSessions] in Hs';
          rewrite Hkeep in Hs'; discriminate.
      * injection Hstep as <- <-. congruence.
    + unfold Admin.timer_fires in Hstep.
      destruct (Admin.timers st !! h) as [tm|]; [|discriminate].
      destruct (Admin.due tm <=? Admin.now st)%N; [|discriminate].
      injection Hstep as <- <-. cbn [Admin.activeSessions] in Hs'.
      apply get_delete_subset in Hs'. congruence.
    + injection Hstep as <- <-. cbn [Admin.elapse Admin.activeSessions] in Hs'. congruence.
Qed.

(** X19.  A session leaves the registry in the ways below only.  When a
    step of the server makes a quiz id stop resolving to a session, the step
    is the callback of a pending cleanup timer armed for that quiz id and
    due by now, or, in the revision with an admin, the settling with an ok
    response of a finalization begun on a session with that [quizId].  No
    [disconnect], however many players it leaves, removes a session by
    itself. *)
Theorem session_leaves_by_timer_or_finalization_only :
  (forall fuel rnd st i st' out quiz s,
      Basic.step fuel rnd st i = Some (st', out) ->
      Basic.byQuizId quiz st = Some s ->
      Basic.byQuizId quiz st' = None ->
      (exists h tm,
          i = Basic.TimerFires h /\ Basic.timers st !! h = Some tm /\
          Basic.quizIdToClean tm = quiz /\ (Basic.due tm <= Basic.now st)%N)) /\
  (forall fuel rnd st i st' out quiz s,
      Scored.step fuel rnd st i = Some (st', out) ->
      Scored.byQuizId quiz st = Some s ->
      Scored.byQuizId quiz st' = None ->
      (exists h tm,
          i = Scored.TimerFires h /\ Scored.timers st !! h = Some tm /\
          Scored.quizIdToClean tm = quiz /\ (Scored.due tm <= Scored.now st)%N)) /\
  (forall fuel rnd st i st' out quiz s,
      Admin.step fuel rnd st i = Some (st', out) ->
      Admin.byQuizId quiz st = Some s ->
      Admin.byQuizId quiz st' = None ->
      (exists h tm,
          i = Admin.TimerFires h /\ Admin.timers st !! h = Some tm /\
          Admin.quizIdToClean tm = quiz /\ (Admin.due tm <= Admin.now st)%N) \/
      (exists id k,
          i = Admin.FetchSettles id Admin.ResponseOk /\
          Admin.fetches st !! id = Some k /\ Admin.sessionQuizId k = quiz)).
Proof.
  split; [|split].
  - intros fuel rnd st i st' out quiz s Hstep Hs Hs'.
    unfold Basic.byQuizId in Hs, Hs'.
    assert (forall p f,
               JsObject.get quiz (JsObject.modify_first p f (Basic.activeSessions st)) = None ->
               False) as Hkeep.
    { intros p f H. apply get_None_keys in H. rewrite keys_modify_first in H.
      apply get_None_keys in H. congruence. }
    destruct i as [socket quiz0 playerInfo|socket code nx ny|socket|h|ms]; simpl in Hstep.
    + exfalso. unfold Basic.request_session in Hstep.
      destruct (JsObject.get quiz0 (Basic.activeSessions st)) as [s0|] eqn:Hq0.
      * injection Hstep as <- <-. cbn [Basic.activeSessions] in Hs'.
        destruct (String.eqb_spec quiz0 quiz) as [->|Hne].
        -- rewrite get_set_eq in Hs'. discriminate.
        -- rewrite get_set_ne in Hs' by exact Hne. congruence.
      * destruct (JsObject.inherited quiz0); [discriminate|].
        destruct (Basic.generateRoomCode fuel rnd (Basic.activeSessions st) (Basic.draws st)) as [[code d]|] eqn:Hgen;
          [|discriminate].
        injection Hstep as <- <-. cbn [Basic.activeSessions] in Hs'.
        destruct (String.eqb_spec quiz0 quiz) as [->|Hne].
        -- rewrite get_set_eq in Hs'. discriminate.
        -- rewrite get_set_ne in Hs' by exact Hne. congruence.
    + exfalso. unfold Basic.player_movement in Hstep.
      destruct (JsObject.find_value _ _) as [s0|];
        [destruct (JsObject.get socket _) as [p|]|];
        injection Hstep as <- <-;
        cbn [Basic.set_activeSessions Basic.activeSessions] in Hs';
        try (exfalso; exact (Hkeep _ _ Hs')); congruence.
    + exfalso. unfold Basic.disconnect in Hstep.
      destruct (JsObject.find_entry _ _) as [[q ses]|].
      * destruct (truthy_opt_string _); injection Hstep as <- <-;
          cbn [Basic.set_activeSessions Basic.activeSessions] in Hs';
          exact (Hkeep _ _ Hs').
      * injection Hstep as <- <-. congruence.
    + unfold Basic.timer_fires in Hstep.
      destruct (Basic.timers st !! h) as [tm|] eqn:Htm; [|discriminate].
      destruct (Basic.due tm <=? Basic.now st)%N eqn:Hdue; [|discriminate].
      injection Hstep as <- <-. cbn [Basic.activeSessions] in Hs'.
      exists h, tm. split; [reflexivity|]. split; [exact Htm|].
      split; [|apply N.leb_le; exact Hdue].
      destruct (String.eqb_spec (Basic.quizIdToClean tm) quiz) as [Heq|Hne]; [exact Heq|].
      rewrite get_delete_ne in Hs' by exact Hne. congruence.
    + exfalso. injection Hstep as <- <-.
      cbn [Basic.elapse Basic.activeSessions] in Hs'. congruence.
  - intros fuel rnd st i st' out quiz s Hstep Hs Hs'.
    unfold Scored.byQuizId in Hs, Hs'.
    assert (forall p f,
               JsObject.get quiz (JsObject.modify_first p f (Scored.activeSessions st)) = None ->
               False) as Hkeep.
    { intros p f H. apply get_None_keys in H. rewrite keys_modify_first in H.
      apply get_None_keys in H. congruence. }
    destruct i as [socket quiz0 playerInfo|socket code nx ny|socket code n|socket|h|ms]; simpl in Hstep.
    + exfalso. unfold Scored.request_session in Hstep.
      destruct (JsObject.get quiz0 (Scored.activeSessions st)) as [s0|] eqn:Hq0.
      * injection Hstep as <- <-. cbn [Scored.activeSessions] in Hs'.
        destruct (String.eqb_spec quiz0 quiz) as [->|Hne].
        -- rewrite get_set_eq in Hs'. discriminate.
        -- rewrite get_set_ne in Hs' by exact Hne. congruence.
      * destruct (JsObject.inherited quiz0); [discriminate|].
        destruct (Scored.generateRoomCode fuel rnd st) as [[code d]|] eqn:Hgen;
          [|discriminate].
        injection Hstep as <- <-. cbn [Scored.activeSessions] in Hs'.
        destruct (String.eqb_spec quiz0 quiz) as [->|Hne].
        -- rewrite get_set_eq in Hs'. discriminate.
        -- rewrite get_set_ne in Hs' by exact Hne. congruence.
    + exfalso. unfold Scored.player_movement in Hstep.
      destruct (JsObject.find_value _ _) as [s0|];
        [destruct (JsObject.get socket _) as [p|]|];
        injection Hstep as <- <-;
        cbn [Scored.set_activeSessions Scored.activeSessions] in Hs';
        try (exfalso; exact (Hkeep _ _ Hs')); congruence.
    + exfalso. unfold Scored.update_score in Hstep.
      destruct (JsObject.find_value _ _) as [s0|];
        [destruct (JsObject.get socket _) as [p|]|];
        injection Hstep as <- <-;
        cbn [Scored.set_activeSessions Scored.activeSessions] in Hs';
        try (exfalso; exact (Hkeep _ _ Hs')); congruence.
    + exfalso. unfold Scored.disconnect in Hstep.
      destruct (JsObject.find_entry _ _) as [[q ses]|].
      * destruct (truthy_opt_string _); injection Hstep as <- <-;
          cbn [Scored.set_activeSessions Scored.activeSessions] in Hs';
          exact (Hkeep _ _ Hs').
      * injection Hstep as <- <-. congruence.
    + unfold Scored.timer_fires in Hstep.
      destruct (Scored.timers st !! h) as [tm|] eqn:Htm; [|discriminate].
      destruct (Scored.due tm <=? Scored.now st)%N eqn:Hdue; [|discriminate].
      injection Hstep as <- <-. cbn [Scored.activeSessions] in Hs'.
      exists h, tm. split; [reflexivity|]. split; [exact Htm|].
      split; [|apply N.leb_le; exact Hdue].
      destruct (String.eqb_spec (Scored.quizIdToClean tm) quiz) as [Heq|Hne]; [exact Heq|].
      rewrite get_delete_ne in Hs' by exact Hne. congruence.
    + exfalso. injection Hstep as <- <-.
      cbn [Scored.elapse Scored.activeSessions] in Hs'. congruence.
  - intros fuel rnd st i st' out quiz s Hstep Hs Hs'.
    unfold Admin.byQuizId in Hs, Hs'.
    assert (forall p f,
               JsObject.get quiz (JsObject.modify_first p f (Admin.activeSessions st)) = None ->
               False) as Hkeep.
    { intros p f H. apply get_None_keys in H. rewrite keys_modify_first in H.
      apply get_None_keys in H. congruence. }
    destruct i as [socket quiz0 playerInfo token|socket code nx ny|socket code n|socket code token|id o|socket|h|ms]; simpl in Hstep.
    + exfalso. unfold Admin.request_session in Hstep.
      destruct (JsObject.get quiz0 (Admin.activeSessions st)) as [s0|] eqn:Hq0.
      * injection Hstep as <- <-. cbn [Admin.activeSessions] in Hs'.
        destruct (String.eqb_spec quiz0 quiz) as [->|Hne].
        -- rewrite get_set_eq in Hs'. discriminate.
        -- rewrite get_set_ne in Hs' by exact Hne. congruence.
      * destruct (JsObject.inherited quiz0); [discriminate|].
        destruct (Admin.generateRoomCode fuel rnd st) as [[code d]|] eqn:Hgen;
          [|discriminate].
        injection Hstep as <- <-. cbn [Admin.activeSessions] in Hs'.
        destruct (String.eqb_spec quiz0 quiz) as [->|Hne].
        -- rewrite get_set_eq in Hs'. discriminate.
        -- rewrite get_set_ne in Hs' by exact Hne. congruence.
    + exfalso. unfold Admin.player_movement in Hstep.
      destruct (JsObject.find_value _ _) as [s0|];
        [destruct (JsObject.get socket _) as [p|]|];
        injection Hstep as <- <-;
        cbn [Admin.set_activeSessions Admin.activeSessions] in Hs';
        try (exfalso; exact (Hkeep _ _ Hs')); congruence.
    + exfalso. unfold Admin.update_score in Hstep.
      destruct (JsObject.find_value _ _) as [s0|];
        [destruct (JsObject.get socket _) as [p|]|];
        injection Hstep as <- <-;
        cbn [Admin.set_activeSessions Admin.activeSessions] in Hs';
        try (exfalso; exact (Hkeep _ _ Hs')); congruence.
    + exfalso. unfold Admin.admin_end_quiz in Hstep.
      destruct (JsObject.find_value _ _) as [s0|];
        [destruct (opt_string_eqb _ _)|];
        injection Hstep as <- <-; cbn [Admin.activeSessions] in Hs'; congruence.
    + unfold Admin.fetch_settles in Hstep.
      destruct (Admin.fetches st !! id) as [k|] eqn:Hk; [|discriminate].
      destruct o as [|[errorData|]|]; injection Hstep as <- <-;
        cbn [Admin.activeSessions] in Hs'; try congruence.
      right. exists id, k. split; [reflexivity|]. split; [exact Hk|].
      destruct (String.eqb_spec (Admin.sessionQuizId k) quiz) as [Heq|Hne]; [exact Heq|].
      rewrite get_delete_ne in Hs' by exact Hne. congruence.
    + exfalso. unfold Admin.disconnect in Hstep.
      destruct (JsObject.find_entry _ _) as [[q ses]|].
      * destruct (truthy_opt_string _); injection Hstep as <- <-;
          cbn [Admin.set_activeSessions Admin.activeSessions] in Hs';
          exact (Hkeep _ _ Hs').
      * injection Hstep as <- <-. congruence.
    + unfold Admin.timer_fires in Hstep.
      destruct (Admin.timers st !! h) as [tm|] eqn:Htm; [|discriminate].
      destruct (Admin.due tm <=? Admin.now st)%N eqn:Hdue; [|discriminate].
      injection Hstep as <- <-. cbn [Admin.activeSessions] in Hs'.
      left. exists h, tm. split; [reflexivity|]. split; [exact Htm|].
      split; [|apply N.leb_le; exact Hdue].
      destruct (String.eqb_spec (Admin.quizIdToClean tm) quiz) as [Heq|Hne]; [exact Heq|].
      rewrite get_delete_ne in Hs' by exact Hne. congruence.
    + exfalso. injection Hstep as <- <-.
      cbn [Admin.elapse Admin.activeSessions] in Hs'. congruence.
Qed.

Lemma session_enters_witness :
  exists st' s',
    option_map fst
      (Admin.step 1 by_attempt Admin.init
         (Admin.RequestSession "s1" "quiz42" admin_ann (Some "secret"))) = Some st' /\
    Admin.byQuizId "quiz42" st' = Some s' /\
    Admin.players s' = [("s1", Admin.joined admin_ann)] /\
    Admin.adminToken s' = Some "secret" /\
    Admin.isCodeInUse Admin.init (Admin.roomCode s') = false.
Proof.
  assert (option_map fst
            (Admin.step 1 by_attempt Admin.init
               (Admin.RequestSession "s1" "quiz42" admin_ann (Some "secret"))) =
          Some {| Admin.activeSessions :=
                    [("quiz42",
                      {| Admin.roomCode := "AAAAAA"; Admin.quizId := "quiz42";
                         Admin.players := [("s1", Admin.joined admin_ann)];
                         Admin.adminToken := Some "secret";
                         Admin.cleanupTimeout := None |})];
                  Admin.timers := ∅; Admin.next_timer := 0; Admin.fetches := ∅;
                  Admin.next_fetch := 0; Admin.draws := 6; Admin.now := 0%N |})
    as Hst by reflexivity.
  destruct (Admin.step 1 by_attempt Admin.init
              (Admin.RequestSession "s1" "quiz42" admin_ann (Some "secret")))
    as [[st' out]|] eqn:Hstep; [|discriminate Hst].
  simpl in Hst. injection Hst as ->.
  destruct session_enters_by_request_only as (_ & _ & HA).
  destruct (HA _ _ _ _ _ _ "quiz42" _ Hstep eq_refl eq_refl)
    as (socket & playerInfo & token & Hi & Hplayers & _ & _ & Htoken & Hfree & _).
  injection Hi as Hsocket HplayerInfo Htok. subst socket playerInfo token.
  eexists _, _. split; [reflexivity|]. split; [reflexivity|].
  split; [exact Hplayers|]. split; [exact Htoken|exact Hfree].
Defined.

Lemma session_leaves_witness :
  exists h tm,
    Basic.byQuizId "quiz42"
      (Basic.elapse 60000 (fst (Basic.disconnect "s2" (fst (Basic.disconnect "s1" basic_rooms))))) =
      Some {| Basic.roomCode := "AAAAAA"; Basic.players := [];
              Basic.cleanupTimeout := Some 0 |} /\
    Basic.timers
      (Basic.elapse 60000 (fst (Basic.disconnect "s2" (fst (Basic.disconnect "s1" basic_rooms)))))
      !! h = Some tm /\
    Basic.quizIdToClean tm = "quiz42" /\ (Basic.due tm <= 60000)%N.
Proof.
  destruct session_leaves_by_timer_or_finalization_only as (HB & _).
  destruct (HB 1 by_attempt
              (Basic.elapse 60000
                 (fst (Basic.disconnect "s2" (fst (Basic.disconnect "s1" basic_rooms)))))
              (Basic.TimerFires 0)
              (Basic.set_activeSessions
                 [("quiz7", {| Basic.roomCode := "BBBBBB";
                               Basic.players := [("s2", basic_bob)];
                               Basic.cleanupTimeout := None |})]
                 {| Basic.activeSessions := []; Basic.timers := ∅;
                    Basic.next_timer := 1; Basic.draws := 12; Basic.now := 60000%N |})
              [] "quiz42" _ ltac:(vm_compute; reflexivity) eq_refl eq_refl)
    as (h & tm & _ & Htm & Hquiz & Hdue).
  exists h, tm. split; [reflexivity|]. split; [exact Htm|]. split; [exact Hquiz|exact Hdue].
Defined.

(** ** Quiz ids and room codes that name members of [Object.prototype] *)

Lemma shadows_nothing_nil {V : Type} : shadows_nothing (@nil (string * V)).
Proof. intros k _. reflexivity. Qed.

Lemma Basic_step_shadows_nothing fuel rnd st i st' out :
  shadows_nothing (Basic.activeSessions st) ->
  Basic.step fuel rnd st i = Some (st', out) ->
  shadows_nothing (Basic.activeSessions st').
Proof.
  intros Hinv Hstep k Hk. specialize (Hinv k Hk).
  destruct (JsObject.get k (Basic.activeSessions st')) as [s'|] eqn:Hs'; [exfalso|reflexivity].
  assert (forall p f,
             JsObject.get k (JsObject.modify_first p f (Basic.activeSessions st)) = None)
    as Hkeep by (intros p f; apply get_modify_first_None; exact Hinv).
  destruct i as [socket quiz0 playerInfo|socket code nx ny|socket|h|ms]; simpl in Hstep.
  - unfold Basic.request_session in Hstep.
    destruct (JsObject.get quiz0 (Basic.activeSessions st)) as [s0|] eqn:Hq0.
    + injection Hstep as <- <-. cbn [Basic.activeSessions] in Hs'.
      destruct (String.eqb_spec quiz0 k) as [->|Hne]; [congruence|].
      rewrite get_set_ne in Hs' by exact Hne. congruence.
    + destruct (JsObject.inherited quiz0) eqn:Hinh; [discriminate|].
      destruct (Basic.generateRoomCode fuel rnd (Basic.activeSessions st) (Basic.draws st)) as [[code d]|];
        [|discriminate].
      injection Hstep as <- <-. cbn [Basic.activeSessions] in Hs'.
      destruct (String.eqb_spec quiz0 k) as [->|Hne]; [congruence|].
      rewrite get_set_ne in Hs' by exact Hne. congruence.
  - unfold Basic.player_movement in Hstep.
    destruct (JsObject.find_value _ _) as [s0|];
      [destruct (JsObject.get socket _) as [p|]|];
      injection Hstep as <- <-;
      cbn [Basic.set_activeSessions Basic.activeSessions] in Hs';
      try rewrite Hkeep in Hs'; congruence.
  - unfold Basic.disconnect in Hstep.
    destruct (JsObject.find_entry _ _) as [[q ses]|].
    + destruct (truthy_opt_string _); injection Hstep as <- <-;
        cbn [Basic.set_activeSessions Basic.activeSessions] in Hs';
        rewrite Hkeep in Hs'; discriminate.
    + injection Hstep as <- <-. congruence.
  - unfold Basic.timer_fires in Hstep.
    destruct (Basic.timers st !! h) as [tm|]; [|discriminate].
    destruct (Basic.due tm <=? Basic.now st)%N; [|discriminate].
    injection Hstep as <- <-. cbn [Basic.activeSessions] in Hs'.
    apply get_delete_subset in Hs'. congruence.
  - injection Hstep as <- <-. cbn [Basic.elapse Basic.activeSessions] in Hs'. congruence.
Qed.

Lemma Basic_run_shadows_nothing fuel rnd inputs : forall st st' out,
  shadows_nothing (Basic.activeSessions st) ->
  Basic.run fuel rnd st inputs = Some (st', out) ->
  shadows_nothing (Basic.activeSessions st').
Proof.
  induction inputs as [|i inputs IH]; intros st st' out Hinv; simpl.
  - intros [= <- <-]. exact Hinv.
  - destruct (Basic.step fuel rnd st i) as [[st1 out1]|] eqn:Hstep; [|discriminate].
    destruct (Basic.run fuel rnd st1 inputs) as [[st2 out2]|] eqn:Hrun; [|discriminate].
    intros [= <- <-]. eapply IH; [|exact Hrun].
    eapply Basic_step_shadows_nothing; eauto.
Qed.

Lemma Scored_step_shadows_nothing fuel rnd st i st' out :
  shadows_nothing (Scored.activeSessions st) ->
  Scored.step fuel rnd st i = Some (st', out) ->
  shadows_nothing (Scored.activeSessions st').
Proof.
  intros Hinv Hstep k Hk. specialize (Hinv k Hk).
  destruct (JsObject.get k (Scored.activeSessions st')) as [s'|] eqn:Hs'; [exfalso|reflexivity].
  assert (forall p f,
             JsObject.get k (JsObject.modify_first p f (Scored.activeSessions st)) = None)
    as Hkeep by (intros p f; apply get_modify_first_None; exact Hinv).
  destruct i as [socket quiz0 playerInfo|socket code nx ny|socket code n|socket|h|ms]; simpl in Hstep.
  - unfold Scored.request_session in Hstep.
    destruct (JsObject.get quiz0 (Scored.activeSessions st)) as [s0|] eqn:Hq0.
    + injection Hstep as <- <-. cbn [Scored.activeSessions] in Hs'.
      destruct (String.eqb_spec quiz0 k) as [->|Hne]; [congruence|].
      rewrite get_set_ne in Hs' by exact Hne. congruence.
    + destruct (JsObject.inherited quiz0) eqn:Hinh; [discriminate|].
      destruct (Scored.generateRoomCode fuel rnd st) as [[code d]|];
        [|discriminate].
      injection Hstep as <- <-. cbn [Scored.activeSessions] in Hs'.
      destruct (String.eqb_spec quiz0 k) as [->|Hne]; [congruence|].
      rewrite get_set_ne in Hs' by exact Hne. congruence.
  - unfold Scored.player_movement in Hstep.
    destruct (JsObject.find_value _ _) as [s0|];
      [destruct (JsObject.get socket _) as [p|]|];
      injection Hstep as <- <-;
      cbn [Scored.set_activeSessions Scored.activeSessions] in Hs';
      try rewrite Hkeep in Hs'; congruence.
  - unfold Scored.update_score in Hstep.
    destruct (JsObject.find_value _ _) as [s0|];
      [destruct (JsObject.get socket _) as [p|]|];
      injection Hstep as <- <-;
      cbn [Scored.set_activeSessions Scored.activeSessions] in Hs';
      try rewrite Hkeep in Hs'; congruence.
  - unfold Scored.disconnect in Hstep.
    destruct (JsObject.find_entry _ _) as [[q ses]|].
    + destruct (truthy_opt_string _); injection Hstep as <- <-;
        cbn [Scored.set_activeSessions Scored.activeSessions] in Hs';
        rewrite Hkeep in Hs'; discriminate.
    + injection Hstep as <- <-. congruence.
  - unfold Scored.timer_fires in Hstep.
    destruct (Scored.timers st !! h) as [tm|]; [|discriminate].
    destruct (Scored.due tm <=? Scored.now st)%N; [|discriminate].
    injection Hstep as <- <-. cbn [Scored.activeSessions] in Hs'.
    apply get_delete_subset in Hs'. congruence.
  - injection Hstep as <- <-. cbn [Scored.elapse Scored.activeSessions] in Hs'. congruence.
Qed.

Lemma Scored_run_shadows_nothing fuel rnd inputs : forall st st' out,
  shadows_nothing (Scored.activeSessions st) ->
  Scored.run fuel rnd st inputs = Some (st', out) ->
  shadows_nothing (Scored.activeSessions st').
Proof.
  induction inputs as [|i inputs IH]; intros st st' out Hinv; simpl.
  - intros [= <- <-]. exact Hinv.
  - destruct (Scored.step fuel rnd st i) as [[st1 out1]|] eqn:Hstep; [|discriminate].
    destruct (Scored.run fuel rnd st1 inputs) as [[st2 out2]|] eqn:Hrun; [|discriminate].
    intros [= <- <-]. eapply IH; [|exact Hrun].
    eapply Scored_step_shadows_nothing; eauto.
Qed.

Lemma Admin_step_shadows_nothing fuel rnd st i st' out :
  shadows_nothing (Admin.activeSessions st) ->
  Admin.step fuel rnd st i = Some (st', out) ->
  shadows_nothing (Admin.activeSessions st').
Proof.
  intros Hinv Hstep k Hk. specialize (Hinv k Hk).
  destruct (JsObject.get k (Admin.activeSessions st')) as [s'|] eqn:Hs'; [exfalso|reflexivity].
  assert (forall p f,
             JsObject.get k (JsObject.modify_first p f (Admin.activeSessions st)) = None)
    as Hkeep by (intros p f; apply get_modify_first_None; exact Hinv).
  destruct i as [socket quiz0 playerInfo token|socket code nx ny|socket code n|socket code token|id o|socket|h|ms]; simpl in Hstep.
  - unfold Admin.request_session in Hstep.
    destruct (JsObject.get quiz0 (Admin.activeSessions st)) as [s0|] eqn:Hq0.
    + injection Hstep as <- <-. cbn [Admin.activeSessions] in Hs'.
      destruct (String.eqb_spec quiz0 k) as [->|Hne]; [congruence|].
      rewrite get_set_ne in Hs' by exact Hne. congruence.
    + destruct (JsObject.inherited quiz0) eqn:Hinh; [discriminate|].
      destruct (Admin.generateRoomCode fuel rnd st) as [[code d]|];
        [|discriminate].
      injection Hstep as <- <-. cbn [Admin.activeSessions] in Hs'.
      destruct (String.eqb_spec quiz0 k) as [->|Hne]; [congruence|].
      rewrite get_set_ne in Hs' by exact Hne. congruence.
  - unfold Admin.player_movement in Hstep.
    destruct (JsObject.find_value _ _) as [s0|];
      [destruct (JsObject.get socket _) as [p|]|];
      injection Hstep as <- <-;
      cbn [Admin.set_activeSessions Admin.activeSessions] in Hs';
      try rewrite Hkeep in Hs'; congruence.
  - unfold Admin.update_score in Hstep.
    destruct (JsObject.find_value _ _) as [s0|];
      [destruct (JsObject.get socket _) as [p|]|];
      injection Hstep as <- <-;
      cbn [Admin.set_activeSessions Admin.activeSessions] in Hs';
      try rewrite Hkeep in Hs'; congruence.
  - unfold Admin.admin_end_quiz in Hstep.
    destruct (JsObject.find_value _ _) as [s0|];
      [destruct (opt_string_eqb _ _)|];
      injection Hstep as <- <-; cbn [Admin.activeSessions] in Hs'; congruence.
  - unfold Admin.fetch_settles in Hstep.
    destruct (Admin.fetches st !! id) as [k0|]; [|discriminate].
    destruct o as [|[errorData|]|]; injection Hstep as <- <-;
      cbn [Admin.activeSessions] in Hs';
      try apply get_delete_subset in Hs'; congruence.
  - unfold Admin.disconnect in Hstep.
    destruct (JsObject.find_entry _ _) as [[q ses]|].
    + destruct (truthy_opt_string _); injection Hstep as <- <-;
        cbn [Admin.set_activeSessions Admin.activeSessions] in Hs';
        rewrite Hkeep in Hs'; discriminate.
    + injection Hstep as <- <-. congruence.
  - unfold Admin.timer_fires in Hstep.
    destruct (Admin.timers st !! h) as [tm|]; [|discriminate].
    destruct (Admin.due tm <=? Admin.now st)%N; [|discriminate].
    injection Hstep as <- <-. cbn [Admin.activeSessions] in Hs'.
    apply get_delete_subset in Hs'. congruence.
  - injection Hstep as <- <-. cbn [Admin.elapse Admin.activeSessions] in Hs'. congruence.
Qed.

Lemma Admin_run_shadows_nothing fuel rnd inputs : forall st st' out,
  shadows_nothing (Admin.activeSessions st) ->
  Admin.run fuel rnd st inputs = Some (st', out) ->
  shadows_nothing (Admin.activeSessions st').
Proof.
  induction inputs as [|i inputs IH]; intros st st' out Hinv; simpl.
  - intros [= <- <-]. exact Hinv.
  - destruct (Admin.step fuel rnd st i) as [[st1 out1]|] eqn:Hstep; [|discriminate].
    destruct (Admin.run fuel rnd st1 inputs) as [[st2 out2]|] eqn:Hrun; [|discriminate].
    intros [= <- <-]. eapply IH; [|exact Hrun].
    eapply Admin_step_shadows_nothing; eauto.
Qed.

Lemma TwoIndex_step_shadows_nothing fuel rnd st i st' out :
  shadows_nothing (TwoIndex.activeSessionsByQuizId st) /\
  shadows_nothing (TwoIndex.activeSessionsByRoomCode st) ->
  TwoIndex.step fuel rnd st i = Some (st', out) ->
  shadows_nothing (TwoIndex.activeSessionsByQuizId st') /\
  shadows_nothing (TwoIndex.activeSessionsByRoomCode st').
Proof.
  intros Hinv.
  destruct i as [socket quiz|socket code info|socket code nx ny|socket|h|ms]; simpl.
  - unfold TwoIndex.request_session.
    destruct (JsObject.get quiz (TwoIndex.activeSessionsByQuizId st)) as [a|] eqn:Hget.
    + destruct (TwoIndex.store st !! a) as [s|]; [|discriminate].
      destruct (TwoIndex.cleanupTimeout s) as [h|]; intros [= <- <-]; exact Hinv.
    + destruct (JsObject.inherited quiz) eqn:Hinh; [intros [= <- <-]; exact Hinv|].
      destruct (TwoIndex.generateRoomCode fuel rnd st) as [[code d]|] eqn:Hgen;
        [|discriminate].
      cbn [TwoIndex.store]. rewrite lookup_insert_eq. cbn [TwoIndex.cleanupTimeout].
      intros [= <- <-]. cbn [TwoIndex.activeSessionsByQuizId TwoIndex.activeSessionsByRoomCode].
      unfold TwoIndex.generateRoomCode in Hgen.
      apply generate_sound in Hgen as [Hfree _].
      apply isCodeInUse_false_TwoIndex in Hfree as [_ Hcode].
      destruct Hinv as [Hq Hc]. split; intros k Hk.
      * rewrite get_set_ne by congruence. apply Hq. exact Hk.
      * rewrite get_set_ne by congruence. apply Hc. exact Hk.
  - unfold TwoIndex.join_game.
    destruct (JsObject.get code (TwoIndex.activeSessionsByRoomCode st)) as [a|];
      [|destruct (JsObject.inherited code); [discriminate|]; intros [= <- <-]; exact Hinv].
    destruct (TwoIndex.store st !! a) as [s|]; intros [= <- <-]; exact Hinv.
  - unfold TwoIndex.player_movement.
    destruct (JsObject.get code (TwoIndex.activeSessionsByRoomCode st)) as [a|];
      [|destruct (JsObject.inherited code); [discriminate|]; intros [= <- <-]; exact Hinv].
    destruct (TwoIndex.store st !! a) as [s|]; [|intros [= <- <-]; exact Hinv].
    destruct (JsObject.get socket (TwoIndex.players s)) as [p|];
      intros [= <- <-]; exact Hinv.
  - unfold TwoIndex.disconnect.
    destruct (JsObject.find_entry _ _) as [[code a]|]; [|intros [= <- <-]; exact Hinv].
    destruct (TwoIndex.store st !! a) as [s|]; [|intros [= <- <-]; exact Hinv].
    destruct (JsObject.is_empty _); intros [= <- <-]; exact Hinv.
  - unfold TwoIndex.timer_fires.
    destruct (TwoIndex.timers st !! h) as [tm|]; [|discriminate].
    destruct (TwoIndex.due tm <=? TwoIndex.now st)%N; [|discriminate].
    destruct (TwoIndex.store st !! TwoIndex.session tm) as [s|]; [|discriminate].
    intros [= <- <-]. cbn [TwoIndex.activeSessionsByQuizId TwoIndex.activeSessionsByRoomCode].
    destruct Hinv as [Hq Hc]. split; intros k Hk.
    + destruct (JsObject.get k (JsObject.delete _ (TwoIndex.activeSessionsByQuizId st)))
        eqn:E; [|reflexivity].
      apply get_delete_subset in E. rewrite (Hq k Hk) in E. discriminate.
    + destruct (JsObject.get k (JsObject.delete _ (TwoIndex.activeSessionsByRoomCode st)))
        eqn:E; [|reflexivity].
      apply get_delete_subset in E. rewrite (Hc k Hk) in E. discriminate.
  - intros [= <- <-]. exact Hinv.
Qed.

Lemma TwoIndex_run_shadows_nothing fuel rnd inputs : forall st st' out,
  shadows_nothing (TwoIndex.activeSessionsByQuizId st) /\
  shadows_nothing (TwoIndex.activeSessionsByRoomCode st) ->
  TwoIndex.run fuel rnd st inputs = Some (st', out) ->
  shadows_nothing (TwoIndex.activeSessionsByQuizId st') /\
  shadows_nothing (TwoIndex.activeSessionsByRoomCode st').
Proof.
  induction inputs as [|i inputs IH]; intros st st' out Hinv; simpl.
  - intros [= <- <-]. exact Hinv.
  - destruct (TwoIndex.step fuel rnd st i) as [[st1 out1]|] eqn:Hstep; [|discriminate].
    destruct (TwoIndex.run fuel rnd st1 inputs) as [[st2 out2]|] eqn:Hrun; [|discriminate].
    intros [= <- <-]. eapply IH; [|exact Hrun].
    eapply TwoIndex_step_shadows_nothing; eauto.
Qed.

(** X20.  In server.ts, in the revision with scores and in the revision
    with an admin, in every state of every run: a [request_session] whose
    quiz id names a member of [Object.prototype] throws, whatever the draws
    and the room on the stack.  No registry ever holds such a quiz id as a
    key of its own, so the handler finds the inherited member every time
    and creates no session for it. *)
Theorem prototype_named_quiz_id_throws :
  (forall fuel0 rnd0 inputs st out0 fuel rnd socket quiz playerInfo,
      Basic.run fuel0 rnd0 Basic.init inputs = Some (st, out0) ->
      JsObject.inherited quiz = true ->
      Basic.byQuizId quiz st = None /\
      Basic.request_session fuel rnd socket quiz playerInfo st = None) /\
  (forall fuel0 rnd0 inputs st out0 fuel rnd socket quiz playerInfo,
      Scored.run fuel0 rnd0 Scored.init inputs = Some (st, out0) ->
      JsObject.inherited quiz = true ->
      Scored.byQuizId quiz st = None /\
      Scored.request_session fuel rnd socket quiz playerInfo st = None) /\
  (forall fuel0 rnd0 inputs st out0 fuel rnd socket quiz playerInfo token,
      Admin.run fuel0 rnd0 Admin.init inputs = Some (st, out0) ->
      JsObject.inherited quiz = true ->
      Admin.byQuizId quiz st = None /\
      Admin.request_session fuel rnd socket quiz playerInfo token st = None).
Proof.
  split; [|split].
  - intros fuel0 rnd0 inputs st out0 fuel rnd socket quiz playerInfo Hrun Hinh.
    pose proof (Basic_run_shadows_nothing _ _ _ Basic.init _ _ shadows_nothing_nil Hrun quiz Hinh)
      as Hnone.
    split; [exact Hnone|]. unfold Basic.request_session. rewrite Hnone, Hinh. reflexivity.
  - intros fuel0 rnd0 inputs st out0 fuel rnd socket quiz playerInfo Hrun Hinh.
    pose proof (Scored_run_shadows_nothing _ _ _ Scored.init _ _ shadows_nothing_nil Hrun quiz Hinh)
      as Hnone.
    split; [exact Hnone|]. unfold Scored.request_session. rewrite Hnone, Hinh. reflexivity.
  - intros fuel0 rnd0 inputs st out0 fuel rnd socket quiz playerInfo token Hrun Hinh.
    pose proof (Admin_run_shadows_nothing _ _ _ Admin.init _ _ shadows_nothing_nil Hrun quiz Hinh)
      as Hnone.
    split; [exact Hnone|]. unfold Admin.request_session. rewrite Hnone, Hinh. reflexivity.
Qed.

Lemma prototype_named_quiz_id_witness :
  Basic.request_session 1 by_attempt "s3" "constructor" basic_ann basic_rooms = None /\
  Scored.request_session 1 by_attempt "s3" "__proto__" scored_ann scored_room = None /\
  Admin.request_session 1 by_attempt "s3" "toString" admin_ann (Some "secret")
    admin_room = None.
Proof.
  destruct prototype_named_quiz_id_throws as (HB & HS & HA).
  pose proof basic_rooms_run as HstB.
  destruct (Basic.run 1 by_attempt Basic.init basic_rooms_inputs) as [[stB outB]|] eqn:HrunB;
    [|discriminate HstB].
  simpl in HstB. injection HstB as ->.
  pose proof scored_room_run as HstS.
  destruct (Scored.run 1 by_attempt Scored.init scored_room_inputs) as [[stS outS]|] eqn:HrunS;
    [|discriminate HstS].
  simpl in HstS. injection HstS as ->.
  pose proof admin_room_run as HstA.
  destruct (Admin.run 1 by_attempt Admin.init admin_room_inputs) as [[stA outA]|] eqn:HrunA;
    [|discriminate HstA].
  simpl in HstA. injection HstA as ->.
  split; [|split].
  - exact (proj2 (HB _ _ _ _ _ 1 by_attempt "s3" "constructor" basic_ann HrunB eq_refl)).
  - exact (proj2 (HS _ _ _ _ _ 1 by_attempt "s3" "__proto__" scored_ann HrunS eq_refl)).
  - exact (proj2 (HA _ _ _ _ _ 1 by_attempt "s3" "toString" admin_ann (Some "secret")
                    HrunA eq_refl)).
Defined.

(** X21.  In the revision with two registries, in every state of every run,
    for a key that names a member of [Object.prototype]: neither registry
    holds it as a key of its own; [request_session] for it as a quiz id
    answers [session_created] without a room code, creates no session and
    leaves the state as it was; [join_game] and [player_movement] for it as
    a room code throw. *)
Theorem prototype_named_key_two_registries :
  forall fuel0 rnd0 inputs st out0 fuel rnd socket key playerInfo nx ny,
    TwoIndex.run fuel0 rnd0 TwoIndex.init inputs = Some (st, out0) ->
    JsObject.inherited key = true ->
    TwoIndex.byQuizId key st = None /\
    TwoIndex.byRoomCode key st = None /\
    TwoIndex.request_session fuel rnd socket key st =
      Some (st, [ TwoIndex.Emit (ToSocket socket) (TwoIndex.session_created None) ]) /\
    TwoIndex.join_game socket key playerInfo st = None /\
    TwoIndex.player_movement socket key nx ny st = None.
Proof.
  intros fuel0 rnd0 inputs st out0 fuel rnd socket key playerInfo nx ny Hrun Hinh.
  destruct (TwoIndex_run_shadows_nothing _ _ _ TwoIndex.init _ _
              (conj shadows_nothing_nil shadows_nothing_nil) Hrun) as [Hq Hc].
  specialize (Hq key Hinh). specialize (Hc key Hinh).
  unfold TwoIndex.byQuizId, TwoIndex.byRoomCode, TwoIndex.request_session,
    TwoIndex.join_game, TwoIndex.player_movement.
  rewrite Hq, Hc, Hinh. repeat split; reflexivity.
Qed.

Lemma prototype_named_key_two_witness :
  TwoIndex.request_session 1 by_attempt "s2" "constructor" two_room =
    Some (two_room, [ TwoIndex.Emit (ToSocket "s2") (TwoIndex.session_created None) ]) /\
  TwoIndex.join_game "s2" "constructor" two_bob two_room = None /\
  TwoIndex.player_movement "s1" "constructor" 7%Z 9%Z two_room = None.
Proof.
  pose proof two_room_run as Hst.
  destruct (TwoIndex.run 1 by_attempt TwoIndex.init two_room_inputs) as [[st out]|] eqn:Hrun;
    [|discriminate Hst].
  simpl in Hst. injection Hst as ->.
  destruct (prototype_named_key_two_registries _ _ _ _ _ 1 by_attempt "s2" "constructor"
              two_bob 7%Z 9%Z Hrun eq_refl) as (_ & _ & Hreq & Hjoin & _).
  destruct (prototype_named_key_two_registries _ _ _ _ _ 1 by_attempt "s1" "constructor"
              two_bob 7%Z 9%Z Hrun eq_refl) as (_ & _ & _ & _ & Hmove).
  split; [exact Hreq|]. split; [exact Hjoin|exact Hmove].
Defined.
